(** * LexiAssist backend: the AI round-generation and word-detective pipelines

    A shallow embedding of [app/ai/storybook.py] and [app/ai/worddetective.py]
    together with the fragment of Python's data model and of the [json]
    module that these two files rely on.

    - [Py]            Python values, exceptions and the built-ins used by the code
    - [Json]          [json.loads], after CPython's [json.decoder] / [json.scanner]
    - [storybook]     the storybook endpoints, the gateway and the round cache
    - [Float]         binary64 division, multiplication and [round]
    - [worddetective] the word-pair endpoints and the mistake classifier

    The properties follow the embedding; they are numbered C1 to C10 after
    the statements of the specification they settle.  Output written with
    [print] is not part of the model. *)

From Stdlib Require Import ZArith NArith List String Ascii Bool Lia QArith.
From stdpp Require Import base option list gmap.

Set Warnings "-register-all".
Open Scope Z_scope.

(* ===================================================================== *)
(** * Python's data model, as far as the code uses it                     *)
(* ===================================================================== *)

Module Py.

(** A Python [str] is a sequence of Unicode code points. *)
Abbreviation char := N.
Abbreviation str := (list N).

Definition chr (a : ascii) : char := N_of_ascii a.

(** [py "text"] is the [str] with the given ASCII characters. *)
Definition py (s : string) : str := map chr (list_ascii_of_string s).

(** [pyq] reads [~] as the double quote, so that literals of the source
    which contain double quotes can be written down. *)
Definition pyq (s : string) : str :=
  map (fun c => if N.eqb c 126 then 34%N else c) (py s).

Fixpoint str_eqb (a b : str) : bool :=
  match a, b with
  | [], [] => true
  | x :: a', y :: b' => N.eqb x y && str_eqb a' b'
  | _, _ => false
  end.

(** Exceptions that can reach the code.  Every constructor is a subclass of
    [Exception]; [JSONDecodeError] is the only one a handler of the source
    names explicitly.  It derives from [ValueError], but an [except] clause
    for it does not catch a plain [ValueError]. *)
Inductive exn : Type :=
| TypeError
| KeyError
| IndexError
| AttributeError
| JSONDecodeError
| ProviderError (detail : str)
| ValueError
| RecursionError
| ResponseValidationError.

Inductive res (A : Type) : Type :=
| Ok (a : A)
| Raise (e : exn).
Arguments Ok {A} a.
Arguments Raise {A} e.

(** [let! x := e in k] runs [e]; an exception raised by [e] propagates. *)
Notation "'let!' x ':=' e 'in' k" :=
  (match e with
   | Ok x => k
   | Raise err => Raise err
   end)
  (at level 10, x pattern, e at level 100, k at level 200, only parsing).

(** A [float] is kept as the literal it was read from: a sign, a decimal
    mantissa and a decimal exponent, or one of the three special values.
    The code never computes with the floats of a payload; it only tests
    their truth value, which [float_is_zero] decides on the binary64 value
    the literal rounds to. *)
Inductive float_lit : Type :=
| FDec (negative : bool) (mantissa : N) (exponent : Z)
| FNaN
| FInf (negative : bool).

(** A decimal literal rounds to (plus or minus) zero exactly when its
    magnitude is at most half of the smallest subnormal, [2^-1075]. *)
Definition float_is_zero (f : float_lit) : bool :=
  match f with
  | FDec _ m e =>
      if N.eqb m 0 then true
      else if 0 <=? e then false
      else Z.of_N m * 2 ^ 1075 <=? 10 ^ (- e)
  | FNaN => false
  | FInf _ => false
  end.

(** The values [json.loads] can produce, and the constants of the source.
    A [dict] keeps its keys in insertion order and holds each key once. *)
Inductive value : Type :=
| VNone
| VBool (b : bool)
| VInt (z : Z)
| VFloat (f : float_lit)
| VStr (s : str)
| VList (l : list value)
| VDict (d : list (str * value)).

Fixpoint dict_get (k : str) (d : list (str * value)) : option value :=
  match d with
  | [] => None
  | (k', v) :: d' => if str_eqb k k' then Some v else dict_get k d'
  end.

(** [d[k] = v]: an existing key keeps its place, a new key goes last. *)
Fixpoint dict_set (k : str) (v : value) (d : list (str * value))
  : list (str * value) :=
  match d with
  | [] => [(k, v)]
  | (k', v') :: d' =>
      if str_eqb k k' then (k', v) :: d' else (k', v') :: dict_set k v d'
  end.

(** Truth value testing ([if not x]). *)
Definition truthy (v : value) : bool :=
  match v with
  | VNone => false
  | VBool b => b
  | VInt z => negb (z =? 0)
  | VFloat f => negb (float_is_zero f)
  | VStr s => negb (Nat.eqb (length s) 0)
  | VList l => negb (Nat.eqb (length l) 0)
  | VDict d => negb (Nat.eqb (length d) 0)
  end.

Definition str_truthy (s : str) : bool := negb (Nat.eqb (length s) 0).

(** [a.startswith(b)], read on the remaining text. *)
Fixpoint prefixb (sub s : str) : bool :=
  match sub, s with
  | [], _ => true
  | c :: sub', d :: s' => N.eqb c d && prefixb sub' s'
  | _ :: _, [] => false
  end.

(** [sub in s] for two strings. *)
Fixpoint str_contains (sub s : str) : bool :=
  prefixb sub s ||
  match s with
  | [] => false
  | _ :: s' => str_contains sub s'
  end.

Definition is_str (k : str) (v : value) : bool :=
  match v with
  | VStr s => str_eqb k s
  | _ => false
  end.

(** [k in v] for a string [k]: key of a dict, element of a list, substring
    of a string; any other right operand is not iterable. *)
Definition contains (k : str) (v : value) : res bool :=
  match v with
  | VDict d => Ok (bool_decide (is_Some (dict_get k d)))
  | VList l => Ok (existsb (is_str k) l)
  | VStr s => Ok (str_contains k s)
  | _ => Raise TypeError
  end.

(** [len(v)]. *)
Definition len (v : value) : res Z :=
  match v with
  | VDict d => Ok (Z.of_nat (length d))
  | VList l => Ok (Z.of_nat (length l))
  | VStr s => Ok (Z.of_nat (length s))
  | _ => Raise TypeError
  end.

(** [v[k]] for a string [k].  Lists and strings take integer indices only;
    the remaining values are not subscriptable. *)
Definition getitem (v : value) (k : str) : res value :=
  match v with
  | VDict d =>
      match dict_get k d with
      | Some x => Ok x
      | None => Raise KeyError
      end
  | _ => Raise TypeError
  end.

(** [v[k] = x] for a string [k]. *)
Definition setitem (v : value) (k : str) (x : value) : res value :=
  match v with
  | VDict d => Ok (VDict (dict_set k x d))
  | _ => Raise TypeError
  end.

(** [s[start:stop]] on a sequence of length [length s]. *)
Definition clamp (n : Z) (i : Z) : Z :=
  if i <? 0 then Z.max 0 (i + n) else Z.min i n.

Definition slice {A : Type} (s : list A) (start stop : Z) : list A :=
  let n := Z.of_nat (length s) in
  let a := clamp n start in
  let b := clamp n stop in
  firstn (Z.to_nat (b - a)) (skipn (Z.to_nat a) s).

(** [v[:n]].  A dict is not sliceable (the lookup of the slice object fails:
    [TypeError] up to Python 3.11, [KeyError] from 3.12 on). *)
Definition slice_to (v : value) (n : Z) : res value :=
  match v with
  | VList l => Ok (VList (slice l 0 n))
  | VStr s => Ok (VStr (slice s 0 n))
  | _ => Raise TypeError
  end.

(** The elements a [for] loop sees. *)
Definition iter (v : value) : res (list value) :=
  match v with
  | VList l => Ok l
  | VStr s => Ok (map (fun c => VStr [c]) s)
  | VDict d => Ok (map (fun kv => VStr (fst kv)) d)
  | _ => Raise TypeError
  end.

(** [all(k in v for k in keys)]: stops at the first key that is absent. *)
Fixpoint all_in (keys : list str) (v : value) : res bool :=
  match keys with
  | [] => Ok true
  | k :: keys' =>
      let! b := contains k v in
      if b then all_in keys' v else Ok false
  end.

(** [s.find(sub)] and [s.rfind(sub)]: the lowest and the highest index at
    which [sub] occurs, or [-1]. *)
Fixpoint find_from (sub s : str) (i : Z) : Z :=
  if prefixb sub s then i
  else match s with
       | [] => -1
       | _ :: s' => find_from sub s' (i + 1)
       end.

Definition find (s sub : str) : Z := find_from sub s 0.

Fixpoint rfind_from (sub s : str) (i : Z) : Z :=
  match s with
  | [] => if prefixb sub [] then i else -1
  | _ :: s' =>
      let r := rfind_from sub s' (i + 1) in
      if r =? -1 then (if prefixb sub s then i else -1) else r
  end.

Definition rfind (s sub : str) : Z := rfind_from sub s 0.

(** [s.replace(old, new)] for a non-empty [old]: every occurrence, leftmost
    first and without overlap.  The fuel bounds the number of steps by the
    length of the text. *)
Fixpoint replace_fuel (n : nat) (old new s : str) : str :=
  match n with
  | O => s
  | S n' =>
      match s with
      | [] => []
      | c :: s' =>
          if prefixb old s
          then new ++ replace_fuel n' old new (skipn (length old) s)
          else c :: replace_fuel n' old new s'
      end
  end.

Definition replace (s old new : str) : str :=
  replace_fuel (length s) old new s.

(** [range(n)]. *)
Definition range (n : Z) : list Z := map Z.of_nat (seq 0 (Z.to_nat n)).

(** [sep.join(parts)]. *)
Fixpoint join (sep : str) (parts : list str) : str :=
  match parts with
  | [] => []
  | [p] => p
  | p :: ps => p ++ sep ++ join sep ps
  end.

(** [str(n)] for an [int]. *)
Fixpoint digits_fuel (fuel : nat) (n : N) (acc : str) : str :=
  match fuel with
  | O => acc
  | S fuel' =>
      let acc' := (48 + N.modulo n 10)%N :: acc in
      if N.ltb n 10 then acc' else digits_fuel fuel' (N.div n 10) acc'
  end.

Definition str_of_int (z : Z) : str :=
  let n := Z.abs_N z in
  let ds := digits_fuel (S (N.to_nat (N.log2 n))) n [] in
  if z <? 0 then 45%N :: ds else ds.

(** ASCII lower-casing; [str.lower] on text with other code points follows
    the Unicode tables and is taken as a parameter where it is used. *)
Definition is_ascii (c : char) : bool := N.ltb c 128.

Definition ascii_lower (c : char) : char :=
  if N.leb 65 c && N.leb c 90 then (c + 32)%N else c.

(** [str.isspace] for one code point, which decides what [strip] removes. *)
Definition isspace (c : char) : bool :=
  (N.leb 9 c && N.leb c 13) || (N.leb 28 c && N.leb c 32) ||
  N.eqb c 133 || N.eqb c 160 || N.eqb c 5760 ||
  (N.leb 8192 c && N.leb c 8202) || N.eqb c 8232 || N.eqb c 8233 ||
  N.eqb c 8239 || N.eqb c 8287 || N.eqb c 12288.

Fixpoint lstrip (s : str) : str :=
  match s with
  | [] => []
  | c :: s' => if isspace c then lstrip s' else s
  end.

Definition strip (s : str) : str := rev (lstrip (rev (lstrip s))).

End Py.

(* ===================================================================== *)
(** * [json.loads]                                                        *)
(* ===================================================================== *)

(** The decoder follows CPython's [json.decoder] and [json.scanner] with
    their default settings (strict strings, [NaN] and the infinities
    accepted).  A text that is not a JSON document makes it raise
    [JSONDecodeError].  Two limits of the interpreter make it raise other
    exceptions, at the place of the text where the limit is met: [int]
    refuses an integer literal of too many digits with a [ValueError], and
    the scanner, which enters one level of recursion for every array and
    object it opens, raises [RecursionError] when the nesting is too
    deep. *)
Module Json.
Import Py.

(** [sys.int_info.default_max_str_digits]: the digits [int] accepts in a
    decimal literal, the sign not counted (Python 3.11, and the security
    releases of the versions before it). *)
Definition int_max_str_digits : nat := 4300.

(** The levels of nesting the scanner can enter.  The interpreter stops
    the recursion at [sys.getrecursionlimit()], 1000 by default; the
    frames in use when the decoder is called count against that limit as
    well, so the nesting actually left to the decoder is somewhat
    smaller and depends on the caller. *)
Definition max_depth : nat := 1000.

(** Outcome of a scanning function: a result and the text after it; a
    decoding error; another exception; or exhausted fuel of the loop over
    the items of a container ([loads_fuel_enough] shows that the fuel given
    to these loops never runs out). *)
Inductive pres (A : Type) : Type :=
| POk (a : A) (rest : str)
| PErr
| PRaise (e : exn)
| PFuel.
Arguments POk {A} a rest.
Arguments PErr {A}.
Arguments PRaise {A} e.
Arguments PFuel {A}.

Definition is_ws (c : char) : bool :=
  N.eqb c 32 || N.eqb c 9 || N.eqb c 10 || N.eqb c 13.

Fixpoint skip_ws (s : str) : str :=
  match s with
  | [] => []
  | c :: s' => if is_ws c then skip_ws s' else s
  end.

Definition is_digit (c : char) : bool := N.leb 48 c && N.leb c 57.

Definition hexval (c : char) : option N :=
  if N.leb 48 c && N.leb c 57 then Some (c - 48)%N
  else if N.leb 97 c && N.leb c 102 then Some (c - 87)%N
  else if N.leb 65 c && N.leb c 70 then Some (c - 55)%N
  else None.

Definition hex4 (a b c d : char) : option N :=
  match hexval a, hexval b, hexval c, hexval d with
  | Some x, Some y, Some z, Some w => Some (((x * 16 + y) * 16 + z) * 16 + w)%N
  | _, _, _, _ => None
  end.

(** The one-letter escapes of a JSON string. *)
Definition backslash (c : char) : option char :=
  if N.eqb c 34 then Some 34%N          (* quote *)
  else if N.eqb c 92 then Some 92%N     (* backslash *)
  else if N.eqb c 47 then Some 47%N     (* slash *)
  else if N.eqb c 98 then Some 8%N      (* b *)
  else if N.eqb c 102 then Some 12%N    (* f *)
  else if N.eqb c 110 then Some 10%N    (* n *)
  else if N.eqb c 114 then Some 13%N    (* r *)
  else if N.eqb c 116 then Some 9%N     (* t *)
  else None.

Definition is_high_surrogate (u : N) : bool := N.leb 55296 u && N.leb u 56319.
Definition is_low_surrogate (u : N) : bool := N.leb 56320 u && N.leb u 57343.

Definition join_surrogates (hi lo : N) : N :=
  (65536 + ((hi - 55296) * 1024 + (lo - 56320)))%N.

(** [scanstring]: the text after an opening quote, up to the closing one.
    [acc] holds the characters read so far, last first. *)
Fixpoint scanstring (s : str) (acc : str) : option (str * str) :=
  match s with
  | [] => None
  | c :: r =>
      if N.eqb c 34 then Some (rev acc, r)
      else if N.eqb c 92 then
        match r with
        | [] => None
        | e :: r1 =>
            if N.eqb e 117 then
              match r1 with
              | h1 :: h2 :: h3 :: h4 :: r2 =>
                  match hex4 h1 h2 h3 h4 with
                  | None => None
                  | Some uni =>
                      match r2 with
                      | b :: u :: r3 =>
                          if is_high_surrogate uni && N.eqb b 92 && N.eqb u 117
                          then
                            match r3 with
                            | g1 :: g2 :: g3 :: g4 :: r4 =>
                                match hex4 g1 g2 g3 g4 with
                                | None => None
                                | Some uni2 =>
                                    if is_low_surrogate uni2
                                    then scanstring r4 (join_surrogates uni uni2 :: acc)
                                    else scanstring r2 (uni :: acc)
                                end
                            | _ => None
                            end
                          else scanstring r2 (uni :: acc)
                      | _ => scanstring r2 (uni :: acc)
                      end
                  end
              | _ => None
              end
            else
              match backslash e with
              | Some ch => scanstring r1 (ch :: acc)
              | None => None
              end
        end
      else if N.ltb c 32 then None
      else scanstring r (c :: acc)
  end.

(** Numbers: an optional minus sign; a zero, or a non-zero digit followed
    by digits; optionally a point and at least one digit; optionally [e] or
    [E], an optional sign and at least one digit. *)
Fixpoint span_digits (s : str) : str * str :=
  match s with
  | [] => ([], [])
  | c :: s' =>
      if is_digit c
      then let '(ds, r) := span_digits s' in (c :: ds, r)
      else ([], s)
  end.

Definition digits_value (ds : str) : N :=
  fold_left (fun a c => (a * 10 + (c - 48))%N) ds 0%N.

Definition scan_integer (s : str) : option (str * str) :=
  match s with
  | c :: s' =>
      if N.eqb c 48 then Some ([c], s')
      else if is_digit c then Some (span_digits s)
      else None
  | [] => None
  end.

Definition scan_frac (s : str) : option (str * str) :=
  match s with
  | c :: s' =>
      if N.eqb c 46 then
        match span_digits s' with
        | ([], _) => None
        | (ds, r) => Some (ds, r)
        end
      else None
  | [] => None
  end.

Definition scan_exp (s : str) : option (Z * str) :=
  match s with
  | c :: s' =>
      if N.eqb c 101 || N.eqb c 69 then
        let '(neg, s'') :=
          match s' with
          | sg :: t =>
              if N.eqb sg 45 then (true, t)
              else if N.eqb sg 43 then (false, t)
              else (false, s')
          | [] => (false, s')
          end in
        match span_digits s'' with
        | ([], _) => None
        | (ds, r) =>
            let e := Z.of_N (digits_value ds) in
            Some (if neg then - e else e, r)
        end
      else None
  | [] => None
  end.

(** [PErr] stands for a text that does not start with a number.  An
    integer literal is handed to [int], a literal with a fraction or an
    exponent to [float], which has no limit on the digits. *)
Definition match_number (s : str) : pres value :=
  let '(neg, s1) :=
    match s with
    | c :: t => if N.eqb c 45 then (true, t) else (false, s)
    | [] => (false, s)
    end in
  match scan_integer s1 with
  | None => PErr
  | Some (int_ds, s2) =>
      let '(frac_ds, s3, has_frac) :=
        match scan_frac s2 with
        | Some (ds, r) => (ds, r, true)
        | None => ([], s2, false)
        end in
      let '(e, s4, has_exp) :=
        match scan_exp s3 with
        | Some (e, r) => (e, r, true)
        | None => (0, s3, false)
        end in
      if has_frac || has_exp
      then POk (VFloat (FDec neg (digits_value (int_ds ++ frac_ds))
                             (e - Z.of_nat (length frac_ds)))) s4
      else if (int_max_str_digits <? length int_ds)%nat
      then PRaise ValueError
      else
        let n := Z.of_N (digits_value int_ds) in
        POk (VInt (if neg then - n else n)) s4
  end.

(** [dict(pairs)]: a repeated key keeps its first place and its last value. *)
Definition dict_of_pairs (pairs : list (str * value)) : list (str * value) :=
  fold_left (fun d kv => dict_set (fst kv) (snd kv) d) pairs [].

Section containers.
(** [JSONArray] and [JSONObject] receive the scanner for the values they
    contain, as in [json.decoder].  [k] is the fuel of the loop over the
    items. *)
Variable scan_once : str -> pres value.

(** The elements of an array; [s] starts at an element. *)
Fixpoint array_items (k : nat) (s : str) (acc : list value)
  : pres (list value) :=
  match k with
  | O => PFuel
  | S k' =>
      match scan_once s with
      | POk v r =>
          match skip_ws r with
          | c :: r' =>
              if N.eqb c 93 then POk (rev (v :: acc)) r'
              else if N.eqb c 44 then array_items k' (skip_ws r') (v :: acc)
              else PErr
          | [] => PErr
          end
      | PErr => PErr
      | PRaise e => PRaise e
      | PFuel => PFuel
      end
  end.

Definition JSONArray (k : nat) (s : str) : pres value :=
  match skip_ws s with
  | c :: r =>
      if N.eqb c 93 then POk (VList []) r
      else
        match array_items k (skip_ws s) [] with
        | POk l r' => POk (VList l) r'
        | PErr => PErr
        | PRaise e => PRaise e
        | PFuel => PFuel
        end
  | [] => PErr
  end.

(** The members of an object; [s] starts at the quote of a key. *)
Fixpoint object_items (k : nat) (s : str) (acc : list (str * value))
  : pres (list (str * value)) :=
  match k with
  | O => PFuel
  | S k' =>
      match s with
      | q :: s1 =>
          if N.eqb q 34 then
            match scanstring s1 [] with
            | None => PErr
            | Some (key, s2) =>
                match skip_ws s2 with
                | colon :: s3 =>
                    if N.eqb colon 58 then
                      match scan_once (skip_ws s3) with
                      | POk v r =>
                          match skip_ws r with
                          | c :: r' =>
                              if N.eqb c 125
                              then POk (rev ((key, v) :: acc)) r'
                              else if N.eqb c 44
                              then object_items k' (skip_ws r') ((key, v) :: acc)
                              else PErr
                          | [] => PErr
                          end
                      | PErr => PErr
                      | PRaise e => PRaise e
                      | PFuel => PFuel
                      end
                    else PErr
                | [] => PErr
                end
            end
          else PErr
      | [] => PErr
      end
  end.

Definition JSONObject (k : nat) (s : str) : pres value :=
  match skip_ws s with
  | c :: r =>
      if N.eqb c 125 then POk (VDict []) r
      else
        match object_items k (skip_ws s) [] with
        | POk pairs r' => POk (VDict (dict_of_pairs pairs)) r'
        | PErr => PErr
        | PRaise e => PRaise e
        | PFuel => PFuel
        end
  | [] => PErr
  end.
End containers.

(** [scan_once]: one JSON value at the start of [s], with [depth] levels
    of nesting left.  Opening an array or an object takes one level, also
    when it is empty; the other values take none. *)
Fixpoint scan_once (depth : nat) (s : str) : pres value :=
  match s with
  | [] => PErr
  | c :: r =>
      if N.eqb c 34 then
        match scanstring r [] with
        | Some (x, r') => POk (VStr x) r'
        | None => PErr
        end
      else if N.eqb c 123 then
        match depth with
        | O => PRaise RecursionError
        | S depth' => JSONObject (scan_once depth') (S (length r)) r
        end
      else if N.eqb c 91 then
        match depth with
        | O => PRaise RecursionError
        | S depth' => JSONArray (scan_once depth') (S (length r)) r
        end
      else if prefixb (py "null") s then POk VNone (skipn 4 s)
      else if prefixb (py "true") s then POk (VBool true) (skipn 4 s)
      else if prefixb (py "false") s then POk (VBool false) (skipn 5 s)
      else
        match match_number s with
        | POk v r' => POk v r'
        | PRaise e => PRaise e
        | PFuel => PFuel
        | PErr =>
            if prefixb (py "NaN") s then POk (VFloat FNaN) (skipn 3 s)
            else if prefixb (py "Infinity") s
            then POk (VFloat (FInf false)) (skipn 8 s)
            else if prefixb (py "-Infinity") s
            then POk (VFloat (FInf true)) (skipn 9 s)
            else PErr
        end
  end.

(** [json.loads(s)]: no byte-order mark, one value, and only whitespace
    around it. *)
Definition loads (s : str) : res value :=
  if prefixb [65279%N] s then Raise JSONDecodeError
  else
    match scan_once max_depth (skip_ws s) with
    | POk v r =>
        match skip_ws r with
        | [] => Ok v
        | _ :: _ => Raise JSONDecodeError
        end
    | PErr => Raise JSONDecodeError
    | PRaise e => Raise e
    | PFuel => Raise JSONDecodeError
    end.

End Json.

(* ===================================================================== *)
(** * [app/ai/storybook.py]                                               *)
(* ===================================================================== *)

Module storybook.
Import Py.

(** ** The world outside the module

    The generative model is an oracle: [gemini n prompt] is what the
    provider does on the call number [n] (counted from the start of the
    process) when it is sent [prompt].  The [trace] records every provider
    call and every wait in the order they happen. *)
Inductive outcome : Type :=
| Responded (text : str)
| Failed (e : exn).

Inductive event : Type :=
| Generate (prompt : str)
| Sleep (seconds : Z).

Definition is_generate (ev : event) : bool :=
  match ev with
  | Generate _ => true
  | Sleep _ => false
  end.

Record world : Type := World {
  GEMINI_API_KEY : option str;        (* [os.getenv("GEMINI_API_KEY")] *)
  gemini : nat -> str -> outcome;
  rounds_cache : gmap str value;      (* session -> rounds *)
  trace : list event
}.

Definition calls (w : world) : nat := length (List.filter is_generate (trace w)).

(** Computations that read and change the world and may raise. *)
Definition M (A : Type) : Type := world -> res A * world.

Definition ret {A : Type} (a : A) : M A := fun w => (Ok a, w).

Definition bind {A B : Type} (m : M A) (f : A -> M B) : M B := fun w =>
  match m w with
  | (Ok a, w') => f a w'
  | (Raise e, w') => (Raise e, w')
  end.

Definition lift {A : Type} (r : res A) : M A := fun w => (r, w).

Notation "'do!' x ':=' e 'in' k" := (bind e (fun x => k))
  (at level 10, x pattern, e at level 100, k at level 200, only parsing).

(** [try: body / except Exception as e: handler e]; every exception of the
    model derives from [Exception]. *)
Definition try_except {A : Type} (body : M A) (handler : exn -> M A) : M A :=
  fun w =>
    match body w with
    | (Ok a, w') => (Ok a, w')
    | (Raise e, w') => handler e w'
    end.

Definition getenv_GEMINI_API_KEY : M (option str) :=
  fun w => (Ok (GEMINI_API_KEY w), w).

(** [genai.GenerativeModel(...).generate_content(prompt).text] *)
Definition generate_content (prompt : str) : M str := fun w =>
  let w' := World (GEMINI_API_KEY w) (gemini w) (rounds_cache w)
                  (trace w ++ [Generate prompt]) in
  match gemini w (calls w) prompt with
  | Responded text => (Ok text, w')
  | Failed e => (Raise e, w')
  end.

(** [time.sleep(seconds)] *)
Definition sleep (seconds : Z) : M unit := fun w =>
  (Ok tt, World (GEMINI_API_KEY w) (gemini w) (rounds_cache w)
                (trace w ++ [Sleep seconds])).

Definition cache_get (sid : str) : M (option value) :=
  fun w => (Ok (rounds_cache w !! sid), w).

Definition cache_put (sid : str) (v : value) : M unit := fun w =>
  (Ok tt, World (GEMINI_API_KEY w) (gemini w) (<[sid := v]> (rounds_cache w))
                (trace w)).

(** ** Fallback rounds *)
Definition FALLBACK_ROUNDS : value :=
  VList [
    VDict [
      (py "id", VStr (py "fallback-4"));
      (py "type", VStr (py "text"));
      (py "promptText", VStr (py "Tap the sentences in the correct story order:"));
      (py "items", VList [
        VStr (py "A small bird lost its way during a storm.");
        VStr (py "A kind child found the bird and brought it home.");
        VStr (py "The bird learned to fly again and thanked the child.")
      ]);
      (py "aiGenerated", VBool true)
    ];
    VDict [
      (py "id", VStr (py "fallback-5"));
      (py "type", VStr (py "text"));
      (py "promptText", VStr (py "Tap the sentences in the correct story order:"));
      (py "items", VList [
        VStr (py "The boy planted a tiny seed in the garden.");
        VStr (py "A green sprout grew and turned into a plant.");
        VStr (py "Soon the plant had bright flowers that bees loved.")
      ]);
      (py "aiGenerated", VBool true)
    ]
  ].

(** ** Pydantic models *)
Record GenerateRoundsRequest : Type := {
  preferredLanguage : str;
  sessionId : option str
}.

Record GenerateRoundsResponse : Type := {
  rounds : value;
  source : str                        (* "ai" or "fallback" *)
}.

Record AnalyzeResponseRequest : Type := {
  roundId : str;
  promptText : str;
  items : list value;
  userOrder : list value;
  analyze_sessionId : option str;
  analyze_preferredLanguage : str
}.

Record AnalyzeResponseResponse : Type := {
  analysis : value;
  analyze_source : str                (* "ai" or "fallback" *)
}.

(** ** [parse_json_response]

    Extract and parse JSON from model response.  The function returns
    Python's [None] ([VNone]) when nothing can be parsed. *)
Definition parse_json_response (text : str) : res value :=
  match Json.loads text with
  | Ok v => Ok v
  | Raise JSONDecodeError =>
      let start := find text (py "{") in
      let end_ := rfind text (py "}") + 1 in
      if negb (start =? -1) && (end_ >? start) then
        match Json.loads (slice text start end_) with
        | Ok v => Ok v
        | Raise JSONDecodeError => Ok VNone
        | Raise e => Raise e
        end
      else Ok VNone
  | Raise e => Raise e
  end.

(** ** [call_gemini_with_retry] *)

Fixpoint retry_loop (prompt : str) (max_retries : Z) (attempts : list Z)
  : M (option str) :=
  match attempts with
  | [] => ret None
  | attempt :: rest =>
      try_except
        (do! text := generate_content prompt in ret (Some text))
        (fun _ =>
           do! _ := (if attempt <? max_retries - 1 then sleep 1 else ret tt) in
           retry_loop prompt max_retries rest)
  end.

Definition call_gemini_with_retry (prompt : str) (max_retries : Z)
  : M (option str) :=
  do! gemini_api_key := getenv_GEMINI_API_KEY in
  match gemini_api_key with
  | None => ret None
  | Some key =>
      if negb (str_truthy key) then ret None
      else retry_loop prompt max_retries (range max_retries)
  end.

(** The default of the [max_retries] parameter. *)
Definition default_max_retries : Z := 2.

(** ** [generate_rounds] *)
Definition generate_rounds_prompt (request : GenerateRoundsRequest) : str :=
  pyq "You are creating personalized dyslexia screening stories for a child. These stories should help identify potential dyslexia markers through careful sequencing challenges.

Return exactly 2 rounds as JSON. Each round must have:
- id: string (e.g., ~ai-4~, ~ai-5~)
- type: ~text~
- promptText: instruction (e.g., ~Tap the sentences in the correct story order:~)
- items: array of exactly 5-6 short sentences (8-15 words each) forming a coherent story

IMPORTANT - Design sentences to expose dyslexia markers:
1. Include words with visually similar letters (b/d, p/q, n/u) to detect VISUAL CONFUSION
2. Include words with similar sounds but different meanings to detect PHONOLOGICAL CUES
3. Include temporal sequencing words (first, then, after, before, finally) to test SEQUENCING
4. Vary sentence length and structure to test reading comprehension
5. Make the story internally coherent so correct sequencing is clear

Example structures:
- ~The boy and girl began their day.~ (b/d confusion potential)
- ~The doll was different from the dollar.~ (d/b and similar sounds)
- ~Before the bell rang, Dan and Ben ran.~ (temporal + visual confusion)

Generate 2 different stories, each with 5-6 sentences. Make them age-appropriate but strategically challenging.
Keep sentences simple vocabulary but structurally interesting.
Return ONLY valid JSON with key ~rounds~ containing an array of 2 round objects.
Language: "
  ++ preferredLanguage request ++
  pyq "

Example format:
{~rounds~: [{~id~: ~ai-4~, ~type~: ~text~, ~promptText~: ~Tap...~, ~items~: [~sentence 1~, ~sentence 2~, ~sentence 3~, ~sentence 4~, ~sentence 5~]}, {~id~: ~ai-5~, ~type~: ~text~, ~promptText~: ~Tap...~, ~items~: [~sentence 1~, ~sentence 2~, ~sentence 3~, ~sentence 4~, ~sentence 5~, ~sentence 6~]}]}
".

Definition fallback_rounds_response : GenerateRoundsResponse :=
  {| rounds := FALLBACK_ROUNDS; source := py "fallback" |}.

Definition required_round_fields : list str :=
  [py "id"; py "type"; py "promptText"; py "items"].

(** The validation loop over [rounds_data].  [Ok None] stands for a
    [return] of the fallback response from inside the loop; [Ok (Some l)]
    holds the round objects after the loop has tagged each of them. *)
Fixpoint validate_rounds (rounds_data : list value)
  : res (option (list value)) :=
  match rounds_data with
  | [] => Ok (Some [])
  | round_data :: rest =>
      let! complete := all_in required_round_fields round_data in
      if negb complete then Ok None
      else
        let! round_items := getitem round_data (py "items") in
        let! n := len round_items in
        if n <? 5 then Ok None
        else
          let! tagged := setitem round_data (py "aiGenerated") (VBool true) in
          let! others := validate_rounds rest in
          Ok (option_map (cons tagged) others)
  end.

(** [rounds_data] after the loop: the same list object, holding the round
    objects the loop has updated in place. *)
Definition updated (rounds_data : value) (elements : list value) : value :=
  match rounds_data with
  | VList _ => VList elements
  | other => other
  end.

(** [request.sessionId and request.sessionId in rounds_cache], with the
    cached rounds when the test succeeds. *)
Definition cache_lookup (request : GenerateRoundsRequest) : M (option value) :=
  match sessionId request with
  | Some sid => if str_truthy sid then cache_get sid else ret None
  | None => ret None
  end.

(** Generate 2 AI text rounds for rounds 4 and 5. *)
Definition generate_rounds (request : GenerateRoundsRequest)
  : M GenerateRoundsResponse :=
  (* Check cache first *)
  do! hit := cache_lookup request in
  match hit with
  | Some cached => ret {| rounds := cached; source := py "ai" |}
  | None =>
      let prompt := generate_rounds_prompt request in
      (* Call Gemini *)
      do! response_text := call_gemini_with_retry prompt default_max_retries in
      match response_text with
      | None => ret fallback_rounds_response
      | Some response_text =>
          if negb (str_truthy response_text) then ret fallback_rounds_response
          else
            (* Parse JSON *)
            do! parsed := lift (parse_json_response response_text) in
            if negb (truthy parsed) then ret fallback_rounds_response
            else
              do! has_rounds := lift (contains (py "rounds") parsed) in
              if negb has_rounds then ret fallback_rounds_response
              else
                do! n := lift (let! r := getitem parsed (py "rounds") in len r) in
                if n <? 2 then ret fallback_rounds_response
                else
                  (* Validate structure *)
                  do! rounds_data :=
                    lift (let! r := getitem parsed (py "rounds") in slice_to r 2) in
                  do! elements := lift (iter rounds_data) in
                  do! checked := lift (validate_rounds elements) in
                  match checked with
                  | None => ret fallback_rounds_response
                  | Some elements' =>
                      let rounds_data := updated rounds_data elements' in
                      (* Cache and return *)
                      do! _ :=
                        match sessionId request with
                        | Some sid =>
                            if str_truthy sid then cache_put sid rounds_data
                            else ret tt
                        | None => ret tt
                        end in
                      ret {| rounds := rounds_data; source := py "ai" |}
                  end
      end
  end.

(** ** [analyze_response] *)
Definition fallback_analysis : value :=
  VDict [
    (py "sequencing", VDict [
      (py "score", VFloat (FDec false 5 (-1)));
      (py "note", VStr (py "Unable to assess sequencing patterns."))]);
    (py "omissions", VDict [
      (py "score", VFloat (FDec false 5 (-1)));
      (py "note", VStr (py "Unable to assess for omissions."))]);
    (py "visualConfusion", VDict [
      (py "score", VFloat (FDec false 2 (-1)));
      (py "note", VStr (py "No clear visual confusion patterns detected in this attempt."))]);
    (py "phonologicalCue", VDict [
      (py "score", VFloat (FDec false 2 (-1)));
      (py "note", VStr (py "No clear phonological emphasis detected in this attempt."))]);
    (py "recommendedFollowUps", VList [
      VStr (py "Ask the child to read the sentences aloud to listen for phonological patterns.");
      VStr (py "Ask why they chose that specific order.")]);
    (py "confidence", VFloat (FDec false 3 (-1)))
  ].

Definition fallback_analysis_response : AnalyzeResponseResponse :=
  {| analysis := fallback_analysis; analyze_source := py "fallback" |}.

Definition required_fields : list str :=
  [py "sequencing"; py "omissions"; py "visualConfusion";
   py "phonologicalCue"; py "recommendedFollowUps"; py "confidence"].

(** [enumerate(l)], counting from [i]. *)
Fixpoint enumerate {A : Type} (i : Z) (l : list A) : list (Z * A) :=
  match l with
  | [] => []
  | x :: l' => (i, x) :: enumerate (i + 1) l'
  end.

Section analyze.
(** The built-in [str] on a value of a request body. *)
Variable py_str : value -> str.

Definition analyze_response_prompt (request : AnalyzeResponseRequest) : str :=
  let user_order_str := join (py ", ") (map py_str (userOrder request)) in
  let items_str :=
    join [10%N]
      (map (fun '(i, item) => str_of_int (i + 1) ++ py ". " ++ py_str item)
           (enumerate 0 (items request))) in
  (* Expected order: 1, 2, 3, ... *)
  let correct_order :=
    map (fun i => i + 1) (range (Z.of_nat (length (items request)))) in
  let correct_order_str := join (py ", ") (map str_of_int correct_order) in
  pyq "You are an expert assessor of reading and sequencing interpretation for dyslexia screening (this is a screening aid, not a diagnosis).

The child was asked to read and order sentences that were intentionally designed to test for dyslexia markers:
- Visual confusion (b/d, p/q, n/u confusion)
- Phonological cues (sound-based reasoning over visual)
- Sequencing ability (temporal words: first, then, after, before, finally)

Prompt given to child: ~"
  ++ promptText request ++
  pyq "~

Story sentences (correct order should be: "
  ++ correct_order_str ++
  pyq "):
"
  ++ items_str ++
  pyq "

Child's response (order they selected): "
  ++ user_order_str ++
  pyq "

Analyze the child's response focusing on:
1. Did they get the sequencing correct?
2. If incorrect, does it suggest visual confusion (mixing similar-looking letters)?
3. Does it suggest phonological reasoning (mixing similar-sounding words)?
4. Any patterns in which sentences were misplaced?

Return ONLY a JSON object with these fields:
- sequencing: {score: 0-1, note: ~explanation of sequencing understanding~}
- omissions: {score: 0-1, note: ~explanation of any missing key elements~}
- visualConfusion: {score: 0-1, note: ~evidence of visual-letter confusion (b/d/p/q/n/u)~}
- phonologicalCue: {score: 0-1, note: ~evidence of phonological/sound-based reasoning~}
- recommendedFollowUps: [~question 1~, ~question 2~, ~question 3~]
- confidence: 0-1

Scores: 0=not present, 0.3-0.6=possibly present, 1=clearly present.
Focus on the markers that the sentences were designed to detect.
Return ONLY valid JSON, nothing else.
".

(** Analyze user response for dyslexia-relevant cues. *)
Definition analyze_response (request : AnalyzeResponseRequest)
  : M AnalyzeResponseResponse :=
  let prompt := analyze_response_prompt request in
  (* Call Gemini *)
  do! response_text := call_gemini_with_retry prompt default_max_retries in
  match response_text with
  | None => ret fallback_analysis_response
  | Some response_text =>
      if negb (str_truthy response_text) then ret fallback_analysis_response
      else
        (* Parse JSON *)
        do! parsed := lift (parse_json_response response_text) in
        if negb (truthy parsed) then ret fallback_analysis_response
        else
          (* Validate required fields *)
          do! complete := lift (all_in required_fields parsed) in
          if negb complete then ret fallback_analysis_response
          else ret {| analysis := parsed; analyze_source := py "ai" |}
  end.
End analyze.

(** ** [health_check] *)
Definition health_check : M value :=
  do! gemini_api_key := getenv_GEMINI_API_KEY in
  let configured :=
    match gemini_api_key with
    | Some key => str_truthy key
    | None => false
    end in
  ret (VDict [(py "status", VStr (py "ok"));
              (py "api_key_configured", VBool configured)]).

End storybook.

(* ===================================================================== *)
(** * binary64 arithmetic on finite values                                *)
(* ===================================================================== *)

(** A finite [float] is the rational it denotes.  [round_b64] rounds a
    rational to the nearest binary64 value, ties to even; the quantities
    computed below lie between 0 and 100, far from overflow. *)
Module Float.

Definition pow2 (k : Z) : Q :=
  if 0 <=? k then inject_Z (2 ^ k) else 1 # Z.to_pos (2 ^ (- k)).

(** [floor (log2 (p / q))] for positive [p] and [q]. *)
Definition ilog2 (p q : Z) : Z :=
  let d := Z.log2 p - Z.log2 q in
  let above := if 0 <=? d then q * 2 ^ d <=? p else q <=? p * 2 ^ (- d) in
  if above then d else d - 1.

(** Nearest integer to [n / d], ties to even, for [0 <= n] and [0 < d]. *)
Definition round_half_even (n d : Z) : Z :=
  let q := n / d in
  let r := n mod d in
  if 2 * r <? d then q
  else if d <? 2 * r then q + 1
  else if Z.even q then q else q + 1.

Definition round_pos (p q : Z) : Q :=
  let e := Z.max (ilog2 p q) (-1022) in
  let k := e - 52 in
  let m := if 0 <=? k then round_half_even p (q * 2 ^ k)
           else round_half_even (p * 2 ^ (- k)) q in
  Qred (inject_Z m * pow2 k).

Definition round_b64 (x : Q) : Q :=
  let p := Qnum x in
  let q := Zpos (Qden x) in
  if p =? 0 then 0%Q
  else if 0 <? p then round_pos p q
  else Qopp (round_pos (- p) q).

(** [a / b] on two ints (true division) and [x * y] on two floats. *)
Definition int_truediv (a b : Z) : Q := round_b64 (Qred (inject_Z a / inject_Z b)).
Definition mul (x y : Q) : Q := round_b64 (Qred (x * y)).

(** [round(x, ndigits)]: the decimal with [ndigits] places nearest to [x]
    (ties to even), read back as a float. *)
Definition round_ndigits (x : Q) (ndigits : Z) : Q :=
  let scale := 10 ^ ndigits in
  let y := Qred (x * inject_Z scale) in
  let n := if 0 <=? Qnum y then round_half_even (Qnum y) (Zpos (Qden y))
           else - round_half_even (- Qnum y) (Zpos (Qden y)) in
  round_b64 (Qred (inject_Z n / inject_Z scale)).

End Float.

(* ===================================================================== *)
(** * [app/ai/worddetective.py]                                           *)
(* ===================================================================== *)

Module worddetective.
Import Py.

(** ** Models *)
Record GenerateRequest : Type := {
  age : Z;
  language : option str;
  difficulties : option (list str);
  preferredLanguage : option str
}.

(** The dict the handler of [/generate] returns.  Its elements are
    whatever the handler collected; FastAPI checks them against [WordPair]
    afterwards ([post_generate] below). *)
Record GenerateResponse : Type := {
  wordPairs : list value
}.

(** [AttemptEntry], without the response time. *)
Record AttemptEntry : Type := {
  questionIndex : Z;
  presentedPair : list (str * str);
  chosenWord : option str;
  chosenWasCorrect : option bool
}.

(** [AnalyzeRequest], without the total time. *)
Record AnalyzeRequest : Type := {
  registrationInfo : option GenerateRequest;
  attempts : list AttemptEntry;
  sessionId : option str
}.

Record PerQuestion : Type := {
  pq_questionIndex : Z;
  pq_correct : option str;
  pq_chosen : option str;
  pq_wasCorrect : bool
}.

(** The dict [analyze_results] returns, without [avgTimeSec] and the
    response times; [accuracy] is the rounded value of the response and
    [mistakeTypes] the histogram under [raw]. *)
Record AnalyzeResponse : Type := {
  score : Z;
  totalQuestions : Z;
  accuracy : Q;
  commonMistakes : list (str * Z);
  perQuestion : list PerQuestion;
  risk : str;
  mistakeTypes : list (str * Z)
}.

(** ** Helper functions *)
Section classifier.
(** [str.lower] on text that is not plain ASCII (Unicode case mapping). *)
Variable unicode_lower : str -> str.

Definition lower (s : str) : str :=
  if forallb is_ascii s then map ascii_lower s else unicode_lower s.

Definition same_char (a b : option char) : bool :=
  match a, b with
  | Some x, Some y => N.eqb x y
  | _, _ => false
  end.

Definition at_ (s : str) (i : Z) : option char := s !! Z.to_nat i.

(** The [for] loop of the classifier: does some [i] make it return? *)
Definition transposed (correct wrong : str) : bool :=
  existsb
    (fun i =>
       (i <? Z.of_nat (length correct) - 1) &&
       same_char (at_ wrong (i + 1)) (at_ correct i) &&
       same_char (at_ wrong i) (at_ correct (i + 1)))
    (range (Z.of_nat (length wrong) - 1)).

Definition simple_mistake_type (correct wrong : str) : str :=
  if negb (str_truthy correct) || negb (str_truthy wrong) then py "other"
  else if str_eqb (replace (lower correct) (py " ") [])
                  (replace (lower wrong) (py " ") [])
  then py "case/spacing"
  else if transposed correct wrong then py "transposition"
  else if (length wrong <? length correct)%nat then py "missing_letter"
  else if (length correct <? length wrong)%nat then py "extra_letter"
  else if (str_contains (py "ei") (lower correct) ||
           str_contains (py "ie") (lower correct)) &&
          (str_contains (py "ei") (lower wrong) ||
           str_contains (py "ie") (lower wrong))
  then py "ei/ie_confusion"
  else py "other".
End classifier.

Definition build_generate_prompt (age : Z) (language : option str)
    (difficulties : list str) : str :=
  let listed := join (py ", ") difficulties in
  py "You are a psychologist designing a short dyslexia risk screening activity for children. "
  ++ py "Create 6 simple English word pairs appropriate for a child aged "
  ++ str_of_int age ++ py ". "
  ++ py "For each pair return a JSON object with 'correct' and 'wrong'. "
  ++ py "Difficulties to consider: "
  ++ (if str_truthy listed then listed else py "none") ++ py ". "
  ++ py "Return only valid JSON.".

(** ** Fallback *)
Definition word_pair (correct wrong : string) : value :=
  VDict [(py "correct", VStr (py correct)); (py "wrong", VStr (py wrong))].

Definition FALLBACK_WORD_PAIRS : list value := [
  word_pair "friend" "freind";
  word_pair "because" "becuase";
  word_pair "beautiful" "beatiful";
  word_pair "tomorrow" "tommorow";
  word_pair "receive" "recieve";
  word_pair "different" "diffrent"
].

(** ** Endpoints *)

(** The Groq client: [groq_create model messages] is the outcome of
    [client.chat.completions.create], either an exception or the message
    contents of the returned choices ([None] for a message without one). *)
Record provider : Type := {
  GROQ_MODEL : str;
  groq_create : str -> list (str * str) -> res (list (option str))
}.

(** [re.sub(pattern, "", s)] for a pattern that never matches the empty
    string: [matcher] gives the length of the match at the start of the
    remaining text, if there is one. *)
Fixpoint re_sub_fuel (n : nat) (matcher : str -> option nat) (s : str) : str :=
  match n with
  | O => s
  | S n' =>
      match s with
      | [] => []
      | c :: s' =>
          match matcher s with
          | Some k => re_sub_fuel n' matcher (skipn k s)
          | None => c :: re_sub_fuel n' matcher s'
          end
      end
  end.

Definition re_sub (matcher : str -> option nat) (s : str) : str :=
  re_sub_fuel (length s) matcher s.

Definition backticks : str := [96%N; 96%N; 96%N].

(** The pattern of an opening fence: three backticks, an optional [json],
    a newline. *)
Definition fence_open (s : str) : option nat :=
  if prefixb (backticks ++ py "json" ++ [10%N]) s then Some 8%nat
  else if prefixb (backticks ++ [10%N]) s then Some 4%nat
  else None.

(** The pattern of a closing fence: three backticks at the end of the
    text, or just before a newline that ends it. *)
Definition fence_close (s : str) : option nat :=
  if str_eqb s backticks || str_eqb s (backticks ++ [10%N]) then Some 3%nat
  else None.

(** The body of the [try] block up to the collected pairs. *)
Definition collect_pairs (elements : list value) : res (list value) :=
  fold_left
    (fun acc obj =>
       let! pairs := acc in
       let! has_correct := contains (py "correct") obj in
       if negb has_correct then Ok pairs
       else
         let! has_wrong := contains (py "wrong") obj in
         if has_wrong then Ok (pairs ++ [obj]) else Ok pairs)
    elements (Ok []).

Definition generate_words_try (p : provider) (req : GenerateRequest)
  : res GenerateResponse :=
  let prompt :=
    build_generate_prompt (age req) (language req)
      (match difficulties req with
       | Some d => d
       | None => []
       end) in
  let messages := [
    (py "system", py "You are a helpful psychologist designing screening items.");
    (py "user", prompt)
  ] in
  let! choices := groq_create p (GROQ_MODEL p) messages in
  let! content :=
    match choices with
    | first :: _ => Ok first
    | [] => Raise IndexError
    end in
  let! text :=
    match content with
    | Some c => Ok (strip c)
    | None => Raise AttributeError
    end in
  let text_clean := re_sub fence_open text in
  let text_clean := re_sub fence_close text_clean in
  let! parsed := Json.loads text_clean in
  let! elements := iter parsed in
  let! pairs := collect_pairs elements in
  if Nat.eqb (length pairs) 0
  then Ok {| wordPairs := FALLBACK_WORD_PAIRS |}
  else Ok {| wordPairs := slice pairs 0 6 |}.

Definition generate_words (p : provider) (req : GenerateRequest)
  : res GenerateResponse :=
  match generate_words_try p req with
  | Ok response => Ok response
  | Raise _ => Ok {| wordPairs := FALLBACK_WORD_PAIRS |}
  end.

(** ** The response model

    The route is declared with [response_model=GenerateResponse].  FastAPI
    validates the dict the handler has returned against that model, whose
    [wordPairs] is a list of [WordPair], after the handler and outside its
    [try] block; it answers with the validated pairs, or fails. *)
Record WordPair : Type := {
  correct : str;
  wrong : str
}.

Section response_model.
(** What pydantic makes of an element that is not a dict with a string
    under "correct" and a string under "wrong": a validation error
    ([None]), or the word pair it turns the element into (pydantic 1 takes a
    number for its string, pydantic 2 does not). *)
Variable coerce : value -> option WordPair.

Definition validate_WordPair (obj : value) : option WordPair :=
  match obj with
  | VDict d =>
      match dict_get (py "correct") d, dict_get (py "wrong") d with
      | Some (VStr c), Some (VStr w) => Some {| correct := c; wrong := w |}
      | _, _ => coerce obj
      end
  | _ => coerce obj
  end.

Fixpoint validate_wordPairs (l : list value) : res (list WordPair) :=
  match l with
  | [] => Ok []
  | obj :: l' =>
      match validate_WordPair obj with
      | Some validated =>
          let! pairs := validate_wordPairs l' in
          Ok (validated :: pairs)
      | None => Raise ResponseValidationError
      end
  end.

(** The body of the response: the fields of the model, and no others. *)
Definition jsonable_encoder (pairs : list WordPair) : value :=
  VDict [(py "wordPairs",
          VList (map (fun validated =>
                        VDict [(py "correct", VStr (correct validated));
                               (py "wrong", VStr (wrong validated))])
                     pairs))].

(** The endpoint [POST /generate]: the handler, then the response
    model. *)
Definition post_generate (p : provider) (req : GenerateRequest) : res value :=
  let! response := generate_words p req in
  let! pairs := validate_wordPairs (wordPairs response) in
  Ok (jsonable_encoder pairs).
End response_model.

(** [x > y] on two finite floats. *)
Definition gt (x y : Q) : bool := negb (Qle_bool x y).

(** The conditional expression that fills the [risk] field. *)
Definition risk_band (accuracy : Q) : str :=
  if gt accuracy 80 then py "low"
  else if gt accuracy 60 then py "monitor"
  else py "high".

(** [d[k] = d.get(k, 0) + 1] *)
Fixpoint count_key (k : str) (d : list (str * Z)) : list (str * Z) :=
  match d with
  | [] => [(k, 1)]
  | (k', n) :: d' =>
      if str_eqb k k' then (k', n + 1) :: d' else (k', n) :: count_key k d'
  end.

(** [d.get(k)] on a [Dict[str, str]] *)
Fixpoint pair_get (k : str) (d : list (str * str)) : option str :=
  match d with
  | [] => None
  | (k', v) :: d' => if str_eqb k k' then Some v else pair_get k d'
  end.

(** An [Optional[str]] inside an f-string. *)
Definition format_optional (o : option str) : str :=
  match o with
  | Some s => s
  | None => py "None"
  end.

Definition was_correct (a : AttemptEntry) : bool :=
  match chosenWasCorrect a with
  | Some b => b
  | None => false
  end.

Section analyze.
Variable unicode_lower : str -> str.

Definition analyze_results (req : AnalyzeRequest) : AnalyzeResponse :=
  let attempts := attempts req in
  let total_questions := Z.of_nat (length attempts) in
  let score := Z.of_nat (length (List.filter was_correct attempts)) in
  let accuracy :=
    if total_questions =? 0 then 0%Q
    else Float.mul (Float.int_truediv score total_questions) 100 in
  let '(common_mistakes, mistake_types) :=
    fold_left
      (fun '(common_mistakes, mistake_types) a =>
         match chosenWord a with
         | Some chosen =>
             if negb (was_correct a) && str_truthy chosen then
               let key :=
                 format_optional (pair_get (py "correct") (presentedPair a))
                 ++ py " -> " ++ chosen in
               let mtype :=
                 simple_mistake_type unicode_lower
                   (match pair_get (py "correct") (presentedPair a) with
                    | Some c => c
                    | None => []
                    end)
                   chosen in
               (count_key key common_mistakes, count_key mtype mistake_types)
             else (common_mistakes, mistake_types)
         | None => (common_mistakes, mistake_types)
         end)
      attempts ([], []) in
  {| score := score;
     totalQuestions := total_questions;
     accuracy := Float.round_ndigits accuracy 2;
     commonMistakes := common_mistakes;
     perQuestion :=
       map (fun a =>
              {| pq_questionIndex := questionIndex a;
                 pq_correct := pair_get (py "correct") (presentedPair a);
                 pq_chosen := chosenWord a;
                 pq_wasCorrect := was_correct a |})
           attempts;
     risk := risk_band accuracy;
     mistakeTypes := mistake_types |}.
End analyze.

End worddetective.

(* ===================================================================== *)
(** * [app/utils/responses.py]                                            *)
(* ===================================================================== *)

Module responses.
Import Py.

Definition success_response (message : str) (data : option value)
    (status_code : Z) : value * Z :=
  let payload := [(py "success", VBool true); (py "message", VStr message)] in
  let payload :=
    match data with
    | Some data => dict_set (py "data") data payload
    | None => payload
    end in
  (VDict payload, status_code).

Definition error_response (message : str) (code : option str)
    (errors : option (list (str * value))) (status_code : Z) : value * Z :=
  let payload := [(py "success", VBool false); (py "message", VStr message)] in
  let payload :=
    match code with
    | Some code =>
        if str_truthy code then dict_set (py "code") (VStr code) payload
        else payload
    | None => payload
    end in
  let payload :=
    match errors with
    | Some errors =>
        if truthy (VDict errors) then dict_set (py "errors") (VDict errors) payload
        else payload
    | None => payload
    end in
  (VDict payload, status_code).

End responses.

(* ===================================================================== *)
(** * [app/auth/routes.py]: the password rule                             *)
(* ===================================================================== *)

Module auth_routes.
Import Py.

(** [PASSWORD_REQUIREMENTS] *)
Definition min_length : Z := 8.
Definition require_upper : bool := true.
Definition require_number : bool := true.
Definition require_special : bool := true.

(** The characters of the literal in the fourth test. *)
Definition special_characters : str := py "!@#$%^&*()-_=+[]{};:,.<>/?\|".

Section validate.
(** [str.isupper] and [str.isdigit] on one character that is not ASCII
    (Unicode tables). *)
Variable unicode_isupper : char -> bool.
Variable unicode_isdigit : char -> bool.

Definition isupper (c : char) : bool :=
  if is_ascii c then N.leb 65 c && N.leb c 90 else unicode_isupper c.

Definition isdigit (c : char) : bool :=
  if is_ascii c then N.leb 48 c && N.leb c 57 else unicode_isdigit c.

(** [if failed: errs.append(message)] *)
Definition append_if (failed : bool) (message : string) (errs : list str)
  : list str :=
  if failed then errs ++ [py message] else errs.

Definition validate_password (password : str) : list str :=
  let errs := [] in
  let errs :=
    append_if (Z.of_nat (length password) <? min_length)
      "minimum length is 8" errs in
  let errs :=
    append_if (require_upper && negb (existsb isupper password))
      "must contain an uppercase letter" errs in
  let errs :=
    append_if (require_number && negb (existsb isdigit password))
      "must contain a number" errs in
  let errs :=
    append_if
      (require_special &&
       negb (existsb (fun c => str_contains [c] special_characters) password))
      "must contain a special character" errs in
  errs.
End validate.

End auth_routes.

(* ===================================================================== *)
(** * [app/auth/dependencies.py]                                          *)
(* ===================================================================== *)

Module auth_dependencies.
Import Py.

(** The exceptions of this file: FastAPI's [HTTPException], and any other
    exception (of the token decoder, of [ObjectId], of the database
    driver).  All of them derive from [Exception]. *)
Inductive error : Type :=
| HTTPException (status_code : Z) (detail : str)
| OtherError (name : str).

Inductive result (A : Type) : Type :=
| Return (a : A)
| Raised (e : error).
Arguments Return {A} a.
Arguments Raised {A} e.

Definition bind {A B : Type} (r : result A) (f : A -> result B) : result B :=
  match r with
  | Return a => f a
  | Raised e => Raised e
  end.

Section get_current_parent.
(** Object ids and the documents of the parents collection. *)
Variable oid : Type.
Variable document : Type.
(** [decode_token]: the claims of a token, or the exception of [jwt.decode]
    for a token that is malformed, forged or expired. *)
Variable decode_token : str -> result (list (str * value)).
(** [ObjectId(x)]: raises for anything but a well-formed id. *)
Variable ObjectId : value -> result oid.
(** [parents_col.find_one] with a filter on ["_id"]. *)
Variable parents_find_one : oid -> result (option document).
(** [str(parent["_id"])] *)
Variable id_str : document -> str.

(** The body of the [try] block. *)
Definition lookup_parent (session_token : str) : result (str * document) :=
  bind (decode_token session_token) (fun payload =>
  let parent_id :=
    match dict_get (py "sub") payload with
    | Some v => v
    | None => VNone
    end in
  if negb (truthy parent_id)
  then Raised (HTTPException 401 (py "Invalid token"))
  else
    bind (ObjectId parent_id) (fun id =>
    bind (parents_find_one id) (fun parent =>
    match parent with
    | None => Raised (HTTPException 404 (py "Parent not found"))
    | Some parent => Return (id_str parent, parent)
    end))).

(** [session_token] is the cookie, [None] when the request has none. *)
Definition get_current_parent (session_token : option str)
  : result (str * document) :=
  match session_token with
  | None => Raised (HTTPException 401 (py "Not authenticated"))
  | Some session_token =>
      if negb (str_truthy session_token)
      then Raised (HTTPException 401 (py "Not authenticated"))
      else
        match lookup_parent session_token with
        | Return found => Return found
        | Raised _ => Raised (HTTPException 401 (py "Invalid or expired token"))
        end
  end.
End get_current_parent.

End auth_dependencies.

(* ===================================================================== *)
(** * [app/tests/routes.py]                                               *)
(* ===================================================================== *)

Module tests_routes.
Import Py.

(** The exceptions of this file: the [NameError] of a global name that is
    not bound, and any other exception (of [ObjectId], of the database
    driver, [KeyError]).  All of them derive from [Exception]. *)
Inductive error : Type :=
| NameError (name : string)
| OtherError (name : str).

Inductive result (A : Type) : Type :=
| Return (a : A)
| Raised (e : error).
Arguments Return {A} a.
Arguments Raised {A} e.

Definition bind {A B : Type} (r : result A) (f : A -> result B) : result B :=
  match r with
  | Return a => f a
  | Raised e => Raised e
  end.

(** The collections of [app/config/db.py], by the names it gives them. *)
Inductive collection : Type :=
| parents | students | tests | test_ai_rounds | test_ai_analysis.

Definition config_db (name : string) : option collection :=
  if String.eqb name "parents_col" then Some parents
  else if String.eqb name "students_col" then Some students
  else if String.eqb name "tests_col" then Some tests
  else if String.eqb name "test_ai_rounds_col" then Some test_ai_rounds
  else if String.eqb name "test_ai_analysis_col" then Some test_ai_analysis
  else None.

(** [from app.config.db import students_col, tests_col] *)
Definition imported : list string := ["students_col"; "tests_col"]%string.

(** The value of a global name that stands for a collection. *)
Definition global (name : string) : result collection :=
  if existsb (String.eqb name) imported then
    match config_db name with
    | Some c => Return c
    | None => Raised (NameError name)
    end
  else Raised (NameError name).

Record TestSubmitUnion : Type := {
  testType : str;
  studentId : str;
  results : list (str * value);
  metadata : option (list (str * value));
  questionData : option (list value);
  roundData : option (list (str * value));
  wordPairs : option (list value)
}.

Record JSONResponse : Type := {
  content : value;
  status_code : Z
}.

(** [d.get(k)] *)
Definition get (k : str) (d : list (str * value)) : value :=
  match dict_get k d with
  | Some v => v
  | None => VNone
  end.

(** [x or {}] and [x or []] *)
Definition or_empty {A : Type} (x : option (list A)) : list A :=
  match x with
  | Some l => l
  | None => []
  end.

Section handlers.
Variable oid : Type.
(** A field of a filter: an object id or a plain value. *)
Inductive key : Type :=
| Id (o : oid)
| Val (v : value).

(** [ObjectId(x)]: raises for anything but a well-formed id. *)
Variable ObjectId : value -> result oid.
(** [col.find_one(filter)], and with [sort=[("createdAt", -1)]] when
    [newest] is set.  A document comes with the string of its ["_id"] and
    its other fields; it is never empty, so it is truthy. *)
Variable find_one :
  collection -> list (str * key) -> forall newest : bool,
  result (option (str * list (str * value))).
(** [str(col.insert_one(doc).inserted_id)] *)
Variable insert_one : collection -> value -> result str.
(** [datetime.utcnow().isoformat()] *)
Variable utcnow : str.

(** The document of a submission before the analysis is attached. *)
Definition test_doc (payload : TestSubmitUnion) : list (str * value) :=
  [(py "studentId", VStr (studentId payload));
   (py "testType", VStr (testType payload));
   (py "results", VDict (results payload));
   (py "metadata", VDict (or_empty (metadata payload)));
   (py "questionData", VList (or_empty (questionData payload)));
   (py "roundData", VDict (or_empty (roundData payload)));
   (py "wordPairs", VList (or_empty (wordPairs payload)));
   (py "createdAt", VStr utcnow)].

(** The second [try] block: the analysis the server has stored.  In
    either branch the name [test_ai_analysis_col] is evaluated first. *)
Definition find_server_analysis (payload : TestSubmitUnion)
  : result (option (str * list (str * value))) :=
  (* payload.results is a dict, so the isinstance test holds *)
  let session_id := get (py "sessionId") (results payload) in
  if truthy session_id then
    bind (global "test_ai_analysis_col") (fun col =>
    find_one col [(py "sessionId", Val session_id)] true)
  else
    bind (global "test_ai_analysis_col") (fun col =>
    find_one col [(py "studentId", Val (VStr (studentId payload)))] true).

(** The handler returns its response, or raises; the second component
    lists the documents it has inserted into the tests collection. *)
Definition submit_test (payload : TestSubmitUnion) (parent_id : str)
  : result JSONResponse * list value :=
  (* validate student belongs to parent *)
  let student :=
    match
      bind (global "students_col") (fun col =>
      bind (ObjectId (VStr (studentId payload))) (fun id =>
      find_one col [(py "_id", Id id); (py "parentId", Val (VStr parent_id))]
        false))
    with
    | Return student => student
    | Raised _ => None
    end in
  match student with
  | None =>
      let body :=
        fst (responses.error_response
               (py "Student not found or not owned by authenticated parent")
               (Some (py "STUDENT_NOT_FOUND")) None 404) in
      (Return {| content := body; status_code := 404 |}, [])
  | Some _ =>
      let doc := test_doc payload in
      let server_ai_analysis :=
        match find_server_analysis payload with
        | Return found => found
        | Raised _ => None
        end in
      let from_frontend :=
        if truthy (get (py "aiAnalysis") (results payload)) then
          dict_set (py "aiAnalysis")
            (VDict [(py "source", VStr (py "frontend"));
                    (py "analysis", get (py "aiAnalysis") (results payload))])
            doc
        else doc in
      let doc :=
        match server_ai_analysis with
        | Some (_, analysis_doc) =>
            if truthy (get (py "analysis") analysis_doc)
            then dict_set (py "aiAnalysis") (get (py "analysis") analysis_doc) doc
            else from_frontend
        | None => from_frontend
        end in
      (* insert the test doc *)
      match bind (global "tests_col") (fun col => insert_one col (VDict doc)) with
      | Return test_id =>
          let body :=
            fst (responses.success_response (py "Test submitted")
                   (Some (VDict [(py "testId", VStr test_id)])) 200) in
          (Return {| content := body; status_code := 201 |}, [VDict doc])
      | Raised e => (Raised e, [])
      end
  end.

(** Get full test document if it belongs to authenticated parent. *)
Definition get_test_detail (test_id : str) (parent_id : str)
  : result JSONResponse :=
  bind (global "tests_col") (fun col =>
  bind (ObjectId (VStr test_id)) (fun id =>
  bind (find_one col [(py "_id", Id id)] false) (fun doc =>
  match doc with
  | None =>
      let body :=
        fst (responses.error_response (py "Test not found")
               (Some (py "TEST_NOT_FOUND")) None 404) in
      Return {| content := body; status_code := 404 |}
  | Some (doc_id, doc) =>
      (* ensure student ownership *)
      bind (global "students_col") (fun col =>
      bind (match dict_get (py "studentId") doc with
            | Some student_id => ObjectId student_id
            | None => Raised (OtherError (py "KeyError"))
            end) (fun id =>
      bind (find_one col [(py "_id", Id id)] false) (fun student =>
      let owned :=
        match student with
        | Some (_, student) =>
            match get (py "parentId") student with
            | VStr owner => str_eqb owner parent_id
            | _ => false
            end
        | None => false
        end in
      if negb owned then
        let body :=
          fst (responses.error_response (py "Not authorized to view this test")
                 (Some (py "NOT_AUTHORIZED")) None 403) in
        Return {| content := body; status_code := 403 |}
      else
        let doc := dict_set (py "id") (VStr doc_id) doc in
        Return {| content := VDict [(py "data", VDict doc)];
                  status_code := 200 |})))
  end))).
End handlers.
Arguments Id {oid} o.
Arguments Val {oid} v.

End tests_routes.

(* ===================================================================== *)
(** * [app/auth/routes.py]: login                                         *)
(* ===================================================================== *)

Module auth_login.
Import Py.

(** Any exception that reaches the handler (of the database driver, of the
    password hasher, of the token encoder). *)
Inductive error : Type :=
| OtherError (name : str).

Inductive result (A : Type) : Type :=
| Return (a : A)
| Raised (e : error).
Arguments Return {A} a.
Arguments Raised {A} e.

Definition bind {A B : Type} (r : result A) (f : A -> result B) : result B :=
  match r with
  | Return a => f a
  | Raised e => Raised e
  end.

(** The arguments of [response.set_cookie]. *)
Record cookie : Type := {
  key : str;
  cookie_value : str;
  httponly : bool;
  secure : bool;
  samesite : str;
  max_age : Z;
  path : str
}.

Record JSONResponse : Type := {
  content : value;
  status_code : Z;
  cookies : list cookie
}.

Record LoginRequest : Type := {
  email : str;
  password : str
}.

Section login.
(** [str.lower] on text that is not plain ASCII. *)
Variable unicode_lower : str -> str.
(** [COOKIE_NAME] and [int(os.getenv("ACCESS_TOKEN_EXPIRE_MINUTES", "60"))] *)
Variable COOKIE_NAME : str.
Variable expire_minutes : Z.
(** [parents_col.find_one({"email": email})]: the string of the ["_id"] of
    the document found, and its other fields. *)
Variable parents_find_by_email : str -> result (option (str * list (str * value))).
(** [verify_password(plain, hashed)] *)
Variable verify_password : str -> value -> result bool.
(** [create_access_token(subject)]: the token and the expiry. *)
Variable create_access_token : str -> result (str * str).

Definition lower (s : str) : str :=
  if forallb is_ascii s then map ascii_lower s else unicode_lower s.

Definition invalid_credentials : JSONResponse :=
  {| content :=
       fst (responses.error_response (py "Invalid credentials")
              (Some (py "INVALID_CREDENTIALS")) None 401);
     status_code := 401;
     cookies := [] |}.

Definition login (login_req : LoginRequest) : result JSONResponse :=
  let email := lower (email login_req) in
  bind (parents_find_by_email email) (fun parent =>
  match parent with
  | None => Return invalid_credentials
  | Some (parent_id, parent) =>
      let password_hash :=
        match dict_get (py "password_hash") parent with
        | Some h => h
        | None => VStr []
        end in
      bind (verify_password (password login_req) password_hash) (fun verified =>
      if negb verified then Return invalid_credentials
      else
        bind (create_access_token parent_id) (fun '(token, expiry_iso) =>
        let payload :=
          fst (responses.success_response (py "Login successful")
                 (Some (VDict [(py "parentId", VStr parent_id)])) 200) in
        Return {| content := payload;
                  status_code := 200;
                  cookies := [{| key := COOKIE_NAME;
                                 cookie_value := token;
                                 httponly := true;
                                 secure := false;
                                 samesite := py "lax";
                                 max_age := expire_minutes * 60;
                                 path := py "/" |}] |}))
  end).
End login.

End auth_login.

(* ===================================================================== *)
(** * [app/main.py]: the capturing middleware                             *)
(* ===================================================================== *)

Module main.
Import Py.

(** Any exception that reaches the middleware. *)
Inductive error : Type :=
| OtherError (name : str).

Inductive result (A : Type) : Type :=
| Return (a : A)
| Raised (e : error).
Arguments Return {A} a.
Arguments Raised {A} e.

(** The two collections the middleware writes to. *)
Inductive collection : Type :=
| test_ai_rounds
| test_ai_analysis.

(** [s.endswith(suffix)] *)
Definition endswith (s suffix : str) : bool := prefixb (rev suffix) (rev s).

Section capture.
Variable bytes : Type.
(** [if b] on bytes, [b"".join(chunks)] and [b.decode("utf-8")]. *)
Variable nonempty : bytes -> bool.
Variable join_bytes : list bytes -> bytes.
Variable decode : bytes -> result str.

(** A response either has a [body] attribute, or a [body_iterator] that
    yields its chunks and may raise while doing so. *)
Inductive body : Type :=
| Body (b : bytes)
| Iterator (chunks : result (list bytes)).

Record Response : Type := {
  status_code : Z;
  headers : list (str * str);
  media_type : option str;
  response_body : body
}.

Record Request : Type := {
  path : str;
  (** [await request.body()] *)
  request_body : result bytes
}.

(** The rest of the application. *)
Variable call_next : Request -> result Response.
(** [col.insert_one(doc)] *)
Variable insert_one : collection -> value -> result unit.
(** [datetime.utcnow().isoformat()] *)
Variable now_iso : str.
(** [dict(response.headers)] *)
Variable dict_of_headers : list (str * str) -> list (str * str).

(** [json.loads(b.decode("utf-8"))] inside [try] / [except Exception],
    with [default] for a failure. *)
Definition loads_or (default : value) (b : bytes) : value :=
  match decode b with
  | Return text =>
      match Json.loads text with
      | Ok v => v
      | Raise _ => default
      end
  | Raised _ => default
  end.

(** read request body (may be empty) *)
Definition read_request_body (request : Request) : value :=
  match request_body request with
  | Return req_body_bytes =>
      if nonempty req_body_bytes then loads_or (VDict []) req_body_bytes
      else VDict []
  | Raised _ => VDict []
  end.

(** [req_body.get(k) if isinstance(req_body, dict) else None] *)
Definition get_if_dict (k : str) (req_body : value) : value :=
  match req_body with
  | VDict d =>
      match dict_get k d with
      | Some v => v
      | None => VNone
      end
  | _ => VNone
  end.

Definition rounds_doc (path : str) (req_body resp_json : value) : value :=
  VDict [(py "sessionId", get_if_dict (py "sessionId") req_body);
         (py "request", req_body);
         (py "response", resp_json);
         (py "createdAt", VStr now_iso);
         (py "path", VStr path)].

Definition analysis_doc (path : str) (req_body resp_json : value) : value :=
  VDict [(py "sessionId", get_if_dict (py "sessionId") req_body);
         (py "studentId", get_if_dict (py "studentId") req_body);
         (py "request", req_body);
         (py "analysis", resp_json);
         (py "createdAt", VStr now_iso);
         (py "path", VStr path)].

(** Save to DB depending on the path; an exception of the insertion is
    caught.  The result lists the documents inserted. *)
Definition save (path : str) (req_body resp_json : value)
  : list (collection * value) :=
  if endswith path (py "/generate-rounds") then
    match insert_one test_ai_rounds (rounds_doc path req_body resp_json) with
    | Return _ => [(test_ai_rounds, rounds_doc path req_body resp_json)]
    | Raised _ => []
    end
  else if endswith path (py "/analyze-response") then
    match insert_one test_ai_analysis (analysis_doc path req_body resp_json) with
    | Return _ => [(test_ai_analysis, analysis_doc path req_body resp_json)]
    | Raised _ => []
    end
  else [].

(** The middleware returns a response, or raises; the second component
    lists the documents it has inserted. *)
Definition capture_storybook_responses (request : Request)
  : result Response * list (collection * value) :=
  let path := path request in
  if negb (prefixb (py "/api/storybook/") path) then
    (* not storybook, pass through *)
    (call_next request, [])
  else
    let req_body := read_request_body request in
    (* call downstream handler and capture response body *)
    match call_next request with
    | Raised e => (Raised e, [])
    | Return response =>
        match response_body response with
        | Iterator (Raised _) =>
            (* if anything fails, just return the original response *)
            (Return response, [])
        | Iterator (Return body_chunks) =>
            let resp_body_bytes := join_bytes body_chunks in
            let new_response :=
              {| status_code := status_code response;
                 headers := dict_of_headers (headers response);
                 media_type := media_type response;
                 response_body := Iterator (Return [resp_body_bytes]) |} in
            let resp_json := loads_or VNone resp_body_bytes in
            (Return new_response, save path req_body resp_json)
        | Body resp_body_bytes =>
            let resp_json := loads_or VNone resp_body_bytes in
            (Return response, save path req_body resp_json)
        end
    end.
End capture.
Arguments Body {bytes} b.
Arguments Iterator {bytes} chunks.

End main.

(* ===================================================================== *)
(** * Vocabulary of the properties                                        *)
(* ===================================================================== *)

Import Py.
Import storybook.

(** ** Texts and the decoder *)
Definition lbrace : char := 123%N.
Definition rbrace : char := 125%N.

(** The exceptions of the decoder that are not decoding errors. *)
Definition limit_error (e : exn) : Prop :=
  e = ValueError \/ e = RecursionError.

(** What the lemmas on the decoder say of a scanner on a text [s]: it
    does not run out of fuel, what it leaves is shorter than [s], and an
    exception it raises comes from one of the two limits. *)
Definition scans_well {A : Type} (outcome : Json.pres A) (s : str) : Prop :=
  outcome <> Json.PFuel /\
  (forall a r, outcome = Json.POk a r -> (length r < length s)%nat) /\
  (forall e, outcome = Json.PRaise e -> limit_error e).

(** Texts that meet the limits: an integer of 4301 digits, the same
    integer inside an object with prose before it, and 3000 opening
    brackets. *)
Definition long_integer : str := repeat (chr "1") 4301.
Definition long_integer_in_prose : str :=
  pyq "Here you go: {~rounds~: " ++ long_integer ++ py "}".
Definition deep_nesting : str := repeat (chr "[") 3000.

(** ** Worlds and traces *)

(** The events of [n] failed attempts: a provider call each, and the wait
    of one second between two of them. *)
Fixpoint attempts_with_backoff (prompt : str) (n : nat) : list event :=
  match n with
  | O => []
  | S n' =>
      Generate prompt ::
      match n' with
      | O => []
      | S _ => Sleep 1 :: attempts_with_backoff prompt n'
      end
  end.

(** [w] after more events; nothing else of the world changes. *)
Definition extended (w : world) (t : list event) : world :=
  World (GEMINI_API_KEY w) (gemini w) (rounds_cache w) (trace w ++ t).

(** ** Round batches and the outcomes of [generate_rounds] *)

(** A round object as the validation loop lets it through: a dict with the
    four required fields, at least five items, and the tag set. *)
Definition accepted_round (r : value) : Prop :=
  exists d round_items n,
    r = VDict d /\
    Forall (fun k => is_Some (dict_get k d)) required_round_fields /\
    dict_get (py "items") d = Some round_items /\
    len round_items = Ok n /\ 5 <= n /\
    dict_get (py "aiGenerated") d = Some (VBool true).

Definition accepted_batch (v : value) : Prop :=
  exists r1 r2, v = VList [r1; r2] /\ accepted_round r1 /\ accepted_round r2.

(** [r'] is the round object [r] after [r["aiGenerated"] = True]. *)
Definition tagged (r r' : value) : Prop :=
  setitem r (py "aiGenerated") (VBool true) = Ok r'.

(** [w] after a provider interaction [t] and, for a session that is given
    and not empty, with [batch] cached under it. *)
Definition cached_under (session : option str) (batch : value) (w : world)
    (t : list event) : world :=
  World (GEMINI_API_KEY w) (gemini w)
        (match session with
         | Some sid => if str_truthy sid then <[sid := batch]> (rounds_cache w)
                       else rounds_cache w
         | None => rounds_cache w
         end)
        (trace w ++ t).

(** The session of a request under which the cache is consulted. *)
Definition cache_key (request : GenerateRoundsRequest) : option str :=
  match sessionId request with
  | Some sid => if str_truthy sid then Some sid else None
  | None => None
  end.

(** Every way a call of [generate_rounds] can end: with the cached rounds;
    with the fallback catalog; with an exception; or with the first two
    round objects of the payload, both accepted and tagged, which are then
    also what the cache holds for the session. *)
Inductive rounds_outcome (request : GenerateRoundsRequest) (w : world)
  : res GenerateRoundsResponse * world -> Prop :=
| cache_hit (sid : str) (cached : value) :
    cache_key request = Some sid ->
    rounds_cache w !! sid = Some cached ->
    rounds_outcome request w (Ok {| rounds := cached; source := py "ai" |}, w)
| fell_back (t : list event) :
    rounds_outcome request w (Ok fallback_rounds_response, extended w t)
| raised (e : exn) (t : list event) :
    rounds_outcome request w (Raise e, extended w t)
| generated (text : str) (parsed r1 r2 r1' r2' : value) (more : list value)
      (t : list event) :
    call_gemini_with_retry (generate_rounds_prompt request) default_max_retries w
      = (Ok (Some text), extended w t) ->
    parse_json_response text = Ok parsed ->
    getitem parsed (py "rounds") = Ok (VList (r1 :: r2 :: more)) ->
    tagged r1 r1' -> tagged r2 r2' ->
    accepted_batch (VList [r1'; r2']) ->
    rounds_outcome request w
      (Ok {| rounds := VList [r1'; r2']; source := py "ai" |},
       cached_under (sessionId request) (VList [r1'; r2']) w t).

(** ** Sample worlds and requests *)

(** A provider that answers every prompt with [text], a configured
    credential, an empty cache and an empty trace. *)
Definition provider_says (text : str) : world :=
  World (Some (py "secret")) (fun _ _ => Responded text) ∅ [].

(** A provider text with prose around a batch of two complete rounds. *)
Definition two_good_rounds : str :=
  pyq "Here you go: {~rounds~: [{~id~: ~ai-4~, ~type~: ~text~, ~promptText~: ~Tap~, ~items~: [~a~, ~b~, ~c~, ~d~, ~e~]}, {~id~: ~ai-5~, ~type~: ~text~, ~promptText~: ~Tap~, ~items~: [~a~, ~b~, ~c~, ~d~, ~e~, ~f~]}]}".


(** ** The service

    The three storybook routes, and a run of calls against them. *)
Inductive call : Type :=
| post_generate_rounds (request : GenerateRoundsRequest)
| post_analyze_response (request : AnalyzeResponseRequest)
| get_health.

Inductive reply : Type :=
| rounds_reply (response : GenerateRoundsResponse)
| analysis_reply (response : AnalyzeResponseResponse)
| health_reply (body : value)
| server_error (e : exn).

Definition answer {A : Type} (wrap : A -> reply) (r : res A * world)
  : reply * world :=
  match r with
  | (Ok a, w) => (wrap a, w)
  | (Raise e, w) => (server_error e, w)
  end.

Definition route (py_str : value -> str) (c : call) (w : world) : reply * world :=
  match c with
  | post_generate_rounds request => answer rounds_reply (generate_rounds request w)
  | post_analyze_response request =>
      answer analysis_reply (analyze_response py_str request w)
  | get_health => answer health_reply (health_check w)
  end.



(** A process without the credential; its provider would answer well. *)
Definition no_credential : world :=
  World None (fun _ _ => Responded two_good_rounds) ∅ [].

Definition sample_analysis_request : AnalyzeResponseRequest :=
  {| roundId := py "ai-4"; promptText := py "Tap";
     items := [VStr (py "a"); VStr (py "b")]; userOrder := [VInt 2; VInt 1];
     analyze_sessionId := None; analyze_preferredLanguage := py "english" |}.

(** ** Reading a response

    [[r[k] for r in rounds]] *)
Definition field_of_rounds (k : str) (rounds : value) : res (list value) :=
  let! elements := iter rounds in
  fold_right
    (fun r acc =>
       let! x := getitem r k in
       let! xs := acc in
       Ok (x :: xs))
    (Ok []) elements.

(** [[len(r["items"]) for r in rounds]] *)
Definition item_counts (rounds : value) : res (list Z) :=
  let! all_items := field_of_rounds (py "items") rounds in
  fold_right
    (fun x acc =>
       let! n := len x in
       let! ns := acc in
       Ok (n :: ns))
    (Ok []) all_items.

Definition plain_request : GenerateRoundsRequest :=
  {| preferredLanguage := py "english"; sessionId := None |}.

(** ** Word detective *)
Section word_detective_vocabulary.
Import worddetective.

(** A game of [total] questions of which the first [right] were answered
    correctly and the others with a wrong word. *)
Definition attempt (i : nat) (right : bool) : AttemptEntry :=
  {| questionIndex := Z.of_nat i;
     presentedPair := [(py "correct", py "friend"); (py "wrong", py "freind")];
     chosenWord := Some (if right then py "friend" else py "freind");
     chosenWasCorrect := Some right |}.

Definition game (right total : nat) : AnalyzeRequest :=
  {| registrationInfo := None;
     attempts := map (fun i => attempt i (i <? right)%nat) (seq 0 total);
     sessionId := None |}.

(** Both fields are non-empty strings. *)
Definition nonempty_word_pair (v : value) : Prop :=
  exists correct wrong,
    getitem v (py "correct") = Ok (VStr correct) /\
    getitem v (py "wrong") = Ok (VStr wrong) /\
    correct <> [] /\ wrong <> [].

(** An element of a response body: a JSON object with exactly the two
    fields, both of them strings. *)
Definition string_word_pair (v : value) : Prop :=
  exists correct wrong,
    v = VDict [(py "correct", VStr correct); (py "wrong", VStr wrong)].

(** Both fields are there, in the sense of the test the handler makes. *)
Definition has_both_fields (v : value) : Prop :=
  contains (py "correct") v = Ok true /\ contains (py "wrong") v = Ok true.

(** A Groq client whose completion holds [text]. *)
Definition groq_says (text : str) : provider :=
  {| GROQ_MODEL := py "llama-3.1-8b-instant";
     groq_create := fun _ _ => Ok [Some text] |}.

(** A request of the word-pair endpoint. *)
Definition child_of_seven : GenerateRequest :=
  {| age := 7; language := Some (py "english"); difficulties := Some [];
     preferredLanguage := Some (py "english") |}.

End word_detective_vocabulary.

(** ** Further vocabulary: the gateway *)

(** The provider's answers to the calls an invocation makes, counted from
    the one the invocation starts with. *)
Definition answer_at (w : world) (prompt : str) (i : nat) : outcome :=
  gemini w (calls w + i)%nat prompt.

Definition fails_at (w : world) (prompt : str) (i : nat) : Prop :=
  exists e, answer_at w prompt i = Failed e.

(** ** Further vocabulary: rounds and analyses *)



(** The report of [health_check]. *)
Definition health_report (present : bool) : value :=
  VDict [(py "status", VStr (py "ok"));
         (py "api_key_configured", VBool present)].

(** A provider text with an analysis that has the six required fields but
    values outside the documented ranges. *)
Definition odd_analysis : str :=
  pyq "{~sequencing~: 7, ~omissions~: null, ~visualConfusion~: ~x~, ~phonologicalCue~: [], ~recommendedFollowUps~: 0, ~confidence~: -3}".

(** The payloads that are neither None nor a container nor a string. *)
Definition scalar (v : value) : Prop :=
  match v with
  | VBool _ | VInt _ | VFloat _ => True
  | _ => False
  end.

(** The credential is configured: present and not empty. *)
Definition configured (w : world) : Prop :=
  exists key, GEMINI_API_KEY w = Some key /\ key <> [].

(** ** Further vocabulary: the word detective *)
Section further_word_detective_vocabulary.
Import worddetective.

(** The values a membership test applies to. *)
Definition is_container (v : value) : bool :=
  match v with
  | VDict _ | VList _ | VStr _ => true
  | _ => false
  end.

(** The test of the collecting loop on an element it applies to. *)
Definition mentions_both (obj : value) : bool :=
  match contains (py "correct") obj, contains (py "wrong") obj with
  | Ok true, Ok true => true
  | _, _ => false
  end.

(** The text the handler decodes: the content without the space around it
    and without the fences. *)
Definition cleaned (content : str) : str :=
  re_sub fence_close (re_sub fence_open (strip content)).

Definition backtick : char := 96%N.
Definition newline : char := 10%N.

(** A Groq client that answers every request with [choices]. *)
Definition answers_with (p : provider) (choices : list (option str)) : Prop :=
  forall model messages, groq_create p model messages = Ok choices.

(** The attempts the loop of [analyze_results] counts as mistakes. *)
Definition counted_mistake (a : AttemptEntry) : bool :=
  negb (was_correct a) &&
  match chosenWord a with
  | Some chosen => str_truthy chosen
  | None => false
  end.

(** The sum of the counts of a histogram. *)
Definition total (d : list (str * Z)) : Z := fold_right Z.add 0 (map snd d).

(** A model output with one word pair. *)
Definition one_pair_text : str := pyq "[{~correct~: ~dog~, ~wrong~: ~dgo~}]".

End further_word_detective_vocabulary.

(** ** Further vocabulary: accounts and submissions *)

(** Some character of the password passes the test. *)
Definition has_some (test : char -> bool) (password : str) : Prop :=
  exists c, c ∈ password /\ test c = true.

Section submission_vocabulary.
Import tests_routes.

(** What a submission says about its own analysis, as the handler stores
    it. *)
Definition frontend_analysis (payload : TestSubmitUnion) : option value :=
  if truthy (get (py "aiAnalysis") (results payload)) then
    Some (VDict [(py "source", VStr (py "frontend"));
                 (py "analysis", get (py "aiAnalysis") (results payload))])
  else None.

(** The stored document of a submission made at [now]. *)
Definition stored_doc (now : str) (payload : TestSubmitUnion)
  : list (str * value) :=
  match frontend_analysis payload with
  | Some analysis => dict_set (py "aiAnalysis") analysis (test_doc now payload)
  | None => test_doc now payload
  end.

Definition not_found_response : JSONResponse :=
  {| content :=
       VDict [(py "success", VBool false);
              (py "message",
               VStr (py "Student not found or not owned by authenticated parent"));
              (py "code", VStr (py "STUDENT_NOT_FOUND"))];
     status_code := 404 |}.

Definition submitted_response (test_id : str) : JSONResponse :=
  {| content :=
       VDict [(py "success", VBool true);
              (py "message", VStr (py "Test submitted"));
              (py "data", VDict [(py "testId", VStr test_id)])];
     status_code := 201 |}.

(** A sample database: ids are strings of 24 characters; one student,
    owned by the parent "p1"; one test of this student under every id; one
    stored analysis for every session and student. *)
Definition sample_ObjectId (v : value) : result str :=
  match v with
  | VStr s => if Nat.eqb (length s) 24 then Return s
              else Raised (OtherError (py "InvalidId"))
  | _ => Raised (OtherError (py "TypeError"))
  end.

Definition sample_student : str := py "0123456789abcdef01234567".

Definition sample_find_one (col : collection) (filter : list (str * key str))
    (newest : bool) : result (option (str * list (str * value))) :=
  match col, filter with
  | students, [(_, Id id); (_, Val (VStr parent))] =>
      if str_eqb id sample_student && str_eqb parent (py "p1")
      then Return (Some (id, [(py "parentId", VStr (py "p1"))]))
      else Return None
  | students, [(_, Id id)] =>
      if str_eqb id sample_student
      then Return (Some (id, [(py "parentId", VStr (py "p1"))]))
      else Return None
  | tests, [(_, Id id)] =>
      Return (Some (id, [(py "studentId", VStr sample_student)]))
  | test_ai_analysis, _ =>
      Return (Some (py "a1", [(py "analysis", VDict [(py "confidence", VInt 1)])]))
  | _, _ => Return None
  end.

Definition sample_insert_one (col : collection) (doc : value) : result str :=
  Return (py "t1").

Definition sample_submission (student : str) : TestSubmitUnion :=
  {| testType := py "storybook";
     studentId := student;
     results := [(py "sessionId", VStr (py "s1"));
                 (py "aiAnalysis", VDict [(py "confidence", VInt 0)])];
     metadata := None; questionData := None; roundData := None;
     wordPairs := None |}.

End submission_vocabulary.

(** ** Further vocabulary: the middleware *)
Section middleware_vocabulary.
Import main.

(** The bytes a client receives from a response, or the exception of its
    iterator. *)
Definition sent {bytes : Type} (join_bytes : list bytes -> bytes)
    (response : Response bytes) : result bytes :=
  match response_body bytes response with
  | Body b => Return b
  | Iterator (Return chunks) => Return (join_bytes chunks)
  | Iterator (Raised e) => Raised e
  end.

(** A sample application: bytes are texts; every request is answered
    with a streamed body of two chunks. *)
Definition sample_call_next (request : Request str) : result (Response str) :=
  Return {| status_code := 200;
            headers := [(py "content-type", py "application/json")];
            media_type := None;
            response_body := Iterator (Return [pyq "{~source~: "; pyq "~fallback~}"]) |}.

Definition sample_request (route : string) : Request str :=
  {| path := py route; request_body := Return (pyq "{~sessionId~: ~s1~}") |}.

End middleware_vocabulary.

(* ===================================================================== *)
(** * Properties                                                          *)
(* ===================================================================== *)

(** ** Searching a text for one character *)
Section find_char.
Variable c : char.

Lemma prefixb_char (s : str) :
  prefixb [c] s = match s with
                  | d :: _ => N.eqb c d
                  | [] => false
                  end.
Proof. destruct s as [|d s]; simpl; [done | by rewrite andb_true_r]. Qed.

Lemma find_from_absent (s : str) (i : Z) :
  c ∉ s -> find_from [c] s i = -1.
Proof.
  revert i. induction s as [|d s IH]; intros i Hc.
  - reflexivity.
  - apply not_elem_of_cons in Hc as [Hne Hc].
    cbn [find_from]. rewrite prefixb_char.
    destruct (N.eqb_spec c d) as [->|_]; [done | by apply IH].
Qed.

Lemma find_from_first (pre rest : str) (i : Z) :
  c ∉ pre -> find_from [c] (pre ++ c :: rest) i = i + Z.of_nat (length pre).
Proof.
  revert i. induction pre as [|d pre IH]; intros i Hc.
  - cbn [app find_from length]. rewrite prefixb_char, N.eqb_refl. lia.
  - apply not_elem_of_cons in Hc as [Hne Hc].
    cbn [app find_from]. rewrite prefixb_char.
    destruct (N.eqb_spec c d) as [->|_]; [done |].
    rewrite IH by done. cbn [length]. lia.
Qed.

Lemma rfind_from_absent (s : str) (i : Z) :
  c ∉ s -> rfind_from [c] s i = -1.
Proof.
  revert i. induction s as [|d s IH]; intros i Hc.
  - reflexivity.
  - apply not_elem_of_cons in Hc as [Hne Hc].
    cbn [rfind_from]. rewrite IH by done. rewrite prefixb_char. cbn.
    destruct (N.eqb_spec c d) as [->|_]; done.
Qed.

Lemma rfind_from_last (s post : str) (i : Z) :
  0 <= i -> c ∉ post ->
  rfind_from [c] (s ++ c :: post) i = i + Z.of_nat (length s).
Proof.
  revert i. induction s as [|d s IH]; intros i Hi Hc.
  - cbn [app rfind_from length]. rewrite rfind_from_absent by done.
    rewrite prefixb_char, N.eqb_refl. cbn. lia.
  - cbn [app rfind_from]. rewrite IH by (done || lia).
    destruct (Z.eqb_spec (i + 1 + Z.of_nat (length s)) (-1)); [lia |].
    cbn [length]. lia.
Qed.

Lemma find_spec (s : str) :
  ((c ∉ s) /\ find s [c] = -1) \/
  (exists pre rest, s = pre ++ c :: rest /\ (c ∉ pre) /\
                    find s [c] = Z.of_nat (length pre)).
Proof.
  destruct (decide (c ∈ s)) as [Hin|Hout].
  - right. apply list_elem_of_split_l in Hin as (pre & rest & -> & Hpre).
    exists pre, rest. split_and!; [done..|].
    unfold find. by rewrite find_from_first.
  - left. split; [done |]. by apply find_from_absent.
Qed.

Lemma rfind_spec (s : str) :
  ((c ∉ s) /\ rfind s [c] = -1) \/
  (exists front post, s = front ++ c :: post /\ (c ∉ post) /\
                      rfind s [c] = Z.of_nat (length front)).
Proof.
  destruct (decide (c ∈ s)) as [Hin|Hout].
  - right. apply list_elem_of_split_r in Hin as (front & post & -> & Hpost).
    exists front, post. split_and!; [done..|].
    unfold rfind. by rewrite rfind_from_last.
  - left. split; [done |]. by apply rfind_from_absent.
Qed.
End find_char.

Lemma slice_middle {A : Type} (pre mid post : list A) :
  slice (pre ++ mid ++ post) (Z.of_nat (length pre))
        (Z.of_nat (length pre + length mid)) = mid.
Proof.
  unfold slice, clamp. rewrite !length_app.
  destruct (Z.ltb_spec (Z.of_nat (length pre)) 0); [lia |].
  destruct (Z.ltb_spec (Z.of_nat (length pre + length mid)) 0); [lia |].
  rewrite !Z.min_l by lia.
  rewrite Nat2Z.id.
  replace (Z.to_nat _) with (length mid) by lia.
  change (@skipn A) with (@drop A). change (@firstn A) with (@take A).
  rewrite drop_app_length. by rewrite take_app_length.
Qed.

(** ** The decoder: fuel, and the exceptions it raises *)
Lemma skip_ws_length (s : str) : (length (Json.skip_ws s) <= length s)%nat.
Proof.
  induction s as [|c s IH]; cbn; [lia |].
  destruct (Json.is_ws c); cbn; lia.
Qed.

Lemma span_digits_length (s ds r : str) :
  Json.span_digits s = (ds, r) -> length s = (length ds + length r)%nat.
Proof.
  revert ds r. induction s as [|c s IH]; intros ds r; cbn.
  - intros [= <- <-]. done.
  - destruct (Json.is_digit c).
    + destruct (Json.span_digits s) as [ds' r'] eqn:E. intros [= <- <-].
      cbn. rewrite (IH ds' r') by done. lia.
    + intros [= <- <-]. done.
Qed.

Lemma scanstring_shorter (n : nat) :
  forall s acc x r, (length s <= n)%nat ->
    Json.scanstring s acc = Some (x, r) -> (length r < length s)%nat.
Proof.
  induction n as [|n IH]; intros s acc x r Hn.
  { destruct s; [discriminate | cbn in Hn; lia]. }
  destruct s as [|c s]; [discriminate |].
  cbn [Json.scanstring]. cbn [length] in Hn |- *.
  repeat
    match goal with
    | |- Some _ = Some _ -> _ => intros [= <- <-]; cbn [length]; lia
    | |- None = Some _ -> _ => discriminate
    | |- Json.scanstring ?t _ = Some _ -> _ =>
        let H := fresh in
        intros H; apply IH in H; [cbn [length] in *; lia | cbn [length] in *; lia]
    | |- context [if ?b then _ else _] => destruct b
    | |- context [match ?l with [] => _ | _ :: _ => _ end] =>
        destruct l; cbn [length] in Hn |- *
    | |- context [match ?o with Some _ => _ | None => _ end] => destruct o
    end.
Qed.

(** A scanner that has stopped with a decoding error. *)
Ltac scan_stopped := unfold scans_well; by split_and!.

(** A scanner that has raised the exception of a limit. *)
Ltac scan_raised :=
  unfold scans_well, limit_error;
  split_and!; [done | done | intros ? [= <-]; by (left + right)].

Lemma match_number_well (s : str) : scans_well (Json.match_number s) s.
Proof.
  unfold Json.match_number.
  set (signed := match s with
                 | c :: t => if N.eqb c 45 then (true, t) else (false, s)
                 | [] => (false, s)
                 end).
  assert (Hs1 : (length (snd signed) <= length s)%nat).
  { subst signed. destruct s as [|c t]; cbn; [lia |].
    destruct (N.eqb c 45); cbn; lia. }
  destruct signed as [neg s1]. cbn [snd] in Hs1.
  assert (Hint : forall ds s2, Json.scan_integer s1 = Some (ds, s2) ->
                               (length s2 < length s1)%nat).
  { intros ds s2. unfold Json.scan_integer. destruct s1 as [|c s1']; [done |].
    destruct (N.eqb c 48); [intros [= <- <-]; cbn; lia |].
    destruct (Json.is_digit c) eqn:Hd; [| done].
    cbn [Json.span_digits]. rewrite Hd.
    destruct (Json.span_digits s1') as [ds' r'] eqn:E. intros [= <- <-].
    apply span_digits_length in E. cbn. lia. }
  destruct (Json.scan_integer s1) as [[int_ds s2]|] eqn:Eint; [| scan_stopped].
  specialize (Hint _ _ eq_refl).
  assert (Hfrac : forall ds s3, Json.scan_frac s2 = Some (ds, s3) ->
                                (length s3 <= length s2)%nat).
  { intros ds s3. unfold Json.scan_frac. destruct s2 as [|c s2']; [done |].
    destruct (N.eqb c 46); [| done].
    destruct (Json.span_digits s2') as [ds' r'] eqn:E.
    apply span_digits_length in E.
    destruct ds'; [done |]. intros [= <- <-]. cbn in *. lia. }
  assert (Hexp : forall s3 e s4, Json.scan_exp s3 = Some (e, s4) ->
                                 (length s4 <= length s3)%nat).
  { intros s3 e s4. unfold Json.scan_exp. destruct s3 as [|c s3']; [done |].
    destruct (N.eqb c 101 || N.eqb c 69); [| done].
    set (sg := match s3' with
               | sg :: t => if N.eqb sg 45 then (true, t)
                            else if N.eqb sg 43 then (false, t) else (false, s3')
               | [] => (false, s3')
               end).
    assert (Hsg : (length (snd sg) <= length s3')%nat).
    { subst sg. destruct s3' as [|d t]; cbn; [lia |].
      destruct (N.eqb d 45); cbn; [lia |]. destruct (N.eqb d 43); cbn; lia. }
    destruct sg as [neg' s'']. cbn [snd] in Hsg.
    destruct (Json.span_digits s'') as [ds' r'] eqn:E.
    apply span_digits_length in E.
    destruct ds'; [done |]. intros [= <- <-]. cbn in *. lia. }
  assert (Hgot : forall v s4, (length s4 <= length s2)%nat ->
                   @scans_well value (Json.POk v s4) s).
  { intros v s4 Hs4. split_and!; [done | | done].
    intros a r [= <- <-]. lia. }
  destruct (Json.scan_frac s2) as [[fds s3]|] eqn:Efrac.
  - specialize (Hfrac _ _ eq_refl).
    destruct (Json.scan_exp s3) as [[e s4]|] eqn:Eexp.
    + specialize (Hexp _ _ _ Eexp). cbn [orb]. apply Hgot. lia.
    + cbn [orb]. by apply Hgot.
  - destruct (Json.scan_exp s2) as [[e s4]|] eqn:Eexp.
    + specialize (Hexp _ _ _ Eexp). cbn [orb]. by apply Hgot.
    + cbn [orb].
      destruct (Json.int_max_str_digits <? length int_ds)%nat;
        [scan_raised | by apply Hgot].
Qed.

Section container_fuel.
Variable scan : str -> Json.pres value.
Hypothesis scan_ok : forall s, scans_well (scan s) s.

Lemma array_items_fuel (k : nat) :
  forall s acc, (length s < k)%nat ->
    scans_well (Json.array_items scan k s acc) s.
Proof.
  induction k as [|k IH]; intros s acc Hk; [lia |].
  cbn [Json.array_items].
  destruct (scan_ok s) as (Hfuel & Hshort & Hraise).
  destruct (scan s) as [v r| |e|]; [| scan_stopped | | done].
  2:{ split_and!; [done | done |]. intros ? [= <-]. by apply Hraise. }
  specialize (Hshort v r eq_refl).
  pose proof (skip_ws_length r) as Hws.
  destruct (Json.skip_ws r) as [|c r'] eqn:Er; [scan_stopped |].
  cbn [length] in Hws.
  destruct (N.eqb c 93).
  { split_and!; [done | | done]. intros l r0 [= <- <-]. lia. }
  destruct (N.eqb c 44); [| scan_stopped].
  pose proof (skip_ws_length r') as Hws'.
  destruct (IH (Json.skip_ws r') (v :: acc)) as (Hf & Hs & Hr); [lia |].
  split_and!; [done | | done]. intros l r0 Heq. specialize (Hs l r0 Heq). lia.
Qed.

Lemma JSONArray_fuel (k : nat) (s : str) :
  (length s < k)%nat ->
  scans_well (Json.JSONArray scan k s) (91%N :: s).
Proof.
  intros Hk. unfold Json.JSONArray.
  pose proof (skip_ws_length s) as Hws.
  destruct (Json.skip_ws s) as [|c r] eqn:Es; [scan_stopped |].
  destruct (N.eqb c 93).
  { split_and!; [done | | done]. intros a r0 [= <- <-]. cbn [length] in *. lia. }
  destruct (array_items_fuel k (c :: r) []) as (Hf & Hs & Hr); [lia |].
  destruct (Json.array_items scan k (c :: r) []) as [l r'| |e|];
    [| scan_stopped | | done].
  - split_and!; [done | | done]. intros a r0 [= <- <-].
    specialize (Hs l r' eq_refl). cbn [length] in *. lia.
  - split_and!; [done | done |]. intros ? [= <-]. by apply Hr.
Qed.

Lemma object_items_fuel (k : nat) :
  forall s acc, (length s < k)%nat ->
    scans_well (Json.object_items scan k s acc) s.
Proof.
  induction k as [|k IH]; intros s acc Hk; [lia |].
  cbn [Json.object_items].
  destruct s as [|q s1]; [scan_stopped |].
  destruct (N.eqb q 34); [| scan_stopped].
  destruct (Json.scanstring s1 []) as [[key s2]|] eqn:Ekey; [| scan_stopped].
  apply (scanstring_shorter (length s1)) in Ekey; [| lia].
  pose proof (skip_ws_length s2) as Hws2.
  destruct (Json.skip_ws s2) as [|colon s3] eqn:E2; [scan_stopped |].
  destruct (N.eqb colon 58); [| scan_stopped].
  pose proof (skip_ws_length s3) as Hws3.
  cbn [length] in *.
  destruct (scan_ok (Json.skip_ws s3)) as (Hfuel & Hshort & Hraise).
  destruct (scan (Json.skip_ws s3)) as [v r| |e|]; [| scan_stopped | | done].
  2:{ split_and!; [done | done |]. intros ? [= <-]. by apply Hraise. }
  specialize (Hshort v r eq_refl).
  pose proof (skip_ws_length r) as Hws.
  destruct (Json.skip_ws r) as [|c r'] eqn:Er; [scan_stopped |].
  cbn [length] in Hws.
  destruct (N.eqb c 125).
  { split_and!; [done | | done]. intros l r0 [= <- <-]. cbn [length]. lia. }
  destruct (N.eqb c 44); [| scan_stopped].
  pose proof (skip_ws_length r') as Hws'.
  destruct (IH (Json.skip_ws r') ((key, v) :: acc)) as (Hf & Hs & Hr); [lia |].
  split_and!; [done | | done].
  intros l r0 Heq. specialize (Hs l r0 Heq). cbn [length]. lia.
Qed.

Lemma JSONObject_fuel (k : nat) (s : str) :
  (length s < k)%nat ->
  scans_well (Json.JSONObject scan k s) (123%N :: s).
Proof.
  intros Hk. unfold Json.JSONObject.
  pose proof (skip_ws_length s) as Hws.
  destruct (Json.skip_ws s) as [|c r] eqn:Es; [scan_stopped |].
  destruct (N.eqb c 125).
  { split_and!; [done | | done]. intros a r0 [= <- <-]. cbn [length] in *. lia. }
  destruct (object_items_fuel k (c :: r) []) as (Hf & Hs & Hr); [lia |].
  destruct (Json.object_items scan k (c :: r) []) as [l r'| |e|];
    [| scan_stopped | | done].
  - split_and!; [done | | done]. intros a r0 [= <- <-].
    specialize (Hs l r' eq_refl). cbn [length] in *. lia.
  - split_and!; [done | done |]. intros ? [= <-]. by apply Hr.
Qed.
End container_fuel.

Lemma prefixb_length (sub s : str) :
  prefixb sub s = true -> (length sub <= length s)%nat.
Proof.
  revert s. induction sub as [|c sub IH]; intros s; cbn; [lia |].
  destruct s as [|d s]; [done |].
  intros [_ H]%andb_true_iff. apply IH in H. cbn. lia.
Qed.

(** A literal found at the start of the text leaves a shorter text. *)
Ltac literal_consumed H :=
  split_and!; [done | | done]; intros ? ? [= <- <-];
  apply prefixb_length in H; cbn in H;
  rewrite length_skipn; cbn [length]; lia.

(** At every depth the scanner leaves a shorter text when it succeeds,
    raises nothing but the exceptions of the two limits, and gives the
    loops over the items of a container enough fuel. *)
Lemma scan_once_fuel (depth : nat) :
  forall s, scans_well (Json.scan_once depth s) s.
Proof.
  induction depth as [|depth IH]; intros s.
  all: destruct s as [|c r]; [scan_stopped |].
  all: cbn [Json.scan_once].
  all: destruct (N.eqb c 34);
    [destruct (Json.scanstring r []) as [[x r']|] eqn:E; [| scan_stopped];
     apply (scanstring_shorter (length r)) in E; [| lia];
     split_and!; [done | | done]; intros a r0 [= <- <-]; cbn [length]; lia |].
  all: destruct (N.eqb_spec c 123) as [->|_];
    [first [scan_raised | apply (JSONObject_fuel _ IH); lia] |].
  all: destruct (N.eqb_spec c 91) as [->|_];
    [first [scan_raised | apply (JSONArray_fuel _ IH); lia] |].
  all: destruct (prefixb (py "null") (c :: r)) eqn:Hnull;
    [literal_consumed Hnull |].
  all: destruct (prefixb (py "true") (c :: r)) eqn:Htrue;
    [literal_consumed Htrue |].
  all: destruct (prefixb (py "false") (c :: r)) eqn:Hfalse;
    [literal_consumed Hfalse |].
  all: pose proof (match_number_well (c :: r)) as (Hfuel & Hshort & Hraise).
  all: destruct (Json.match_number (c :: r)) as [v r'| |e|] eqn:Hnum;
    [split_and!; [done | | done]; intros a r0 [= <- <-]; by apply (Hshort v r')
    | | split_and!; [done | done |]; intros ? [= <-]; by apply Hraise
    | done].
  all: destruct (prefixb (py "NaN") (c :: r)) eqn:Hnan;
    [literal_consumed Hnan |].
  all: destruct (prefixb (py "Infinity") (c :: r)) eqn:Hinf;
    [literal_consumed Hinf |].
  all: destruct (prefixb (py "-Infinity") (c :: r)) eqn:Hninf;
    [literal_consumed Hninf |].
  all: scan_stopped.
Qed.

(** The loops of the scan that [Json.loads] starts have fuel for the
    whole text. *)
Lemma loads_fuel_enough (s : str) :
  Json.scan_once Json.max_depth (Json.skip_ws s) <> Json.PFuel.
Proof. apply (scan_once_fuel Json.max_depth (Json.skip_ws s)). Qed.

(** [json.loads] raises a decoding error or the exception of a limit. *)
Lemma loads_raises (s : str) (e : exn) :
  Json.loads s = Raise e -> e = JSONDecodeError \/ limit_error e.
Proof.
  unfold Json.loads.
  destruct (prefixb _ s); [intros [= <-]; by left |].
  destruct (scan_once_fuel Json.max_depth (Json.skip_ws s)) as (_ & _ & Hraise).
  destruct (Json.scan_once _ _) as [v r| |e'|].
  - destruct (Json.skip_ws r); [done | intros [= <-]; by left].
  - intros [= <-]. by left.
  - intros [= <-]. right. by apply Hraise.
  - intros [= <-]. by left.
Qed.

(** Whatever depth of nesting is left to the scanner, a text that opens
    one array more makes it raise [RecursionError]: the exception does not
    hinge on the value of [Json.max_depth]. *)
Lemma nesting_beyond_depth_raises (depth : nat) :
  Json.scan_once depth (repeat (chr "[") (S depth))
  = Json.PRaise RecursionError.
Proof.
  change (chr "[") with 91%N.
  induction depth as [|depth IH]; [reflexivity |].
  change (repeat 91%N (S (S depth))) with (91%N :: repeat 91%N (S depth)).
  cbn [Json.scan_once]. change (N.eqb 91 34) with false.
  change (N.eqb 91 123) with false. change (N.eqb 91 91) with true. cbv iota.
  unfold Json.JSONArray.
  change (Json.skip_ws (repeat 91%N (S depth))) with (repeat 91%N (S depth)).
  change (repeat 91%N (S depth)) with (91%N :: repeat 91%N depth) at 1.
  change (N.eqb 91 93) with false. cbv iota.
  cbn [Json.array_items]. by rewrite IH.
Qed.

(** ** C1: the response extractor *)

(** A text with an opening brace and a closing brace after it, cut at the
    first opening and the last closing brace, is parsed between the two. *)
Lemma parse_json_response_braces (pre mid post : str) :
  Json.loads (pre ++ [lbrace] ++ mid ++ [rbrace] ++ post) = Raise JSONDecodeError ->
  lbrace ∉ pre -> rbrace ∉ post ->
  storybook.parse_json_response (pre ++ [lbrace] ++ mid ++ [rbrace] ++ post) =
  match Json.loads ([lbrace] ++ mid ++ [rbrace]) with
  | Ok v => Ok v
  | Raise JSONDecodeError => Ok VNone
  | Raise e => Raise e
  end.
Proof.
  intros Hfail Hpre Hpost. unfold storybook.parse_json_response.
  rewrite Hfail.
  change (py "{") with [lbrace]. change (py "}") with [rbrace].
  assert (Hfind : find (pre ++ [lbrace] ++ mid ++ [rbrace] ++ post) [lbrace]
                  = Z.of_nat (length pre)).
  { unfold find. cbn [app]. by rewrite find_from_first. }
  assert (Hrfind : rfind (pre ++ [lbrace] ++ mid ++ [rbrace] ++ post) [rbrace]
                   = Z.of_nat (length (pre ++ [lbrace] ++ mid))).
  { unfold rfind.
    replace (pre ++ [lbrace] ++ mid ++ [rbrace] ++ post)
      with ((pre ++ [lbrace] ++ mid) ++ rbrace :: post)
      by (by rewrite <- !app_assoc).
    by rewrite rfind_from_last. }
  rewrite Hfind, Hrfind.
  replace (Z.of_nat (length (pre ++ [lbrace] ++ mid)) + 1)
    with (Z.of_nat (length pre + length ([lbrace] ++ mid ++ [rbrace])))
    by (rewrite !length_app; cbn [length]; lia).
  destruct (Z.eqb_spec (Z.of_nat (length pre)) (-1)) as [?|_]; [lia |].
  destruct (Z.gtb_spec (Z.of_nat (length pre + length ([lbrace] ++ mid ++ [rbrace])))
              (Z.of_nat (length pre))) as [_|Hle];
    [| rewrite !length_app in Hle; cbn [length] in Hle; lia].
  cbn [negb andb].
  replace (pre ++ [lbrace] ++ mid ++ [rbrace] ++ post)
    with (pre ++ ([lbrace] ++ mid ++ [rbrace]) ++ post)
    by (by rewrite <- !app_assoc).
  by rewrite slice_middle.
Qed.

(** Without such a pair of braces nothing is parsed. *)
Lemma parse_json_response_no_braces (text : str) :
  Json.loads text = Raise JSONDecodeError ->
  (forall pre mid post, text <> pre ++ [lbrace] ++ mid ++ [rbrace] ++ post) ->
  storybook.parse_json_response text = Ok VNone.
Proof.
  intros Hfail Hnone. unfold storybook.parse_json_response. rewrite Hfail.
  change (py "{") with [lbrace]. change (py "}") with [rbrace].
  destruct (find_spec lbrace text) as [[_ ->]|(pre & rest & Htext & Hpre & ->)];
    [done |].
  destruct (Z.eqb_spec (Z.of_nat (length pre)) (-1)) as [?|_]; [lia |].
  cbn [negb andb].
  destruct (rfind_spec rbrace text) as [[_ ->]|(front & post & Htext' & Hpost & ->)].
  { destruct (Z.gtb_spec (-1 + 1) (Z.of_nat (length pre))); [lia | done]. }
  destruct (Z.gtb_spec (Z.of_nat (length front) + 1) (Z.of_nat (length pre)))
    as [Hgt|_]; [| done].
  exfalso.
  (* the closing brace found lies behind the opening one *)
  assert (Hlen : (length pre < length front)%nat).
  { destruct (decide (length front = length pre)) as [Heq|?]; [| lia].
    assert (text !! length pre = Some lbrace) as H1.
    { rewrite Htext. by apply list_lookup_middle. }
    assert (text !! length pre = Some rbrace) as H2.
    { rewrite Htext'. by apply list_lookup_middle. }
    rewrite H1 in H2. discriminate. }
  assert (Hfront : front = pre ++ lbrace :: take (length front - S (length pre)) rest).
  { rewrite <- (take_app_length front (rbrace :: post)) at 1.
    rewrite <- Htext', Htext. rewrite take_app. rewrite take_ge by lia.
    by replace (length front - length pre)%nat
         with (S (length front - S (length pre))) by lia. }
  apply (Hnone pre (take (length front - S (length pre)) rest) post).
  rewrite Htext'. rewrite Hfront at 1. by rewrite <- !app_assoc.
Qed.

(** An exception of [parse_json_response] is one the decoder has raised
    at one of its limits, on the whole text or on the part between the
    braces. *)
Lemma parse_json_response_raises (text : str) (e : exn) :
  storybook.parse_json_response text = Raise e -> limit_error e.
Proof.
  unfold storybook.parse_json_response.
  destruct (Json.loads text) as [v|e1] eqn:Hloads; [done |].
  apply loads_raises in Hloads as [-> | Hlimit].
  - destruct (_ && _); [| done].
    destruct (Json.loads _) as [v|e2] eqn:Hmid; [done |].
    apply loads_raises in Hmid as [-> | Hlimit]; [done |].
    destruct Hlimit as [-> | ->]; intros [= <-]; by (left + right).
  - destruct Hlimit as [-> | ->]; intros [= <-]; by (left + right).
Qed.

(** What holds of the two tiers.  The extractor returns the strict parse
    of the whole text when that succeeds.  When it fails with a decoding
    error and the text has a first opening brace and, behind it, a last
    closing brace, the extractor does with the substring from the one to
    the other what the decoder does: it returns its parse, returns None
    for a decoding error, and lets another exception pass.  It returns
    None when there is no such pair of braces.  An exception of the first
    parse that is not a decoding error passes as well. *)
Lemma parse_json_response_two_tiers (text : str) :
  (forall v, Json.loads text = Ok v ->
             storybook.parse_json_response text = Ok v) /\
  (forall e, Json.loads text = Raise e -> e <> JSONDecodeError ->
             storybook.parse_json_response text = Raise e) /\
  (forall pre mid post,
     Json.loads text = Raise JSONDecodeError ->
     text = pre ++ [lbrace] ++ mid ++ [rbrace] ++ post ->
     lbrace ∉ pre -> rbrace ∉ post ->
     storybook.parse_json_response text =
     match Json.loads ([lbrace] ++ mid ++ [rbrace]) with
     | Ok v => Ok v
     | Raise JSONDecodeError => Ok VNone
     | Raise e => Raise e
     end) /\
  (Json.loads text = Raise JSONDecodeError ->
   (forall pre mid post, text <> pre ++ [lbrace] ++ mid ++ [rbrace] ++ post) ->
   storybook.parse_json_response text = Ok VNone) /\
  (forall e, storybook.parse_json_response text = Raise e -> limit_error e).
Proof.
  split_and!.
  - intros v Hv. unfold storybook.parse_json_response. by rewrite Hv.
  - intros e He Hne. unfold storybook.parse_json_response. rewrite He.
    by destruct e.
  - intros pre mid post He -> Hpre Hpost. by apply parse_json_response_braces.
  - apply parse_json_response_no_braces.
  - apply parse_json_response_raises.
Qed.

(** C1.  The extractor does raise.  An integer literal of 4301 digits
    makes the decoder raise [ValueError], and 3000 opening brackets make it
    raise [RecursionError]; neither is a [JSONDecodeError], the one
    exception the two [except] clauses name, so they leave the function:
    from the first parse when the text is the literal, or the brackets,
    alone; from the second parse when the literal stands between braces
    after some prose.  generate-rounds calls the extractor outside any
    [try] and so fails with the same exception, where an unparseable text
    otherwise gives the fallback catalog. *)
Theorem C1_parse_json_response_raises_at_decoder_limits :
  Json.loads long_integer = Raise ValueError /\
  storybook.parse_json_response long_integer = Raise ValueError /\
  Json.loads long_integer_in_prose = Raise JSONDecodeError /\
  storybook.parse_json_response long_integer_in_prose = Raise ValueError /\
  storybook.parse_json_response deep_nesting = Raise RecursionError /\
  fst (generate_rounds plain_request (provider_says long_integer))
    = Raise ValueError /\
  fst (generate_rounds plain_request (provider_says deep_nesting))
    = Raise RecursionError.
Proof. split_and!; vm_compute; reflexivity. Qed.

(** ** The model gateway *)

Lemma extended_nil (w : world) : extended w [] = w.
Proof. destruct w. unfold extended. cbn. by rewrite app_nil_r. Qed.

Lemma extended_app (w : world) (t u : list event) :
  extended (extended w t) u = extended w (t ++ u).
Proof. unfold extended. cbn. by rewrite app_assoc. Qed.

Lemma retry_loop_returns (prompt : str) (max_retries : Z) (attempts : list Z) :
  forall w, exists r t,
    retry_loop prompt max_retries attempts w = (Ok r, extended w t).
Proof.
  induction attempts as [|attempt rest IH]; intros w.
  - exists None, []. by rewrite extended_nil.
  - cbn [retry_loop]. unfold try_except, bind, generate_content, ret.
    fold (extended w [Generate prompt]).
    destruct (gemini w (calls w) prompt) as [text|e].
    + by exists (Some text), [Generate prompt].
    + destruct (attempt <? max_retries - 1).
      * unfold sleep. fold (extended (extended w [Generate prompt]) [Sleep 1]).
        destruct (IH (extended (extended w [Generate prompt]) [Sleep 1]))
          as (r & t & ->).
        exists r, ([Generate prompt] ++ [Sleep 1] ++ t).
        by rewrite !extended_app.
      * destruct (IH (extended w [Generate prompt])) as (r & t & ->).
        exists r, ([Generate prompt] ++ t). by rewrite !extended_app.
Qed.

(** The gateway returns for every prompt, and changes nothing of the world
    but the trace. *)
Lemma call_gemini_with_retry_returns (prompt : str) (max_retries : Z) (w : world) :
  exists r t,
    call_gemini_with_retry prompt max_retries w = (Ok r, extended w t).
Proof.
  unfold call_gemini_with_retry, bind, getenv_GEMINI_API_KEY, ret.
  destruct (GEMINI_API_KEY w) as [key|].
  - destruct (str_truthy key); cbn [negb].
    + apply retry_loop_returns.
    + exists None, []. by rewrite extended_nil.
  - exists None, []. by rewrite extended_nil.
Qed.

(** Without a credential the gateway gives up at once. *)
Lemma call_gemini_with_retry_no_key (prompt : str) (max_retries : Z) (w : world) :
  GEMINI_API_KEY w = None ->
  call_gemini_with_retry prompt max_retries w = (Ok None, w).
Proof.
  intros Hkey.
  unfold call_gemini_with_retry, bind, getenv_GEMINI_API_KEY, ret.
  by rewrite Hkey.
Qed.

Lemma retry_loop_all_fail (prompt : str) (max_retries : Z) (n : nat) :
  forall (k : nat) (w : world),
    (forall i p, exists e, gemini w i p = Failed e) ->
    Z.of_nat (k + n) = max_retries ->
    retry_loop prompt max_retries (map Z.of_nat (seq k n)) w =
    (Ok None, extended w (attempts_with_backoff prompt n)).
Proof.
  induction n as [|n IH]; intros k w Hfail Hk.
  - cbn. by rewrite extended_nil.
  - cbn [seq map retry_loop]. unfold try_except, bind, generate_content, ret.
    fold (extended w [Generate prompt]).
    destruct (Hfail (calls w) prompt) as [e ->].
    destruct n as [|n].
    + destruct (Z.ltb_spec (Z.of_nat k) (max_retries - 1)); [lia |].
      reflexivity.
    + destruct (Z.ltb_spec (Z.of_nat k) (max_retries - 1)); [| lia].
      unfold sleep. fold (extended (extended w [Generate prompt]) [Sleep 1]).
      rewrite (IH (S k)); [| done | lia].
      by rewrite !extended_app.
Qed.

Lemma generate_events (prompt : str) (n : nat) :
  length (List.filter is_generate (attempts_with_backoff prompt n)) = n.
Proof.
  induction n as [|n IH]; [done |].
  cbn [attempts_with_backoff List.filter is_generate length].
  destruct n as [|n]; [done |].
  cbn [List.filter is_generate]. by rewrite IH.
Qed.

(** C4.  The gateway always resolves to a text or to None and never
    raises.  With the credential configured and every provider attempt
    failing, it makes exactly [max_retries] attempts, waits one second
    between each attempt and the next, and then returns None, the failure
    signal that no text equals. *)
Theorem C4_gateway_retries_then_fails
    (w : world) (prompt : str) (max_retries : Z) :
  (exists r w', call_gemini_with_retry prompt max_retries w = (Ok r, w')) /\
  (forall key,
     GEMINI_API_KEY w = Some key -> key <> [] ->
     0 <= max_retries ->
     (forall i p, exists e, gemini w i p = Failed e) ->
     exists w',
       call_gemini_with_retry prompt max_retries w = (Ok None, w') /\
       trace w' = trace w ++ attempts_with_backoff prompt (Z.to_nat max_retries) /\
       Z.of_nat (calls w') = Z.of_nat (calls w) + max_retries /\
       rounds_cache w' = rounds_cache w /\
       forall text : str, (None : option str) <> Some text).
Proof.
  split.
  { destruct (call_gemini_with_retry_returns prompt max_retries w) as (r & t & H).
    eauto. }
  intros key Hkey Hne Hpos Hfail.
  exists (extended w (attempts_with_backoff prompt (Z.to_nat max_retries))).
  split_and!; try done.
  - unfold call_gemini_with_retry, bind, getenv_GEMINI_API_KEY, ret.
    rewrite Hkey. destruct key as [|c key]; [done |]. cbn [str_truthy length Nat.eqb negb].
    unfold range. apply retry_loop_all_fail; [done | lia].
  - unfold calls, extended. cbn [trace].
    rewrite List.filter_app, length_app, generate_events. lia.
Qed.

Lemma C4_gateway_retries_then_fails_witness :
  let w := World (Some (py "key")) (fun _ _ => Failed (ProviderError (py "503")))
                 ∅ [] in
  exists w',
    call_gemini_with_retry (py "prompt") 2 w = (Ok None, w') /\
    trace w' = [Generate (py "prompt"); Sleep 1; Generate (py "prompt")].
Proof.
  intros w.
  destruct (C4_gateway_retries_then_fails w (py "prompt") 2) as [_ H].
  destruct (H (py "key")) as (w' & Hcall & Htrace & _).
  - reflexivity.
  - discriminate.
  - lia.
  - intros i p. eexists. reflexivity.
  - exists w'. split; [exact Hcall | exact Htrace].
Defined.

(** ** Dictionaries *)
Lemma str_eqb_eq (a b : str) : str_eqb a b = true <-> a = b.
Proof.
  revert b. induction a as [|x a IH]; intros [|y b]; cbn; try done.
  rewrite andb_true_iff, N.eqb_eq, IH. split; [intros [-> ->] | intros [= -> ->]]; done.
Qed.

Lemma str_eqb_refl (a : str) : str_eqb a a = true.
Proof. by apply str_eqb_eq. Qed.

Lemma dict_get_set_eq (k : str) (v : value) (d : list (str * value)) :
  dict_get k (dict_set k v d) = Some v.
Proof.
  induction d as [|[k' v'] d IH]; cbn.
  - by rewrite str_eqb_refl.
  - destruct (str_eqb k k') eqn:E; cbn; rewrite E; done.
Qed.

Lemma dict_get_set_ne (k k' : str) (v : value) (d : list (str * value)) :
  k <> k' -> dict_get k' (dict_set k v d) = dict_get k' d.
Proof.
  intros Hne. induction d as [|[k0 v0] d IH]; cbn.
  - destruct (str_eqb k' k) eqn:E; [| done].
    apply str_eqb_eq in E. congruence.
  - destruct (str_eqb k k0) eqn:E; cbn.
    + apply str_eqb_eq in E as ->.
      destruct (str_eqb k' k0) eqn:E'; [| done].
      apply str_eqb_eq in E'. congruence.
    + by rewrite IH.
Qed.

Lemma all_in_dict (keys : list str) (d : list (str * value)) :
  all_in keys (VDict d) = Ok true ->
  Forall (fun k => is_Some (dict_get k d)) keys.
Proof.
  induction keys as [|k keys IH]; cbn; [by constructor |].
  case_bool_decide as Hk; [| done].
  intros H. constructor; [done | by apply IH].
Qed.

(** ** Round batches *)

Lemma validate_rounds_accepts (elements : list value) :
  forall elements',
    validate_rounds elements = Ok (Some elements') ->
    Forall2 tagged elements elements' /\ Forall accepted_round elements'.
Proof.
  induction elements as [|r rest IH]; intros elements'; cbn [validate_rounds].
  { intros [= <-]. by split; constructor. }
  destruct (all_in required_round_fields r) as [[|]|] eqn:Hall; cbn [negb]; try done.
  destruct (getitem r (py "items")) as [round_items|] eqn:Hitems; [| done].
  destruct (len round_items) as [n|] eqn:Hlen; [| done].
  destruct (Z.ltb_spec n 5) as [|Hn]; [done |].
  destruct (setitem r (py "aiGenerated") (VBool true)) as [r'|] eqn:Htag; [| done].
  destruct (validate_rounds rest) as [[others|]|] eqn:Hrest; cbn; try done.
  intros [= <-]. destruct (IH others eq_refl) as [Htagged Hall'].
  split; [by constructor |]. constructor; [| done].
  destruct r as [| | | | |l|d]; try done.
  cbn in Htag. injection Htag as <-.
  unfold getitem in Hitems.
  destruct (dict_get (py "items") d) as [x|] eqn:Hget; [| done].
  injection Hitems as ->.
  apply all_in_dict in Hall.
  exists (dict_set (py "aiGenerated") (VBool true) d), round_items, n.
  split_and!; try done.
  - eapply Forall_impl; [exact Hall |]. intros k Hk. cbn in Hk.
    destruct (decide (py "aiGenerated" = k)) as [<-|Hne].
    + by rewrite dict_get_set_eq.
    + by rewrite dict_get_set_ne.
  - by rewrite dict_get_set_ne.
  - apply dict_get_set_eq.
Qed.

(** A one-character string holds none of the required field names, so the
    characters of a string never pass as round objects. *)
Lemma contains_id_char (c : char) : contains (py "id") (VStr [c]) = Ok false.
Proof.
  change (py "id") with [105%N; 100%N]. cbn. by rewrite andb_false_r.
Qed.

Lemma validate_rounds_chars (c : char) (rest : list value) :
  validate_rounds (VStr [c] :: rest) = Ok None.
Proof.
  unfold validate_rounds, required_round_fields. cbn [all_in].
  by rewrite contains_id_char.
Qed.

Lemma cache_lookup_spec (request : GenerateRoundsRequest) (w : world) :
  cache_lookup request w =
  (Ok (match cache_key request with
       | Some sid => rounds_cache w !! sid
       | None => None
       end), w).
Proof.
  unfold cache_lookup, cache_key, cache_get, ret.
  destruct (sessionId request) as [sid|]; [| done].
  by destruct (str_truthy sid).
Qed.

Lemma slice_two {A : Type} (l : list A) :
  2 <= Z.of_nat (length l) ->
  exists a b more, l = a :: b :: more /\ slice l 0 2 = [a; b].
Proof.
  intros Hl. destruct l as [|a [|b l]]; [cbn in Hl; lia.. |].
  exists a, b, l. split; [done |]. unfold slice, clamp.
  change (0 <? 0) with false. change (2 <? 0) with false. cbv iota.
  rewrite !Z.min_l by lia. reflexivity.
Qed.

Lemma generate_rounds_outcome (request : GenerateRoundsRequest) (w : world) :
  rounds_outcome request w (generate_rounds request w).
Proof.
  unfold generate_rounds, bind. rewrite cache_lookup_spec.
  destruct (match cache_key request with
            | Some sid => rounds_cache w !! sid
            | None => None
            end) as [cached|] eqn:Hlookup.
  { destruct (cache_key request) as [sid|] eqn:Hkey; [| done].
    unfold ret. by eapply cache_hit. }
  clear Hlookup.
  destruct (call_gemini_with_retry_returns (generate_rounds_prompt request)
              default_max_retries w) as (response_text & t & Hcall).
  rewrite Hcall.
  destruct response_text as [text|]; [| apply fell_back].
  destruct (str_truthy text); cbn [negb]; [| apply fell_back].
  unfold lift, ret.
  destruct (parse_json_response text) as [parsed|e] eqn:Hparsed; [| apply raised].
  destruct (truthy parsed); cbn [negb]; [| apply fell_back].
  destruct (contains (py "rounds") parsed) as [[|]|e]; cbn [negb];
    [| apply fell_back | apply raised].
  destruct (getitem parsed (py "rounds")) as [r|e] eqn:Hrounds; [| apply raised].
  destruct (len r) as [n|e] eqn:Hlen; [| apply raised].
  destruct (Z.ltb_spec n 2) as [|Hn]; [apply fell_back |].
  destruct (slice_to r 2) as [rounds_data|e] eqn:Hslice; [| apply raised].
  destruct (iter rounds_data) as [elements|e] eqn:Hiter; [| apply raised].
  destruct (validate_rounds elements) as [[elements'|]|e] eqn:Hval;
    [| apply fell_back | apply raised].
  destruct r as [| | | |s|l|d]; try done;
    cbn in Hslice, Hlen; injection Hslice as <-; injection Hlen as <-;
    cbn in Hiter; injection Hiter as <-.
  { (* a string: its characters are rejected *)
    destruct (slice_two s Hn) as (a & b & more & _ & Hs). rewrite Hs in Hval.
    cbn [map] in Hval. by rewrite validate_rounds_chars in Hval. }
  destruct (slice_two l Hn) as (r1 & r2 & more & -> & Hs). rewrite Hs in Hval |- *.
  apply validate_rounds_accepts in Hval as [Htagged Hall].
  inversion Htagged as [|? r1' ? l1 Ht1 Htagged']; subst.
  inversion Htagged' as [|? r2' ? l2 Ht2 Hnil]; subst.
  inversion Hnil; subst.
  inversion Hall as [|? ? H1 Hall']; subst.
  inversion Hall' as [|? ? H2 _]; subst.
  cbn [updated].
  replace (match sessionId request with
           | Some sid => if str_truthy sid
                         then cache_put sid (VList [r1'; r2'])
                         else fun w0 => (Ok (), w0)
           | None => fun w0 => (Ok (), w0)
           end (extended w t))
    with (Ok (), cached_under (sessionId request) (VList [r1'; r2']) w t).
  { eapply generated; try done. by exists r1', r2'. }
  unfold cached_under, cache_put, extended.
  destruct (sessionId request) as [sid|]; [| done].
  by destruct (str_truthy sid).
Qed.

(** ** C3: the session round cache *)
Lemma generate_rounds_hit (request : GenerateRoundsRequest) (w : world)
    (sid : str) (cached : value) :
  cache_key request = Some sid ->
  rounds_cache w !! sid = Some cached ->
  generate_rounds request w = (Ok {| rounds := cached; source := py "ai" |}, w).
Proof.
  intros Hkey Hhit. unfold generate_rounds, bind.
  rewrite cache_lookup_spec, Hkey, Hhit. reflexivity.
Qed.

Lemma cache_key_session (request : GenerateRoundsRequest) (sid : str) :
  sessionId request = Some sid -> sid <> [] -> cache_key request = Some sid.
Proof.
  intros Hsid Hne. unfold cache_key. rewrite Hsid.
  by destruct sid.
Qed.



(** ** C5: no credential *)






(** Once rounds are cached for a session, the cache answers for it even
    without the credential; this is why C5 starts from the empty cache. *)
Lemma cached_session_without_credential
    (request : GenerateRoundsRequest) (w : world) (sid : str) (cached : value) :
  GEMINI_API_KEY w = None ->
  cache_key request = Some sid ->
  rounds_cache w !! sid = Some cached ->
  generate_rounds request w = (Ok {| rounds := cached; source := py "ai" |}, w).
Proof. intros _. apply generate_rounds_hit. Qed.

(** ** C2, C6, C8: what the rounds of a response look like *)

(** A response is all or nothing: a call that misses the cache and returns
    either returns the fallback catalog tagged "fallback", or a batch of two
    round objects tagged "ai" that both passed the validation. *)
Lemma rounds_batch_all_or_nothing
    (request : GenerateRoundsRequest) (w w' : world)
    (response : GenerateRoundsResponse) :
  match cache_key request with
  | Some sid => rounds_cache w !! sid = None
  | None => True
  end ->
  generate_rounds request w = (Ok response, w') ->
  response = fallback_rounds_response \/
  (source response = py "ai" /\ accepted_batch (rounds response)).
Proof.
  intros Hmiss Hcall.
  pose proof (generate_rounds_outcome request w) as Hout. rewrite Hcall in Hout.
  inversion Hout as [sid cached Hkey Hhit Hresp|t Hresp|e t Hresp
                    |text parsed r1 r2 r1' r2' more t _ _ _ _ _ Hbatch Hresp];
    subst.
  - rewrite Hkey in Hmiss. congruence.
  - by left.
  - right. by split.
Qed.

(** C2.  Two provider texts for which generate-rounds does not return the
    fallback catalog.  [{"rounds": null}] parses to a payload whose "rounds"
    field holds no round object at all; taking the length of [None] raises
    [TypeError].  In the second text the second round object lacks three
    of the required fields; the first one is complete, but taking the
    length of its items, [None], raises [TypeError] before the second round
    is looked at.  Nothing catches the exception. *)
Theorem C2_ill_typed_rounds_raise_instead_of_fallback :
  let text := pyq "{~rounds~: null}" in
  let text' := pyq "{~rounds~: [{~id~: ~ai-4~, ~type~: ~text~, ~promptText~: ~Tap~, ~items~: null}, {~id~: ~ai-5~}]}" in
  parse_json_response text = Ok (VDict [(py "rounds", VNone)]) /\
  fst (generate_rounds plain_request (provider_says text)) = Raise TypeError /\
  fst (generate_rounds plain_request (provider_says text')) = Raise TypeError.
Proof. split_and!; vm_compute; reflexivity. Qed.

(** A payload that is not an object ends the same way. *)
Lemma number_payload_raises :
  fst (generate_rounds plain_request (provider_says (py "5"))) = Raise TypeError.
Proof. vm_compute; reflexivity. Qed.

(** C6.  Without a credential generate-rounds returns the fallback
    catalog, and each of its two rounds has three items, not five or six. *)
Theorem C6_fallback_rounds_have_three_items :
  exists response,
    fst (generate_rounds plain_request no_credential) = Ok response /\
    source response = py "fallback" /\
    item_counts (rounds response) = Ok [3; 3].
Proof. eexists. split_and!; vm_compute; reflexivity. Qed.

(** The validation has no upper bound either: a generated round with seven
    items is returned tagged "ai". *)
Lemma seven_items_accepted :
  let text := pyq "{~rounds~: [{~id~: ~ai-4~, ~type~: ~text~, ~promptText~: ~Tap~, ~items~: [~a~, ~b~, ~c~, ~d~, ~e~, ~f~, ~g~]}, {~id~: ~ai-5~, ~type~: ~text~, ~promptText~: ~Tap~, ~items~: [~a~, ~b~, ~c~, ~d~, ~e~]}]}" in
  exists response,
    fst (generate_rounds plain_request (provider_says text)) = Ok response /\
    source response = py "ai" /\
    item_counts (rounds response) = Ok [7; 5].
Proof. eexists. split_and!; vm_compute; reflexivity. Qed.

(** C8.  Without a credential generate-rounds returns the fallback catalog
    tagged "fallback", and both of its rounds carry [aiGenerated: True],
    the flag that marks a round as machine-generated. *)
Theorem C8_fallback_rounds_flagged_ai_generated :
  exists response,
    fst (generate_rounds plain_request no_credential) = Ok response /\
    source response = py "fallback" /\
    field_of_rounds (py "aiGenerated") (rounds response) =
      Ok [VBool true; VBool true].
Proof. eexists. split_and!; vm_compute; reflexivity. Qed.

(** The part of C8 that holds: the rounds of a freshly generated batch all
    carry the tag, in the response and in the cache alike. *)
Lemma generated_rounds_are_tagged
    (request : GenerateRoundsRequest) (w w' : world)
    (response : GenerateRoundsResponse) (sid : str) :
  sessionId request = Some sid -> sid <> [] ->
  rounds_cache w !! sid = None ->
  generate_rounds request w = (Ok response, w') ->
  source response = py "ai" ->
  rounds_cache w' !! sid = Some (rounds response) /\
  exists r1 r2,
    rounds response = VList [r1; r2] /\
    getitem r1 (py "aiGenerated") = Ok (VBool true) /\
    getitem r2 (py "aiGenerated") = Ok (VBool true).
Proof.
  intros Hsid Hne Hmiss Hcall Hsource.
  pose proof (cache_key_session request sid Hsid Hne) as Hkey.
  pose proof (generate_rounds_outcome request w) as Hout. rewrite Hcall in Hout.
  inversion Hout as [sid0 cached Hkey0 Hhit Hresp|t Hresp|e t Hresp
                    |text parsed r1 r2 r1' r2' more t _ _ _ _ _ Hbatch Hresp];
    subst.
  - rewrite Hkey in Hkey0. injection Hkey0 as <-. congruence.
  - vm_compute in Hsource. discriminate.
  - split.
    + unfold cached_under. cbn [rounds_cache rounds]. rewrite Hsid.
      destruct sid as [|c sid]; [done |]. cbn [str_truthy length Nat.eqb negb].
      apply lookup_insert_eq.
    + destruct Hbatch as (a & b & [= <- <-] & H1 & H2). exists r1', r2'.
      destruct H1 as (d1 & ? & ? & -> & _ & _ & _ & _ & Hflag1).
      destruct H2 as (d2 & ? & ? & -> & _ & _ & _ & _ & Hflag2).
      cbn [rounds getitem]. by rewrite Hflag1, Hflag2.
Qed.

(** The part of C6 that holds: the rounds of a freshly generated batch have
    at least five items each. *)
Lemma generated_rounds_have_five_items
    (request : GenerateRoundsRequest) (w w' : world)
    (response : GenerateRoundsResponse) :
  match cache_key request with
  | Some sid => rounds_cache w !! sid = None
  | None => True
  end ->
  generate_rounds request w = (Ok response, w') ->
  source response = py "ai" ->
  exists n1 n2,
    item_counts (rounds response) = Ok [n1; n2] /\ 5 <= n1 /\ 5 <= n2.
Proof.
  intros Hmiss Hcall Hsource.
  pose proof (generate_rounds_outcome request w) as Hout. rewrite Hcall in Hout.
  inversion Hout as [sid0 cached Hkey0 Hhit Hresp|t Hresp|e t Hresp
                    |text parsed r1 r2 r1' r2' more t _ _ _ _ _ Hbatch Hresp];
    subst.
  - rewrite Hkey0 in Hmiss. congruence.
  - vm_compute in Hsource. discriminate.
  - destruct Hbatch as (a & b & [= <- <-] & H1 & H2).
    destruct H1 as (d1 & i1 & n1 & -> & _ & Hi1 & Hn1 & Hle1 & _).
    destruct H2 as (d2 & i2 & n2 & -> & _ & Hi2 & Hn2 & Hle2 & _).
    exists n1, n2. split; [| done].
    unfold item_counts, field_of_rounds. cbn [rounds iter fold_right getitem].
    rewrite Hi1, Hi2. cbn [fold_right]. by rewrite Hn1, Hn2.
Qed.

(** ** C7: the mistake classifier *)
Import worddetective.

(** C7.  Under the first-matching-rule-wins ordering the classifier gives: ("the", "hte") transposition; ("cat", "cats")
    extra_letter; ("Cat", " cat") case/spacing; ("dog", "big") other; and
    ("receive", "recieve") transposition, because the swapped pair "ei" /
    "ie" is found by the transposition scan, which comes before the
    digraph check. *)
Theorem C7_classifier_examples (unicode_lower : str -> str) :
  simple_mistake_type unicode_lower (py "the") (py "hte") = py "transposition" /\
  simple_mistake_type unicode_lower (py "cat") (py "cats") = py "extra_letter" /\
  simple_mistake_type unicode_lower (py "Cat") (py " cat") = py "case/spacing" /\
  simple_mistake_type unicode_lower (py "receive") (py "recieve") = py "transposition" /\
  simple_mistake_type unicode_lower (py "dog") (py "big") = py "other".
Proof. split_and!; vm_compute; reflexivity. Qed.

(** The fourth example of the specification, with the digraph confusion as
    its answer, does not hold of the code. *)
Lemma C7_receive_is_not_digraph_confusion :
  simple_mistake_type (fun s => s) (py "receive") (py "recieve")
  <> py "ei/ie_confusion".
Proof. vm_compute. discriminate. Qed.

(** Two words that differ by a swap of two adjacent letters are caught by
    the transposition scan. *)
Lemma transposed_swap (pre post : str) (x y : char) :
  transposed (pre ++ x :: y :: post) (pre ++ y :: x :: post) = true.
Proof.
  unfold transposed. apply existsb_exists.
  exists (Z.of_nat (length pre)). split.
  - unfold range. apply in_map, in_seq.
    rewrite length_app. cbn [length]. lia.
  - unfold at_. rewrite !length_app. cbn [length].
    replace (Z.to_nat (Z.of_nat (length pre) + 1)) with (S (length pre)) by lia.
    rewrite Nat2Z.id.
    rewrite !(list_lookup_middle pre _ _ (length pre)) by done.
    replace (pre ++ y :: x :: post) with ((pre ++ [y]) ++ x :: post)
      by (by rewrite <- app_assoc).
    replace (pre ++ x :: y :: post) with ((pre ++ [x]) ++ y :: post)
      by (by rewrite <- app_assoc).
    rewrite !(list_lookup_middle (pre ++ [_]) _ _ (S (length pre)))
      by (rewrite length_app; cbn; lia).
    cbn [same_char]. rewrite !N.eqb_refl, !andb_true_r.
    apply Z.ltb_lt. lia.
Qed.

(** So a swapped digraph never reaches the digraph rule: the classifier
    answers with one of its first two rules. *)
Lemma adjacent_swap_classified (unicode_lower : str -> str)
    (pre post : str) (x y : char) :
  let correct := pre ++ x :: y :: post in
  let wrong := pre ++ y :: x :: post in
  simple_mistake_type unicode_lower correct wrong = py "case/spacing" \/
  simple_mistake_type unicode_lower correct wrong = py "transposition".
Proof.
  intros correct wrong. unfold simple_mistake_type.
  assert (str_truthy correct = true) as -> by (subst correct; by destruct pre).
  assert (str_truthy wrong = true) as -> by (subst wrong; by destruct pre).
  cbn [negb orb].
  destruct (str_eqb _ _); [by left |].
  subst correct wrong. rewrite transposed_swap. by right.
Qed.

(** The digraph rule is reached by two words of equal length that both
    hold the digraph and have no adjacent swap. *)
Lemma digraph_rule_reached (unicode_lower : str -> str) :
  simple_mistake_type unicode_lower (py "receive") (py "deceive") = py "ei/ie_confusion" /\
  simple_mistake_type unicode_lower (py "friend") (py "freind") = py "transposition" /\
  simple_mistake_type unicode_lower (py "their") (py "thier") = py "transposition".
Proof. split_and!; vm_compute; reflexivity. Qed.

(** ** C9: risk banding *)
Lemma gt_spec (x y : Q) : gt x y = true <-> (y < x)%Q.
Proof.
  unfold gt. rewrite negb_true_iff.
  destruct (Qle_bool x y) eqn:E.
  - apply Qle_bool_iff in E. split; [done |]. intros H.
    exfalso. by apply (Qlt_not_le _ _ H).
  - split; [intros _ | done]. apply Qnot_le_lt. intros H.
    apply Qle_bool_iff in H. congruence.
Qed.

Lemma gt_false (x y : Q) : gt x y = false <-> (x <= y)%Q.
Proof.
  unfold gt. rewrite negb_false_iff. apply Qle_bool_iff.
Qed.

(** C9.  The risk band is "low" exactly when the accuracy is above 80,
    "monitor" exactly when it is above 60 and at most 80, and "high"
    otherwise; so 85 gives "low", 70 "monitor", 50 "high" and 80 itself
    "monitor".  The same bands come out of [analyze_results] for games
    with these accuracies: 17 of 20, 7 of 10, 1 of 2 and 4 of 5. *)
Theorem C9_risk_banding (accuracy : Q) (unicode_lower : str -> str) :
  (risk_band accuracy = py "low" <-> (80 < accuracy)%Q) /\
  (risk_band accuracy = py "monitor" <-> (60 < accuracy)%Q /\ (accuracy <= 80)%Q) /\
  (risk_band accuracy = py "high" <-> (accuracy <= 60)%Q) /\
  risk_band 85 = py "low" /\
  risk_band 70 = py "monitor" /\
  risk_band 50 = py "high" /\
  risk_band 80 = py "monitor" /\
  risk (analyze_results unicode_lower (game 17 20)) = py "low" /\
  risk (analyze_results unicode_lower (game 7 10)) = py "monitor" /\
  risk (analyze_results unicode_lower (game 1 2)) = py "high" /\
  risk (analyze_results unicode_lower (game 4 5)) = py "monitor".
Proof.
  assert (py "low" <> py "monitor") as Hlm by (vm_compute; discriminate).
  assert (py "low" <> py "high") as Hlh by (vm_compute; discriminate).
  assert (py "monitor" <> py "high") as Hmh by (vm_compute; discriminate).
  split_and!; try (vm_compute; reflexivity); unfold risk_band.
  - destruct (gt accuracy 80) eqn:H80.
    { apply gt_spec in H80. done. }
    apply gt_false in H80.
    split; [destruct (gt accuracy 60); congruence |].
    intros H. exfalso. by apply (Qlt_not_le _ _ H).
  - destruct (gt accuracy 80) eqn:H80.
    { apply gt_spec in H80. split; [congruence |]. intros [_ H].
      exfalso. by apply (Qlt_not_le _ _ H80). }
    apply gt_false in H80.
    destruct (gt accuracy 60) eqn:H60.
    { apply gt_spec in H60. done. }
    apply gt_false in H60. split; [congruence |]. intros [H _].
    exfalso. by apply (Qlt_not_le _ _ H).
  - destruct (gt accuracy 80) eqn:H80.
    { apply gt_spec in H80. split; [congruence |]. intros H.
      exfalso. apply (Qlt_not_le _ _ H80).
      apply (Qle_trans _ 60); [done | by vm_compute]. }
    destruct (gt accuracy 60) eqn:H60.
    { apply gt_spec in H60. split; [congruence |]. intros H.
      exfalso. by apply (Qlt_not_le _ _ H60). }
    apply gt_false in H60. done.
Qed.

(** ** C10: word pairs *)

Lemma collect_pairs_raise (elements : list value) (e : exn) :
  fold_left
    (fun acc obj =>
       let! pairs := acc in
       let! has_correct := contains (py "correct") obj in
       if negb has_correct then Ok pairs
       else
         let! has_wrong := contains (py "wrong") obj in
         if has_wrong then Ok (pairs ++ [obj]) else Ok pairs)
    elements (Raise e) = Raise e.
Proof. induction elements as [|obj elements IH]; [done | by cbn]. Qed.

Lemma collect_pairs_from (elements : list value) :
  forall acc pairs,
    Forall has_both_fields acc ->
    fold_left
      (fun acc obj =>
         let! pairs := acc in
         let! has_correct := contains (py "correct") obj in
         if negb has_correct then Ok pairs
         else
           let! has_wrong := contains (py "wrong") obj in
           if has_wrong then Ok (pairs ++ [obj]) else Ok pairs)
      elements (Ok acc) = Ok pairs ->
    Forall has_both_fields pairs.
Proof.
  induction elements as [|obj elements IH]; intros acc pairs Hacc; cbn [fold_left].
  { by intros [= <-]. }
  destruct (contains (py "correct") obj) as [[|]|e] eqn:Hc; cbn [negb].
  - destruct (contains (py "wrong") obj) as [[|]|e] eqn:Hw.
    + apply IH. apply Forall_app. split; [done |]. by repeat constructor.
    + by apply IH.
    + by rewrite collect_pairs_raise.
  - by apply IH.
  - by rewrite collect_pairs_raise.
Qed.

Lemma collect_pairs_have_both (elements pairs : list value) :
  collect_pairs elements = Ok pairs -> Forall has_both_fields pairs.
Proof. apply collect_pairs_from. constructor. Qed.

Lemma slice_six {A : Type} (P : A -> Prop) (l : list A) :
  Forall P l -> Forall P (slice l 0 6) /\ (length (slice l 0 6) <= 6)%nat.
Proof.
  intros Hl. unfold slice. split.
  - apply Forall_take. by apply Forall_drop.
  - rewrite length_firstn. unfold clamp.
    change (6 <? 0) with false. change (0 <? 0) with false. cbv iota. lia.
Qed.

Lemma fallback_word_pairs_nonempty : Forall nonempty_word_pair FALLBACK_WORD_PAIRS.
Proof.
  unfold FALLBACK_WORD_PAIRS.
  repeat constructor; eexists _, _; split_and!;
    try (vm_compute; reflexivity); vm_compute; discriminate.
Qed.

Lemma fallback_word_pairs_have_both : Forall has_both_fields FALLBACK_WORD_PAIRS.
Proof. unfold FALLBACK_WORD_PAIRS. repeat constructor. Qed.

(** The handler of the word-pair endpoint always returns, with one to
    six elements, and every element it returns passed its test for the
    "correct" and the "wrong" field. *)
Lemma generate_words_returns (p : provider) (req : GenerateRequest) :
  exists response,
    generate_words p req = Ok response /\
    Forall has_both_fields (wordPairs response) /\
    (1 <= length (wordPairs response) <= 6)%nat /\
    Forall nonempty_word_pair FALLBACK_WORD_PAIRS.
Proof.
  assert (Hfallback :
    Forall has_both_fields FALLBACK_WORD_PAIRS /\
    (1 <= length FALLBACK_WORD_PAIRS <= 6)%nat /\
    Forall nonempty_word_pair FALLBACK_WORD_PAIRS).
  { split_and!; [apply fallback_word_pairs_have_both | cbn; lia | cbn; lia |
                 apply fallback_word_pairs_nonempty]. }
  unfold generate_words.
  destruct (generate_words_try p req) as [response|e] eqn:Htry; [| by eexists].
  exists response. split; [done |].
  revert Htry. unfold generate_words_try.
  destruct (groq_create p _ _) as [choices|]; [| done].
  destruct choices as [|[content|] choices]; try done.
  destruct (Json.loads _) as [parsed|]; [| done].
  destruct (iter parsed) as [elements|]; [| done].
  destruct (collect_pairs elements) as [pairs|] eqn:Hpairs; [| done].
  apply collect_pairs_have_both in Hpairs.
  destruct (Nat.eqb_spec (length pairs) 0) as [|Hne]; intros [= <-]; [done |].
  cbn [wordPairs].
  destruct (slice_six has_both_fields pairs Hpairs) as [Hall Hlen].
  split_and!; [done | | done | apply fallback_word_pairs_nonempty].
  destruct pairs as [|a pairs]; [done |].
  unfold slice, clamp. change (6 <? 0) with false. change (0 <? 0) with false.
  cbv iota. rewrite length_firstn, length_skipn. cbn [length]. lia.
Qed.

(** The response model on a list of elements: it fails with the error
    of the validation, or gives as many word pairs as there are
    elements. *)
Lemma validate_wordPairs_length (coerce : value -> option WordPair)
    (elements : list value) :
  match validate_wordPairs coerce elements with
  | Ok pairs => length pairs = length elements
  | Raise e => e = ResponseValidationError
  end.
Proof.
  induction elements as [|obj elements IH]; cbn [validate_wordPairs]; [done |].
  destruct (validate_WordPair coerce obj); [| done].
  destruct (validate_wordPairs coerce elements); [| done].
  cbn [length]. by rewrite IH.
Qed.

Lemma jsonable_encoder_strings (pairs : list WordPair) :
  exists elements,
    jsonable_encoder pairs = VDict [(py "wordPairs", VList elements)] /\
    length elements = length pairs /\
    Forall string_word_pair elements.
Proof.
  unfold jsonable_encoder. eexists. split; [reflexivity |].
  split; [by rewrite length_map |].
  apply Forall_map, Forall_forall. intros validated _. by eexists _, _.
Qed.

(** The fallback list passes the response model as it is. *)
Lemma fallback_word_pairs_validate (coerce : value -> option WordPair) :
  exists pairs,
    validate_wordPairs coerce FALLBACK_WORD_PAIRS = Ok pairs /\
    jsonable_encoder pairs = VDict [(py "wordPairs", VList FALLBACK_WORD_PAIRS)].
Proof. eexists. split; reflexivity. Qed.

(** C10.  Every element of a response of the word-pair endpoint is an
    object with the two fields "correct" and "wrong", both of them strings,
    and there are one to six of them: the response model sees to that, and
    the endpoint fails, with the error of the validation, when an element
    the handler has collected does not fit it.  When the handler falls
    back, the response holds the fallback list, whose fields are strings
    that are not empty.  Nothing checks that the strings taken from the
    model output are not empty. *)
Theorem C10_word_pairs_are_strings
    (coerce : value -> option WordPair) (p : provider) (req : GenerateRequest) :
  match post_generate coerce p req with
  | Ok body =>
      exists elements,
        body = VDict [(py "wordPairs", VList elements)] /\
        (1 <= length elements <= 6)%nat /\
        Forall string_word_pair elements
  | Raise e => e = ResponseValidationError
  end /\
  (generate_words p req = Ok {| wordPairs := FALLBACK_WORD_PAIRS |} ->
   post_generate coerce p req
     = Ok (VDict [(py "wordPairs", VList FALLBACK_WORD_PAIRS)])) /\
  Forall string_word_pair FALLBACK_WORD_PAIRS /\
  Forall nonempty_word_pair FALLBACK_WORD_PAIRS.
Proof.
  split_and!.
  - unfold post_generate.
    destruct (generate_words_returns p req) as (response & -> & _ & Hlen & _).
    pose proof (validate_wordPairs_length coerce (wordPairs response)) as Hvalid.
    destruct (validate_wordPairs coerce (wordPairs response)) as [pairs|e];
      [| done].
    destruct (jsonable_encoder_strings pairs) as (elements & -> & Hsame & Hall).
    exists elements. split_and!; [done | lia | lia | done].
  - intros Hfallback. unfold post_generate. rewrite Hfallback. cbn [wordPairs].
    by destruct (fallback_word_pairs_validate coerce) as (pairs & -> & ->).
  - unfold FALLBACK_WORD_PAIRS. repeat constructor; by eexists _, _.
  - apply fallback_word_pairs_nonempty.
Qed.

(** The invariant of the specification, both fields non-empty, does not
    hold of the endpoint: a pair of empty strings in the model output
    passes the test of the handler and the response model, and is
    returned as it is. *)
Lemma C10_empty_word_pair_returned :
  (forall coerce,
     post_generate coerce (groq_says (pyq "[{~correct~: ~~, ~wrong~: ~~}]"))
       child_of_seven =
     Ok (VDict [(py "wordPairs",
                 VList [VDict [(py "correct", VStr []);
                               (py "wrong", VStr [])]])])) /\
  ~ Forall nonempty_word_pair
      [VDict [(py "correct", VStr []); (py "wrong", VStr [])]].
Proof.
  split; [intros coerce; vm_compute; reflexivity |].
  intros H. inversion H as [|? ? (correct & wrong & Hc & _ & Hne & _) _]; subst.
  vm_compute in Hc. injection Hc as <-. done.
Qed.

(** Elements that are not objects pass the test as well: a string that
    holds both words is collected as a pair. *)
Lemma string_collected_as_pair :
  generate_words (groq_says (pyq "[~correct or wrong~]")) child_of_seven =
    Ok {| wordPairs := [VStr (py "correct or wrong")] |}.
Proof. vm_compute; reflexivity. Qed.

(** The response model then refuses the string (when pydantic makes
    nothing of it), and the endpoint fails where the handler, had it seen
    the error, would have fallen back. *)
Lemma unvalidated_element_fails_the_response :
  post_generate (fun _ => None) (groq_says (pyq "[~correct or wrong~]"))
    child_of_seven = Raise ResponseValidationError.
Proof. vm_compute; reflexivity. Qed.

(* ===================================================================== *)
(** * Further properties                                                  *)
(* ===================================================================== *)

Section gateway_properties.
Import storybook.

(** ** The gateway: attempts, waits and the first answer *)
Lemma calls_extended (w : world) (t : list event) :
  calls (extended w t) = (calls w + length (List.filter is_generate t))%nat.
Proof.
  unfold calls, extended. cbn [trace].
  by rewrite List.filter_app, length_app.
Qed.

Lemma attempts_with_backoff_next (prompt : str) (j : nat) :
  Generate prompt :: Sleep 1 :: attempts_with_backoff prompt (S j) =
  attempts_with_backoff prompt (S (S j)).
Proof. reflexivity. Qed.

Lemma retry_loop_attempts (prompt : str) (max_retries : Z) (n : nat) :
  forall (k : nat) (w : world),
    Z.of_nat (k + n) = max_retries ->
    exists r j,
      (j <= n)%nat /\
      retry_loop prompt max_retries (map Z.of_nat (seq k n)) w =
        (Ok r, extended w (attempts_with_backoff prompt j)) /\
      (forall i, (i < j - 1)%nat -> fails_at w prompt i) /\
      match r with
      | Some text => (1 <= j)%nat /\ answer_at w prompt (j - 1) = Responded text
      | None => j = n /\ (forall i, (i < n)%nat -> fails_at w prompt i)
      end.
Proof.
  induction n as [|n IH]; intros k w Hk.
  { exists None, 0%nat. split_and!; [lia | | intros; lia | done | intros; lia].
    cbn. by rewrite extended_nil. }
  cbn [seq map retry_loop]. unfold try_except, bind, generate_content, ret.
  fold (extended w [Generate prompt]).
  destruct (gemini w (calls w) prompt) as [text|e] eqn:Hfirst.
  { exists (Some text), 1%nat. split_and!; [lia | done | intros; lia | lia |].
    unfold answer_at. by rewrite Nat.add_0_r. }
  assert (Hfail0 : fails_at w prompt 0).
  { exists e. unfold answer_at. by rewrite Nat.add_0_r. }
  destruct n as [|n].
  { destruct (Z.ltb_spec (Z.of_nat k) (max_retries - 1)); [lia |].
    exists None, 1%nat. split_and!; [lia | done | intros; lia | done |].
    intros i Hi. by replace i with 0%nat by lia. }
  destruct (Z.ltb_spec (Z.of_nat k) (max_retries - 1)); [| lia].
  unfold sleep. fold (extended (extended w [Generate prompt]) [Sleep 1]).
  rewrite extended_app.
  set (w1 := extended w ([Generate prompt] ++ [Sleep 1])).
  destruct (IH (S k) w1) as (r & j & Hj & Hloop & Hbefore & Hr); [lia |].
  assert (Hcalls : calls w1 = S (calls w)).
  { subst w1. rewrite calls_extended. cbn. lia. }
  assert (Hshift : forall i, answer_at w1 prompt i = answer_at w prompt (S i)).
  { intros i. unfold answer_at. rewrite Hcalls. subst w1. cbn [gemini extended].
    f_equal. lia. }
  assert (Hj1 : (1 <= j)%nat).
  { destruct r; [by destruct Hr | destruct Hr as [-> _]; lia]. }
  destruct j as [|j]; [lia |].
  exists r, (S (S j)). rewrite Hloop. subst w1. rewrite extended_app.
  split_and!; [lia | done | |].
  - intros i Hi. destruct i as [|i]; [done |].
    destruct (Hbefore i) as [e' He']; [lia |].
    exists e'. by rewrite <- Hshift.
  - destruct r as [text|].
    + destruct Hr as [_ Hr]. split; [lia |].
      rewrite Hshift in Hr. by replace (S (S j) - 1)%nat with (S (S j - 1)) by lia.
    + destruct Hr as [Hn Hall]. split; [lia |].
      intros i Hi. destruct i as [|i]; [done |].
      destruct (Hall i) as [e' He']; [lia |].
      exists e'. by rewrite <- Hshift.
Qed.

Lemma retry_loop_range (prompt : str) (max_retries : Z) (w : world) :
  exists r k,
    (k <= Z.to_nat max_retries)%nat /\
    retry_loop prompt max_retries (range max_retries) w =
      (Ok r, extended w (attempts_with_backoff prompt k)) /\
    (forall i, (i < k - 1)%nat -> fails_at w prompt i) /\
    match r with
    | Some text => (1 <= k)%nat /\ answer_at w prompt (k - 1) = Responded text
    | None =>
        k = Z.to_nat max_retries /\ forall i, (i < k)%nat -> fails_at w prompt i
    end.
Proof.
  destruct (retry_loop_attempts prompt (Z.of_nat (Z.to_nat max_retries))
              (Z.to_nat max_retries) 0 w) as (r & k & Hk & Hloop & Hbefore & Hr);
    [lia |].
  exists r, k. split_and!; [done | | done |].
  - unfold range. rewrite <- Hloop.
    destruct (Z.le_gt_cases 0 max_retries) as [Hpos|Hneg].
    + by rewrite Z2Nat.id.
    + replace (Z.to_nat max_retries) with 0%nat by lia. reflexivity.
  - destruct r; [done |]. by destruct Hr as [-> ?].
Qed.

Lemma gateway_trace_bound (w : world) (prompt : str) (max_retries : Z) :
  exists r k,
    (k <= Z.to_nat max_retries)%nat /\
    call_gemini_with_retry prompt max_retries w =
      (Ok r, extended w (attempts_with_backoff prompt k)).
Proof.
  unfold call_gemini_with_retry, bind, getenv_GEMINI_API_KEY, ret.
  assert (Hnone : exists (r : option str) (k : nat),
    (k <= Z.to_nat max_retries)%nat /\
    (Ok (@None str), w) = (Ok r, extended w (attempts_with_backoff prompt k))).
  { exists None, 0%nat. split; [lia |]. cbn. by rewrite extended_nil. }
  destruct (GEMINI_API_KEY w) as [key|]; [| done].
  destruct (str_truthy key); cbn [negb]; [| done].
  destruct (retry_loop_range prompt max_retries w) as (r & k & Hk & Hloop & _).
  by exists r, k.
Qed.

(** In every world the gateway makes [k] provider calls, with [k] at most
    [max_retries], and waits one second between a failed call and the next
    one, never after the last.  It stops at the first call that answers and
    returns that text; it returns None only without making a call at all
    (no credential, or no attempt allowed) or after [max_retries] calls that
    all failed. *)
Theorem gateway_stops_at_first_answer (w : world) (prompt : str) (max_retries : Z) :
  exists r k,
    (k <= Z.to_nat max_retries)%nat /\
    call_gemini_with_retry prompt max_retries w =
      (Ok r, extended w (attempts_with_backoff prompt k)) /\
    (forall i, (i < k - 1)%nat -> fails_at w prompt i) /\
    match r with
    | Some text => (1 <= k)%nat /\ answer_at w prompt (k - 1) = Responded text
    | None =>
        k = 0%nat \/
        (k = Z.to_nat max_retries /\ forall i, (i < k)%nat -> fails_at w prompt i)
    end.
Proof.
  unfold call_gemini_with_retry, bind, getenv_GEMINI_API_KEY, ret.
  assert (Hnone : exists (r : option str) (k : nat),
    (k <= Z.to_nat max_retries)%nat /\
    (Ok (@None str), w) = (Ok r, extended w (attempts_with_backoff prompt k)) /\
    (forall i, (i < k - 1)%nat -> fails_at w prompt i) /\
    match r with
    | Some text => (1 <= k)%nat /\ answer_at w prompt (k - 1) = Responded text
    | None =>
        k = 0%nat \/
        (k = Z.to_nat max_retries /\ forall i, (i < k)%nat -> fails_at w prompt i)
    end).
  { exists None, 0%nat. split_and!; [lia | | intros; lia | by left].
    cbn. by rewrite extended_nil. }
  destruct (GEMINI_API_KEY w) as [key|]; [| done].
  destruct (str_truthy key); cbn [negb]; [| done].
  destruct (retry_loop_range prompt max_retries w)
    as (r & k & Hk & Hloop & Hbefore & Hr).
  exists r, k. split_and!; [done.. |].
  destruct r; [done |]. by right.
Qed.

End gateway_properties.

Section storybook_properties.
Import storybook.

(** ** The health check and the gateway agree on the credential *)
Lemma extended_same (w : world) (t : list event) : extended w t = w -> t = [].
Proof.
  intros H. apply (f_equal trace) in H. unfold extended in H. cbn [trace] in H.
  rewrite <- (app_nil_r (trace w)) in H at 2. by apply app_inv_head in H.
Qed.

(** [health_check] changes nothing, and it reports the credential as
    missing exactly when the gateway, for every prompt, returns None
    without a provider call; an empty credential counts as missing for
    both. *)
Theorem health_agrees_with_gateway (w : world) :
  exists present,
    health_check w = (Ok (health_report present), w) /\
    (present = false <->
     forall prompt,
       call_gemini_with_retry prompt default_max_retries w = (Ok None, w)) /\
    (present = false <->
     GEMINI_API_KEY w = None \/ GEMINI_API_KEY w = Some []).
Proof.
  unfold health_check, bind, getenv_GEMINI_API_KEY, ret, health_report.
  assert (Hlive : forall key prompt,
    GEMINI_API_KEY w = Some key -> str_truthy key = true ->
    call_gemini_with_retry prompt default_max_retries w <> (Ok None, w)).
  { intros key prompt Hkey Htruthy Hcall.
    unfold call_gemini_with_retry, bind, getenv_GEMINI_API_KEY, ret in Hcall.
    rewrite Hkey, Htruthy in Hcall. cbn [negb] in Hcall.
    destruct (retry_loop_attempts prompt default_max_retries 2 0 w)
      as (r & j & Hj & Hloop & _ & Hr); [done |].
    change (range default_max_retries) with (map Z.of_nat (seq 0 2)) in Hcall.
    rewrite Hloop in Hcall. injection Hcall as -> Hw.
    destruct Hr as [-> _]. apply extended_same in Hw. discriminate. }
  destruct (GEMINI_API_KEY w) as [key|] eqn:Hkey.
  - destruct (str_truthy key) eqn:Htruthy.
    + exists true. split_and!; [done | |].
      * split; [done |]. intros Hnone. exfalso.
        by apply (Hlive key [] eq_refl Htruthy).
      * split; [done |]. intros [|[= ->]]; done.
    + exists false. split_and!; [done | |].
      * split; [| done]. intros _ prompt.
        unfold call_gemini_with_retry, bind, getenv_GEMINI_API_KEY, ret.
        by rewrite Hkey, Htruthy.
      * split; [| done]. intros _. right. by destruct key.
  - exists false. split_and!; [done | |].
    + split; [| done]. intros _ prompt.
      by apply call_gemini_with_retry_no_key.
    + split; [| done]. intros _. by left.
Qed.

(** ** What [generate_rounds] does to the world *)

(** [generate_rounds] keeps the credential and the provider, and changes
    the cache in one way only: it stores the batch it returns with source
    "ai" under the session of the request, which is then given and not
    empty.  A fallback, a failure and a request without a session store
    nothing. *)
Theorem generate_rounds_cache_frame (request : GenerateRoundsRequest) (w : world) :
  let w' := snd (generate_rounds request w) in
  GEMINI_API_KEY w' = GEMINI_API_KEY w /\
  gemini w' = gemini w /\
  (rounds_cache w' = rounds_cache w \/
   exists sid batch,
     sessionId request = Some sid /\ sid <> [] /\
     fst (generate_rounds request w) =
       Ok {| rounds := batch; source := py "ai" |} /\
     rounds_cache w' = <[sid := batch]> (rounds_cache w)).
Proof.
  pose proof (generate_rounds_outcome request w) as Hout.
  destruct (generate_rounds request w) as [r w'] eqn:Hcall. cbn [fst snd].
  inversion Hout as [sid cached Hkey Hhit|t|e t
                    |text parsed r1 r2 r1' r2' more t _ _ _ _ _ _]; subst;
    split_and!; try done; try (by left).
  unfold cached_under. cbn [rounds_cache].
  destruct (sessionId request) as [sid|]; [| by left].
  destruct sid as [|c sid]; [by left |].
  right. exists (c :: sid), (VList [r1'; r2']). split_and!; done.
Qed.

(** The trace after a call of [generate_rounds] is the trace of the one
    gateway invocation it makes, if it makes one. *)
Lemma generate_rounds_trace (request : GenerateRoundsRequest) (w : world) :
  snd (generate_rounds request w) = w \/
  trace (snd (generate_rounds request w)) =
  trace (snd (call_gemini_with_retry (generate_rounds_prompt request)
                default_max_retries w)).
Proof.
  unfold generate_rounds, bind. rewrite cache_lookup_spec.
  destruct (match cache_key request with
            | Some sid => rounds_cache w !! sid
            | None => None
            end); [by left |].
  right.
  destruct (call_gemini_with_retry (generate_rounds_prompt request)
              default_max_retries w) as [[response_text|e] w1]; [| done].
  cbn [snd]. unfold lift, ret, cache_put.
  repeat
    match goal with
    | |- trace (snd (_, _)) = _ => reflexivity
    | |- context [sessionId request] => destruct (sessionId request)
    | |- context [str_truthy ?s] => destruct (str_truthy s)
    | |- context [match ?x with _ => _ end] => destruct x
    end.
Qed.

Lemma analyze_response_trace (py_str : value -> str)
    (request : AnalyzeResponseRequest) (w : world) :
  snd (analyze_response py_str request w) =
  snd (call_gemini_with_retry (analyze_response_prompt py_str request)
         default_max_retries w).
Proof.
  unfold analyze_response, bind.
  destruct (call_gemini_with_retry (analyze_response_prompt py_str request)
              default_max_retries w) as [[response_text|e] w1]; [| done].
  cbn [snd]. unfold lift, ret.
  repeat
    match goal with
    | |- snd (_, _) = _ => reflexivity
    | |- context [match ?x with _ => _ end] => destruct x
    end.
Qed.

(** One call of generate-rounds or of analyze-response makes at most two
    provider calls, and generate-rounds makes none when the cache holds
    the session. *)
Theorem endpoints_make_at_most_two_provider_calls
    (py_str : value -> str) (rounds_request : GenerateRoundsRequest)
    (analysis_request : AnalyzeResponseRequest) (w : world) :
  (calls (snd (generate_rounds rounds_request w)) <= calls w + 2)%nat /\
  (calls (snd (analyze_response py_str analysis_request w)) <= calls w + 2)%nat /\
  (forall sid,
     cache_key rounds_request = Some sid ->
     is_Some (rounds_cache w !! sid) ->
     calls (snd (generate_rounds rounds_request w)) = calls w).
Proof.
  assert (Hgate : forall prompt,
    (calls (snd (call_gemini_with_retry prompt default_max_retries w))
     <= calls w + 2)%nat).
  { intros prompt.
    destruct (gateway_trace_bound w prompt default_max_retries)
      as (r & k & Hk & ->). cbn [snd].
    rewrite calls_extended, generate_events.
    change (Z.to_nat default_max_retries) with 2%nat in Hk. lia. }
  split_and!.
  - destruct (generate_rounds_trace rounds_request w) as [-> | Htrace]; [lia |].
    unfold calls at 1. rewrite Htrace. apply Hgate.
  - rewrite analyze_response_trace. apply Hgate.
  - intros sid Hkey [cached Hhit].
    by rewrite (generate_rounds_hit rounds_request w sid cached).
Qed.

End storybook_properties.

Section storybook_acceptance.
Import storybook.

(** ** Payloads that are accepted *)
Lemma gateway_first_answer (w : world) (prompt text : str) :
  configured w ->
  answer_at w prompt 0 = Responded text ->
  call_gemini_with_retry prompt default_max_retries w =
  (Ok (Some text), extended w [Generate prompt]).
Proof.
  intros (key & Hkey & Hne) Hanswer.
  unfold call_gemini_with_retry, bind, getenv_GEMINI_API_KEY. rewrite Hkey.
  destruct key as [|c key]; [done |]. cbn [str_truthy length Nat.eqb negb].
  change (range default_max_retries) with [0; 1]. cbn [retry_loop].
  unfold try_except, bind, generate_content.
  unfold answer_at in Hanswer. rewrite Nat.add_0_r in Hanswer.
  by rewrite Hanswer.
Qed.

Lemma all_in_complete (keys : list str) (d : list (str * value)) :
  Forall (fun k => is_Some (dict_get k d)) keys ->
  all_in keys (VDict d) = Ok true.
Proof.
  induction 1 as [|k keys Hk _ IH]; cbn [all_in contains]; [done |].
  by rewrite bool_decide_eq_true_2.
Qed.





(** ** [analyze_response] *)

(** An analysis object with the six required fields is returned as it
    is, with source "ai", whatever the fields hold; the cache is not
    touched. *)
Theorem complete_analysis_is_returned
    (py_str : value -> str) (request : AnalyzeResponseRequest) (w : world)
    (text : str) (d : list (str * value)) :
  configured w ->
  answer_at w (analyze_response_prompt py_str request) 0 = Responded text ->
  text <> [] ->
  parse_json_response text = Ok (VDict d) ->
  Forall (fun k => is_Some (dict_get k d)) required_fields ->
  analyze_response py_str request w =
  (Ok {| analysis := VDict d; analyze_source := py "ai" |},
   extended w [Generate (analyze_response_prompt py_str request)]).
Proof.
  intros Hkey Hanswer Htext Hparsed Hall.
  unfold analyze_response, bind.
  rewrite (gateway_first_answer w _ text Hkey Hanswer).
  destruct text as [|c text]; [done |]. cbn [str_truthy length Nat.eqb negb].
  unfold lift, ret. rewrite Hparsed.
  replace (truthy (VDict d)) with true.
  - cbn [negb]. by rewrite (all_in_complete _ _ Hall).
  - inversion Hall as [|k ks [x Hx] _]; subst. by destruct d.
Qed.

Lemma complete_analysis_is_returned_witness :
  exists d,
    analyze_response (fun _ => []) sample_analysis_request
      (provider_says odd_analysis) =
    (Ok {| analysis := VDict d; analyze_source := py "ai" |},
     extended (provider_says odd_analysis)
       [Generate (analyze_response_prompt (fun _ => [])
                    sample_analysis_request)]) /\
    dict_get (py "confidence") d = Some (VInt (-3)).
Proof.
  eexists. split.
  - eapply (complete_analysis_is_returned (fun _ => []) sample_analysis_request
              (provider_says odd_analysis) odd_analysis).
    + exists (py "secret"). split; [reflexivity | discriminate].
    + reflexivity.
    + discriminate.
    + vm_compute. reflexivity.
    + repeat constructor; eexists; vm_compute; reflexivity.
  - vm_compute. reflexivity.
Defined.

(** Every way a call of analyze-response can return.  The world changes
    by the events of one gateway invocation only, so the cache is never
    touched.  A response is the fallback analysis, or it has source "ai"
    and holds the payload parsed from the provider's text, which then
    passed the test for the six required fields. *)
Theorem analyze_response_outcomes
    (py_str : value -> str) (request : AnalyzeResponseRequest) (w : world) :
  exists r t,
    call_gemini_with_retry (analyze_response_prompt py_str request)
      default_max_retries w = (Ok r, extended w t) /\
    snd (analyze_response py_str request w) = extended w t /\
    forall response,
      fst (analyze_response py_str request w) = Ok response ->
      response = fallback_analysis_response \/
      exists text,
        r = Some text /\
        parse_json_response text = Ok (analysis response) /\
        analyze_source response = py "ai" /\
        all_in required_fields (analysis response) = Ok true.
Proof.
  destruct (call_gemini_with_retry_returns (analyze_response_prompt py_str request)
              default_max_retries w) as (r & t & Hcall).
  exists r, t. split; [done |].
  unfold analyze_response, bind. rewrite Hcall.
  destruct r as [text|]; [| split; [done | intros ? [= <-]; by left]].
  destruct (str_truthy text); cbn [negb];
    [| split; [done | intros ? [= <-]; by left]].
  unfold lift, ret.
  destruct (parse_json_response text) as [parsed|e] eqn:Hparsed; [| done].
  destruct (truthy parsed) eqn:Htruthy; cbn [negb];
    [| split; [done | intros ? [= <-]; by left]].
  destruct (all_in required_fields parsed) as [[|]|e] eqn:Hall; cbn [negb fst snd].
  - split; [done |]. intros ? [= <-]. right. by exists text.
  - split; [done |]. intros ? [= <-]. by left.
  - split; [done |]. done.
Qed.

(** A payload that is a number other than zero, or [true], makes
    analyze-response fail: the payload is truthy, the test for the required
    fields does not apply to it, and nothing catches the [TypeError]. *)
Theorem scalar_analysis_raises
    (py_str : value -> str) (request : AnalyzeResponseRequest) (w : world)
    (text : str) (v : value) :
  configured w ->
  answer_at w (analyze_response_prompt py_str request) 0 = Responded text ->
  parse_json_response text = Ok v ->
  scalar v -> truthy v = true ->
  analyze_response py_str request w =
  (Raise TypeError,
   extended w [Generate (analyze_response_prompt py_str request)]).
Proof.
  intros Hkey Hanswer Hparsed Hscalar Htruthy.
  unfold analyze_response, bind.
  rewrite (gateway_first_answer w _ text Hkey Hanswer).
  destruct text as [|c text].
  { vm_compute in Hparsed. injection Hparsed as <-. done. }
  cbn [str_truthy length Nat.eqb negb].
  unfold lift, ret. rewrite Hparsed, Htruthy. cbn [negb].
  by destruct v.
Qed.

Lemma scalar_analysis_raises_witness :
  analyze_response (fun _ => []) sample_analysis_request
    (provider_says (py " 1e-3 ")) =
  (Raise TypeError,
   extended (provider_says (py " 1e-3 "))
     [Generate (analyze_response_prompt (fun _ => []) sample_analysis_request)]).
Proof.
  eapply (scalar_analysis_raises (fun _ => []) sample_analysis_request
            (provider_says (py " 1e-3 ")) (py " 1e-3 ")).
  - exists (py "secret"). split; [reflexivity | discriminate].
  - reflexivity.
  - vm_compute. reflexivity.
  - exact I.
  - reflexivity.
Defined.

End storybook_acceptance.

Section extraction_properties.
Import storybook.

(** ** What the extraction from prose can return *)
Lemma scan_once_object (depth : nat) (s r : str) (v : value) :
  Json.scan_once depth (lbrace :: s) = Json.POk v r -> exists d, v = VDict d.
Proof.
  unfold lbrace. destruct depth as [|depth]; cbn [Json.scan_once];
    change (N.eqb 123 34) with false; change (N.eqb 123 123) with true;
    cbv iota; [done |].
  unfold Json.JSONObject.
  destruct (Json.skip_ws s) as [|c r0]; [done |].
  destruct (N.eqb c 125); [intros [= <- <-]; by eexists |].
  destruct (Json.object_items _ _ _ _) as [pairs r'| | |]; [| done..].
  intros [= <- <-]. by eexists.
Qed.

Lemma loads_object (s : str) (v : value) :
  Json.loads (lbrace :: s) = Ok v -> exists d, v = VDict d.
Proof.
  unfold Json.loads.
  change (prefixb [65279%N] (lbrace :: s)) with false. cbv iota.
  change (Json.skip_ws (lbrace :: s)) with (lbrace :: s).
  destruct (Json.scan_once Json.max_depth (lbrace :: s)) as [v' r| | |] eqn:Hscan;
    [| done..].
  destruct (Json.skip_ws r); [| done]. intros [= <-].
  by apply (scan_once_object _ _ _ _ Hscan).
Qed.

Lemma slice_from_first {A : Type} (pre rest : list A) (x : A) (stop : Z) :
  stop > Z.of_nat (length pre) ->
  exists mid, slice (pre ++ x :: rest) (Z.of_nat (length pre)) stop = x :: mid.
Proof.
  intros Hstop. unfold slice, clamp. rewrite length_app. cbn [length].
  destruct (Z.ltb_spec (Z.of_nat (length pre)) 0); [lia |].
  destruct (Z.ltb_spec stop 0); [lia |].
  rewrite (Z.min_l (Z.of_nat (length pre))) by lia. rewrite Nat2Z.id.
  change (@skipn A) with (@drop A). rewrite drop_app_length.
  destruct (Z.to_nat _) as [|k] eqn:Hk; [lia |].
  by eexists.
Qed.

(** When the strict parse of the whole text fails, the extractor returns
    None or an object, never a list, a string, a number or a truth value:
    the substring it parses starts at an opening brace. *)
Theorem extraction_yields_object_or_none (text : str) (e : exn) (v : value) :
  Json.loads text = Raise e ->
  parse_json_response text = Ok v ->
  v = VNone \/ exists d, v = VDict d.
Proof.
  intros Hfail. unfold parse_json_response. rewrite Hfail.
  destruct e; try done.
  change (py "{") with [lbrace].
  destruct (find_spec lbrace text) as [[_ ->]|(pre & rest & -> & _ & ->)].
  { intros [= <-]. by left. }
  destruct (Z.eqb_spec (Z.of_nat (length pre)) (-1)) as [?|_]; [lia |].
  cbn [negb andb].
  destruct (Z.gtb_spec (rfind (pre ++ lbrace :: rest) (py "}") + 1)
              (Z.of_nat (length pre))) as [Hgt|_];
    [| intros [= <-]; by left].
  destruct (slice_from_first pre rest lbrace
              (rfind (pre ++ lbrace :: rest) (py "}") + 1)) as [mid ->]; [lia |].
  destruct (Json.loads (lbrace :: mid)) as [x|e'] eqn:Hmid.
  - intros [= <-]. right. by apply (loads_object mid).
  - destruct e'; try done. intros [= <-]. by left.
Qed.

Lemma extraction_yields_object_or_none_witness :
  let text := pyq "Pairs: [{~a~: 1}]" in
  parse_json_response text = Ok (VDict [(py "a", VInt 1)]) /\
  (VDict [(py "a", VInt 1)] = VNone \/
   exists d, VDict [(py "a", VInt 1)] = VDict d).
Proof.
  split; [vm_compute; reflexivity |].
  apply (extraction_yields_object_or_none
           (pyq "Pairs: [{~a~: 1}]") JSONDecodeError);
    vm_compute; reflexivity.
Defined.

End extraction_properties.

Section word_pair_properties.
Import worddetective.

(** ** Which elements of the model output are returned *)
Lemma slice_prefix {A : Type} (l : list A) (n : nat) :
  slice l 0 (Z.of_nat n) = take n l.
Proof.
  unfold slice, clamp. change (0 <? 0) with false. cbv iota.
  destruct (Z.ltb_spec (Z.of_nat n) 0); [lia |]. cbv iota.
  rewrite (Z.min_l 0) by lia. change (Z.to_nat 0) with 0%nat.
  change (@firstn A) with (@take A). change (@skipn A) with (@drop A).
  rewrite drop_0.
  destruct (Z.le_gt_cases (Z.of_nat n) (Z.of_nat (length l))).
  - rewrite Z.min_l by lia. f_equal. lia.
  - rewrite Z.min_r by lia. rewrite !take_ge by lia. done.
Qed.

Lemma collect_pairs_containers_from (elements : list value) :
  forall acc,
    forallb is_container elements = true ->
    fold_left
      (fun acc obj =>
         let! pairs := acc in
         let! has_correct := contains (py "correct") obj in
         if negb has_correct then Ok pairs
         else
           let! has_wrong := contains (py "wrong") obj in
           if has_wrong then Ok (pairs ++ [obj]) else Ok pairs)
      elements (Ok acc) = Ok (acc ++ List.filter mentions_both elements).
Proof.
  induction elements as [|obj elements IH]; intros acc Hall.
  { cbn. by rewrite app_nil_r. }
  cbn [forallb] in Hall. apply andb_prop in Hall as [Hobj Hall].
  cbn [fold_left List.filter]. unfold mentions_both at 1.
  destruct obj as [| | | |s|l|d]; try done; cbn [contains].
  - destruct (str_contains _ s); cbn [negb]; [| by apply IH].
    destruct (str_contains _ s); [| by apply IH].
    rewrite IH by done. by rewrite <- app_assoc.
  - destruct (existsb _ l); cbn [negb]; [| by apply IH].
    destruct (existsb _ l); [| by apply IH].
    rewrite IH by done. by rewrite <- app_assoc.
  - destruct (bool_decide _); cbn [negb]; [| by apply IH].
    destruct (bool_decide _); [| by apply IH].
    rewrite IH by done. by rewrite <- app_assoc.
Qed.

Lemma collect_pairs_containers (elements : list value) :
  forallb is_container elements = true ->
  collect_pairs elements = Ok (List.filter mentions_both elements).
Proof. apply (collect_pairs_containers_from elements []). Qed.

Lemma collect_pairs_spoiled_from (elements : list value) :
  forall acc,
    forallb is_container elements = false ->
    fold_left
      (fun acc obj =>
         let! pairs := acc in
         let! has_correct := contains (py "correct") obj in
         if negb has_correct then Ok pairs
         else
           let! has_wrong := contains (py "wrong") obj in
           if has_wrong then Ok (pairs ++ [obj]) else Ok pairs)
      elements (Ok acc) = Raise TypeError.
Proof.
  induction elements as [|obj elements IH]; intros acc Hsome; [done |].
  cbn [forallb] in Hsome. cbn [fold_left].
  destruct obj as [| | | |s|l|d]; cbn [contains is_container andb] in *;
    try apply collect_pairs_raise.
  - destruct (str_contains _ s); cbn [negb]; [| by apply IH].
    destruct (str_contains _ s); by apply IH.
  - destruct (existsb _ l); cbn [negb]; [| by apply IH].
    destruct (existsb _ l); by apply IH.
  - destruct (bool_decide _); cbn [negb]; [| by apply IH].
    destruct (bool_decide _); by apply IH.
Qed.

Lemma collect_pairs_spoiled (elements : list value) :
  forallb is_container elements = false ->
  collect_pairs elements = Raise TypeError.
Proof. apply (collect_pairs_spoiled_from elements []). Qed.

(** When the cleaned content decodes, the handler goes through the
    elements of the payload (of a list; the keys of an object; the
    characters of a string).  If every element is a dict, a list or a
    string, it returns the first six elements that hold both "correct" and
    "wrong", in their order, or the fallback list when there is none.  One
    element of another kind (a number, a truth value, null) makes it
    return the fallback list, whatever the other elements are. *)
Theorem word_pairs_are_first_six_matches
    (p : provider) (req : GenerateRequest) (content : str)
    (more : list (option str)) (parsed : value) (elements : list value) :
  answers_with p (Some content :: more) ->
  Json.loads (cleaned content) = Ok parsed ->
  iter parsed = Ok elements ->
  generate_words p req =
  Ok {| wordPairs :=
          if forallb is_container elements then
            match List.filter mentions_both elements with
            | [] => FALLBACK_WORD_PAIRS
            | pairs => take 6 pairs
            end
          else FALLBACK_WORD_PAIRS |}.
Proof.
  intros Hclient Hloads Hiter.
  unfold generate_words, generate_words_try. rewrite Hclient.
  cbn beta iota zeta. unfold cleaned in Hloads. rewrite Hloads, Hiter.
  destruct (forallb is_container elements) eqn:Hall.
  - rewrite (collect_pairs_containers _ Hall).
    destruct (List.filter mentions_both elements) as [|a pairs]; [done |].
    cbn [length Nat.eqb]. by rewrite (slice_prefix _ 6).
  - by rewrite (collect_pairs_spoiled _ Hall).
Qed.

Lemma word_pairs_are_first_six_matches_witness :
  generate_words
    (groq_says (pyq "[{~correct~: ~cat~}, {~wrong~: ~dgo~, ~correct~: ~dog~}, [~wrong~, ~correct~]]"))
    child_of_seven =
  Ok {| wordPairs :=
          [VDict [(py "wrong", VStr (py "dgo")); (py "correct", VStr (py "dog"))];
           VList [VStr (py "wrong"); VStr (py "correct")]] |} /\
  generate_words
    (groq_says (pyq "[{~correct~: ~dog~, ~wrong~: ~dgo~}, null]"))
    child_of_seven =
  Ok {| wordPairs := FALLBACK_WORD_PAIRS |}.
Proof.
  split.
  - eapply eq_trans.
    + eapply (word_pairs_are_first_six_matches _ child_of_seven _ []).
      * intros model messages. reflexivity.
      * vm_compute. reflexivity.
      * reflexivity.
    + vm_compute. reflexivity.
  - eapply eq_trans.
    + eapply (word_pairs_are_first_six_matches _ child_of_seven _ []).
      * intros model messages. reflexivity.
      * vm_compute. reflexivity.
      * reflexivity.
    + vm_compute. reflexivity.
Defined.

End word_pair_properties.

Section fence_properties.
Import worddetective.

(** ** Removing the fences *)
Section substitution.
Variable matcher : str -> option nat.
Hypothesis progress : forall s k, matcher s = Some k -> (1 <= k)%nat.

Lemma re_sub_fuel_enough (n : nat) :
  forall n' s,
    (length s <= n)%nat -> (length s <= n')%nat ->
    re_sub_fuel n matcher s = re_sub_fuel n' matcher s.
Proof.
  induction n as [|n IH]; intros n' s Hn Hn'.
  { destruct s; [| cbn in Hn; lia]. by destruct n'. }
  destruct s as [|c s]; [by destruct n' |].
  destruct n' as [|n']; [cbn in Hn'; lia |].
  cbn [re_sub_fuel length] in *.
  destruct (matcher (c :: s)) as [k|] eqn:Hk.
  - apply progress in Hk.
    apply IH; rewrite length_skipn; cbn [length]; lia.
  - f_equal. apply IH; lia.
Qed.

Lemma re_sub_cons (c : char) (s : str) :
  re_sub matcher (c :: s) =
  match matcher (c :: s) with
  | Some k => re_sub matcher (skipn k (c :: s))
  | None => c :: re_sub matcher s
  end.
Proof.
  unfold re_sub. cbn [length re_sub_fuel].
  destruct (matcher (c :: s)) as [k|] eqn:Hk; [| done].
  apply progress in Hk.
  apply re_sub_fuel_enough; rewrite ?length_skipn; cbn [length]; lia.
Qed.

Lemma re_sub_plain (body tail : str) :
  (forall c s, c ∈ body -> matcher (c :: s) = None) ->
  re_sub matcher (body ++ tail) = body ++ re_sub matcher tail.
Proof.
  induction body as [|c body IH]; intros Hplain; [done |].
  cbn [app]. rewrite re_sub_cons, Hplain by left.
  f_equal. apply IH. intros d s Hd. apply Hplain. by right.
Qed.
End substitution.

Lemma fence_open_progress (s : str) (k : nat) :
  fence_open s = Some k -> (1 <= k)%nat.
Proof.
  unfold fence_open. repeat (destruct (prefixb _ s)); intros [= <-]; lia.
Qed.

Lemma fence_close_progress (s : str) (k : nat) :
  fence_close s = Some k -> (1 <= k)%nat.
Proof.
  unfold fence_close. destruct (_ || _); intros [= <-]; lia.
Qed.

Lemma fence_open_other (c : char) (s : str) :
  c <> backtick -> fence_open (c :: s) = None.
Proof.
  intros Hc. unfold fence_open, backticks. cbn [app prefixb].
  apply not_eq_sym, N.eqb_neq in Hc. unfold backtick in Hc. by rewrite Hc.
Qed.

Lemma fence_close_other (c : char) (s : str) :
  c <> backtick -> fence_close (c :: s) = None.
Proof.
  intros Hc. unfold fence_close, backticks. cbn [app str_eqb].
  apply N.eqb_neq in Hc. unfold backtick in Hc. by rewrite Hc.
Qed.

Lemma lstrip_suffix (s : str) : exists spaces, s = spaces ++ lstrip s.
Proof.
  induction s as [|c s [spaces IH]]; [by exists [] |].
  cbn [lstrip]. destruct (isspace c); [| by exists []].
  exists (c :: spaces). cbn [app]. by f_equal.
Qed.

Lemma elem_of_rev (c : char) (s : str) : c ∈ rev s -> c ∈ s.
Proof.
  rewrite !list_elem_of_In. apply in_rev.
Qed.

Lemma strip_within (c : char) (s : str) : c ∈ strip s -> c ∈ s.
Proof.
  unfold strip. intros Hc. apply elem_of_rev in Hc.
  destruct (lstrip_suffix (rev (lstrip s))) as [spaces Hrev].
  assert (c ∈ rev (lstrip s)) as Hc'.
  { rewrite Hrev. apply elem_of_app. by right. }
  apply elem_of_rev in Hc'.
  destruct (lstrip_suffix s) as [spaces' Hs].
  rewrite Hs. apply elem_of_app. by right.
Qed.

Lemma strip_fenced (middle : str) :
  strip (backticks ++ middle ++ backticks) = backticks ++ middle ++ backticks.
Proof.
  unfold strip. change (lstrip (backticks ++ middle ++ backticks))
    with (backticks ++ middle ++ backticks).
  rewrite !rev_app_distr. change (rev backticks) with backticks.
  rewrite <- app_assoc.
  change (lstrip (backticks ++ rev middle ++ backticks))
    with (backticks ++ rev middle ++ backticks).
  rewrite !rev_app_distr, rev_involutive. change (rev backticks) with backticks.
  by rewrite <- app_assoc.
Qed.

(** A reply of the form fence, body, newline, fence, whose body holds no
    backtick, is cleaned to the body and the newline, both for a fence
    marked json and for a bare one; a content without any backtick is only
    stripped of the space around it. *)
Theorem fences_are_removed (body : str) :
  backtick ∉ body ->
  cleaned (backticks ++ py "json" ++ [newline] ++ body ++ [newline] ++ backticks)
    = body ++ [newline] /\
  cleaned (backticks ++ [newline] ++ body ++ [newline] ++ backticks)
    = body ++ [newline] /\
  cleaned body = strip body.
Proof.
  intros Hbody.
  assert (Hopen : forall text tail, backtick ∉ text ->
            re_sub fence_open (text ++ tail) = text ++ re_sub fence_open tail).
  { intros text tail Htext. apply re_sub_plain; [apply fence_open_progress |].
    intros c s Hc. apply fence_open_other. by intros ->. }
  assert (Hclose : forall text tail, backtick ∉ text ->
            re_sub fence_close (text ++ tail) = text ++ re_sub fence_close tail).
  { intros text tail Htext. apply re_sub_plain; [apply fence_close_progress |].
    intros c s Hc. apply fence_close_other. by intros ->. }
  assert (Hrest : re_sub fence_close
                    (re_sub fence_open (body ++ [newline] ++ backticks))
                  = body ++ [newline]).
  { rewrite Hopen by done.
    change (re_sub fence_open ([newline] ++ backticks))
      with ([newline] ++ backticks).
    rewrite Hclose by done. reflexivity. }
  unfold cleaned. split_and!.
  - replace (backticks ++ py "json" ++ [newline] ++ body ++ [newline] ++ backticks)
      with (backticks ++ (py "json" ++ [newline] ++ body ++ [newline]) ++ backticks)
      by (by rewrite <- !app_assoc).
    rewrite strip_fenced, <- !app_assoc.
    change (backticks ++ py "json" ++ [newline] ++ body ++ [newline] ++ backticks)
      with (backtick :: backtick :: backtick :: py "json" ++ newline ::
            (body ++ [newline] ++ backticks)).
    rewrite (re_sub_cons _ fence_open_progress). exact Hrest.
  - replace (backticks ++ [newline] ++ body ++ [newline] ++ backticks)
      with (backticks ++ ([newline] ++ body ++ [newline]) ++ backticks)
      by (by rewrite <- !app_assoc).
    rewrite strip_fenced, <- !app_assoc.
    change (backticks ++ [newline] ++ body ++ [newline] ++ backticks)
      with (backtick :: backtick :: backtick :: newline ::
            (body ++ [newline] ++ backticks)).
    rewrite (re_sub_cons _ fence_open_progress). exact Hrest.
  - assert (backtick ∉ strip body) as Hstrip.
    { intros Hc. by apply Hbody, strip_within. }
    rewrite <- (app_nil_r (strip body)).
    rewrite Hopen by done. change (re_sub fence_open []) with (@nil N).
    rewrite Hclose by done. reflexivity.
Qed.

Lemma fences_are_removed_witness :
  (backtick ∉ one_pair_text) /\
  cleaned (backticks ++ py "json" ++ [newline] ++ one_pair_text ++
           [newline] ++ backticks)
    = one_pair_text ++ [newline] /\
  cleaned (backticks ++ [newline] ++ one_pair_text ++ [newline] ++ backticks)
    = one_pair_text ++ [newline] /\
  cleaned one_pair_text = strip one_pair_text.
Proof.
  assert (backtick ∉ one_pair_text) as Hbody.
  { apply (bool_decide_unpack _). vm_compute. exact I. }
  split; [exact Hbody |].
  exact (fences_are_removed _ Hbody).
Defined.

End fence_properties.

Section classifier_properties.
Import worddetective.

(** ** The transposition scan *)
Lemma same_char_spec (a b : option char) :
  same_char a b = true <-> exists x, a = Some x /\ b = Some x.
Proof.
  destruct a as [x|], b as [y|]; cbn [same_char];
    try (split; [done | by intros (? & ? & ?)]).
  rewrite N.eqb_eq. split.
  - intros ->. by exists y.
  - by intros (z & [= ->] & [= ->]).
Qed.

Lemma transposition_scan_lookup (correct wrong : str) (i : nat) (a b : char) :
  correct !! i = Some a -> correct !! S i = Some b ->
  wrong !! i = Some b -> wrong !! S i = Some a ->
  transposed correct wrong = true.
Proof.
  intros Hc0 Hc1 Hw0 Hw1. unfold transposed. apply existsb_exists.
  exists (Z.of_nat i). split.
  - unfold range. apply in_map, in_seq.
    apply lookup_lt_Some in Hw1. lia.
  - unfold at_.
    replace (Z.to_nat (Z.of_nat i + 1)) with (S i) by lia.
    rewrite Nat2Z.id, Hc0, Hc1, Hw0, Hw1. cbn [same_char].
    rewrite !N.eqb_refl, !andb_true_r.
    apply lookup_lt_Some in Hc1. apply Z.ltb_lt. lia.
Qed.

(** The scan of the classifier finds a transposition exactly when, at some
    index, the two letters of the wrong word are the two letters of the
    correct word at the same index in the other order.  Nothing is asked
    of the rest of the two words, nor that the two letters differ. *)
Theorem transposition_scan_spec (correct wrong : str) :
  transposed correct wrong = true <->
  exists (i : nat) (a b : char),
    correct !! i = Some a /\ correct !! S i = Some b /\
    wrong !! i = Some b /\ wrong !! S i = Some a.
Proof.
  unfold transposed. rewrite existsb_exists. split.
  - intros (z & Hz & Htest). unfold range in Hz.
    apply in_map_iff in Hz as (i & <- & Hi). apply in_seq in Hi.
    apply andb_prop in Htest as [Htest H2]. apply andb_prop in Htest as [_ H1].
    apply same_char_spec in H1 as (a & Hw1 & Hc0).
    apply same_char_spec in H2 as (b & Hw0 & Hc1).
    unfold at_ in *.
    replace (Z.to_nat (Z.of_nat i + 1)) with (S i) in * by lia.
    rewrite Nat2Z.id in *.
    by exists i, a, b.
  - intros (i & a & b & Hc0 & Hc1 & Hw0 & Hw1).
    rewrite <- existsb_exists. by apply transposition_scan_lookup with i a b.
Qed.

Lemma nonempty_at {A : Type} (l : list A) (i : nat) (x : A) :
  l !! i = Some x -> negb (Nat.eqb (length l) 0) = true.
Proof. by destruct l. Qed.

(** Two words that hold the same doubled letter at the same place are
    classified as a transposition (unless they are equal up to case and
    spaces), whatever else distinguishes them: a missing or an extra letter
    elsewhere in such a pair is never reported. *)
Theorem shared_double_letter_is_transposition
    (unicode_lower : str -> str) (correct wrong : str) (i : nat) (x : char) :
  correct !! i = Some x -> correct !! S i = Some x ->
  wrong !! i = Some x -> wrong !! S i = Some x ->
  simple_mistake_type unicode_lower correct wrong = py "case/spacing" \/
  simple_mistake_type unicode_lower correct wrong = py "transposition".
Proof.
  intros Hc0 Hc1 Hw0 Hw1. unfold simple_mistake_type, str_truthy.
  rewrite (nonempty_at _ _ _ Hc0), (nonempty_at _ _ _ Hw0). cbn [negb orb].
  destruct (str_eqb _ _); [by left |].
  replace (transposed correct wrong) with true; [by right |].
  symmetry. apply transposition_scan_lookup with i x x; done.
Qed.

Lemma shared_double_letter_is_transposition_witness :
  simple_mistake_type (fun s => s) (py "letter") (py "lettr") = py "case/spacing" \/
  simple_mistake_type (fun s => s) (py "letter") (py "lettr") = py "transposition".
Proof.
  apply (shared_double_letter_is_transposition _ (py "letter") (py "lettr")
           2 (chr "t")); reflexivity.
Defined.

End classifier_properties.

Section analysis_properties.
Import worddetective.
Variable unicode_lower : str -> str.

(** ** The counts of [analyze_results] *)
Lemma total_count_key (k : str) (d : list (str * Z)) :
  total (count_key k d) = total d + 1.
Proof.
  unfold total. induction d as [|[k' n] d IH]; cbn [count_key]; [done |].
  destruct (str_eqb k k'); cbn [map fold_right snd] in *; lia.
Qed.

Lemma histograms_from (attempts : list AttemptEntry) :
  forall common types common' types',
    fold_left
      (fun '(common_mistakes, mistake_types) a =>
         match chosenWord a with
         | Some chosen =>
             if negb (was_correct a) && str_truthy chosen then
               let key :=
                 format_optional (pair_get (py "correct") (presentedPair a))
                 ++ py " -> " ++ chosen in
               let mtype :=
                 simple_mistake_type unicode_lower
                   (match pair_get (py "correct") (presentedPair a) with
                    | Some c => c
                    | None => []
                    end)
                   chosen in
               (count_key key common_mistakes, count_key mtype mistake_types)
             else (common_mistakes, mistake_types)
         | None => (common_mistakes, mistake_types)
         end)
      attempts (common, types) = (common', types') ->
    total common' =
      total common + Z.of_nat (length (List.filter counted_mistake attempts)) /\
    total types' =
      total types + Z.of_nat (length (List.filter counted_mistake attempts)).
Proof.
  induction attempts as [|a attempts IH]; intros common types common' types'.
  { cbn. intros [= <- <-]. lia. }
  cbn [fold_left List.filter].
  destruct (counted_mistake a) eqn:Hm; unfold counted_mistake in Hm.
  - destruct (chosenWord a) as [chosen|]; [| by rewrite andb_false_r in Hm].
    rewrite Hm. intros H. apply IH in H as [-> ->].
    rewrite !total_count_key. cbn [length]. lia.
  - destruct (chosenWord a) as [chosen|]; [rewrite Hm |]; apply IH.
Qed.

Lemma mistakes_among_wrong (attempts : list AttemptEntry) :
  (length (List.filter counted_mistake attempts) +
   length (List.filter was_correct attempts) <= length attempts)%nat.
Proof.
  induction attempts as [|a attempts IH]; [done |].
  cbn [List.filter]. unfold counted_mistake at 1.
  destruct (was_correct a); cbn [negb andb length]; [lia |].
  destruct (match chosenWord a with
            | Some chosen => str_truthy chosen
            | None => false
            end); cbn [length]; lia.
Qed.

(** In every response of the analysis endpoint the score lies between 0
    and the number of questions, which is the number of attempts; there is
    one per-question entry for each attempt, and as many of them are marked
    correct as the score says; the counts of the two histograms,
    [commonMistakes] and [mistakeTypes], both add up to the number of
    attempts that are not correct and have a chosen word that is not empty,
    which is at most the number of questions less the score. *)
Theorem analysis_counts_agree (req : AnalyzeRequest) :
  let response := analyze_results unicode_lower req in
  let mistakes := Z.of_nat (length (List.filter counted_mistake (attempts req))) in
  totalQuestions response = Z.of_nat (length (attempts req)) /\
  0 <= score response <= totalQuestions response /\
  length (perQuestion response) = length (attempts req) /\
  Z.of_nat (length (List.filter pq_wasCorrect (perQuestion response)))
    = score response /\
  total (commonMistakes response) = mistakes /\
  total (mistakeTypes response) = mistakes /\
  mistakes <= totalQuestions response - score response.
Proof.
  intros response mistakes. subst response. unfold analyze_results.
  destruct (fold_left _ (attempts req) ([], [])) as [common types] eqn:Hfold.
  apply histograms_from in Hfold as [Hcommon Htypes].
  cbn [totalQuestions score perQuestion commonMistakes mistakeTypes].
  pose proof (filter_length_le was_correct (attempts req)).
  pose proof (mistakes_among_wrong (attempts req)).
  change (total []) with 0 in *.
  split_and!; try (subst mistakes; lia); [by rewrite length_map |].
  f_equal. clear. induction (attempts req) as [|a l IH]; [done |].
  cbn [map List.filter pq_wasCorrect].
  destruct (was_correct a); cbn [length]; by rewrite IH.
Qed.

(** ** The extremes of the accuracy *)
Lemma int_truediv_zero (n : Z) : Float.int_truediv 0 n = 0%Q.
Proof.
  unfold Float.int_truediv.
  rewrite (Qred_complete (inject_Z 0 / inject_Z n) 0); [done |].
  unfold Qdiv. apply Qmult_0_l.
Qed.

Lemma int_truediv_same (n : Z) : 0 < n -> Float.int_truediv n n = 1%Q.
Proof.
  intros Hn. unfold Float.int_truediv.
  rewrite (Qred_complete (inject_Z n / inject_Z n) 1); [done |].
  unfold Qdiv. apply Qmult_inv_r.
  unfold Qeq. cbn. lia.
Qed.

(** A game without a single correct answer, and so also a game without
    any attempt, has accuracy 0 and is rated "high". *)
Theorem no_correct_answer_is_high_risk (req : AnalyzeRequest) :
  List.filter was_correct (attempts req) = [] ->
  accuracy (analyze_results unicode_lower req) = 0%Q /\
  risk (analyze_results unicode_lower req) = py "high".
Proof.
  intros Hnone. unfold analyze_results. rewrite Hnone.
  destruct (fold_left _ (attempts req) ([], [])) as [common types].
  cbn [accuracy risk length]. change (Z.of_nat 0) with 0.
  rewrite int_truediv_zero.
  by destruct (Z.of_nat (length (attempts req)) =? 0).
Qed.

(** A game with at least one attempt and only correct answers has accuracy
    100 and is rated "low". *)
Theorem all_correct_is_low_risk (req : AnalyzeRequest) :
  attempts req <> [] ->
  forallb was_correct (attempts req) = true ->
  accuracy (analyze_results unicode_lower req) = 100%Q /\
  risk (analyze_results unicode_lower req) = py "low".
Proof.
  intros Hsome Hall. unfold analyze_results.
  assert (List.filter was_correct (attempts req) = attempts req) as ->.
  { induction (attempts req) as [|a l IH]; [done |].
    cbn [forallb] in Hall. apply andb_prop in Hall as [Ha Hall].
    cbn [List.filter]. rewrite Ha. f_equal.
    destruct l; [done |]. by apply IH. }
  destruct (fold_left _ (attempts req) ([], [])) as [common types].
  cbn [accuracy risk].
  destruct (Z.eqb_spec (Z.of_nat (length (attempts req))) 0) as [Hzero|_].
  { destruct (attempts req); [done | cbn [length] in Hzero; lia]. }
  rewrite int_truediv_same; [by vm_compute |].
  destruct (attempts req); [done | cbn [length]; lia].
Qed.

End analysis_properties.

Section analysis_witnesses.
Import worddetective.

Lemma no_correct_answer_is_high_risk_witness :
  accuracy (analyze_results (fun s => s) (game 0 0)) = 0%Q /\
  risk (analyze_results (fun s => s) (game 0 0)) = py "high" /\
  risk (analyze_results (fun s => s) (game 0 3)) = py "high".
Proof.
  split_and!.
  - apply (no_correct_answer_is_high_risk (fun s => s) (game 0 0)). reflexivity.
  - apply (no_correct_answer_is_high_risk (fun s => s) (game 0 0)). reflexivity.
  - apply (no_correct_answer_is_high_risk (fun s => s) (game 0 3)). reflexivity.
Defined.

Lemma all_correct_is_low_risk_witness :
  accuracy (analyze_results (fun s => s) (game 3 3)) = 100%Q /\
  risk (analyze_results (fun s => s) (game 3 3)) = py "low".
Proof.
  apply (all_correct_is_low_risk (fun s => s) (game 3 3));
    [discriminate | reflexivity].
Defined.

(** The word pairs depend on the age and the difficulties only; the
    language and the preferred language of the request have no effect, and
    no difficulties are the same as an empty list of them. *)
Theorem word_pairs_ignore_language
    (p : provider) (req req' : GenerateRequest) :
  age req = age req' ->
  default [] (difficulties req) = default [] (difficulties req') ->
  generate_words p req = generate_words p req'.
Proof.
  intros Hage Hdifficulties. unfold generate_words, generate_words_try.
  change (match difficulties req with Some d => d | None => [] end)
    with (default [] (difficulties req)).
  change (match difficulties req' with Some d => d | None => [] end)
    with (default [] (difficulties req')).
  unfold build_generate_prompt. by rewrite Hage, Hdifficulties.
Qed.

Lemma word_pairs_ignore_language_witness :
  generate_words (groq_says one_pair_text) child_of_seven =
  generate_words (groq_says one_pair_text)
    {| age := 7; language := Some (py "hindi"); difficulties := None;
       preferredLanguage := None |}.
Proof.
  apply word_pairs_ignore_language; reflexivity.
Defined.

End analysis_witnesses.

Section password_properties.
Import auth_routes.
Variable unicode_isupper : char -> bool.
Variable unicode_isdigit : char -> bool.

(** ** The password rule *)
Lemma str_contains_char (c : char) (s : str) :
  str_contains [c] s = true <-> c ∈ s.
Proof.
  induction s as [|d s IH]; cbn [str_contains prefixb].
  - split; [done | by intros ?%elem_of_nil].
  - rewrite andb_true_r, orb_true_iff, IH, N.eqb_eq, elem_of_cons. reflexivity.
Qed.

Lemma validate_password_checks (password : str) :
  validate_password unicode_isupper unicode_isdigit password = [] <->
  (Z.of_nat (length password) <? min_length) = false /\
  existsb (isupper unicode_isupper) password = true /\
  existsb (isdigit unicode_isdigit) password = true /\
  existsb (fun c => str_contains [c] special_characters) password = true.
Proof.
  unfold validate_password, append_if, require_upper, require_number,
    require_special.
  destruct (Z.of_nat (length password) <? min_length),
    (existsb (isupper unicode_isupper) password),
    (existsb (isdigit unicode_isdigit) password),
    (existsb (fun c => str_contains [c] special_characters) password);
    cbn [andb negb app]; split; try done; intros (? & ? & ? & ?); done.
Qed.

(** A password passes, that is, the list of complaints is empty, exactly
    when it has at least eight characters and holds an uppercase letter, a
    digit and one of the listed special characters. *)
Theorem password_accepted_iff (password : str) :
  validate_password unicode_isupper unicode_isdigit password = [] <->
  (8 <= length password)%nat /\
  has_some (isupper unicode_isupper) password /\
  has_some (isdigit unicode_isdigit) password /\
  has_some (fun c => bool_decide (c ∈ special_characters)) password.
Proof.
  rewrite validate_password_checks. unfold has_some, min_length.
  rewrite Z.ltb_ge, !existsb_exists.
  setoid_rewrite <- list_elem_of_In. setoid_rewrite str_contains_char.
  setoid_rewrite bool_decide_eq_true.
  split; intros (? & ? & ? & ?); split_and!; try done; lia.
Qed.

(** A password that passes still passes with any characters put before
    and after it. *)
Theorem longer_password_stays_valid (before password after : str) :
  validate_password unicode_isupper unicode_isdigit password = [] ->
  validate_password unicode_isupper unicode_isdigit
    (before ++ password ++ after) = [].
Proof.
  rewrite !validate_password_checks. unfold min_length.
  intros (Hlen & Hupper & Hdigit & Hspecial).
  rewrite !existsb_app, Hupper, Hdigit, Hspecial, !orb_true_r.
  split_and!; try done.
  apply Z.ltb_ge in Hlen. apply Z.ltb_ge. rewrite !length_app. lia.
Qed.

End password_properties.

Section password_witnesses.
Import auth_routes.

Lemma longer_password_stays_valid_witness :
  validate_password (fun _ => false) (fun _ => false) (py "Abcdef1!") = [] /\
  validate_password (fun _ => false) (fun _ => false)
    (py "my " ++ py "Abcdef1!" ++ py " pass") = [].
Proof.
  split; [reflexivity |].
  apply (longer_password_stays_valid _ _ (py "my ") (py "Abcdef1!") (py " pass")).
  reflexivity.
Defined.

End password_witnesses.

Section current_parent_properties.
Import auth_dependencies.
Variable oid : Type.
Variable document : Type.
Variable decode_token : str -> result (list (str * value)).
Variable ObjectId : value -> result oid.
Variable parents_find_one : oid -> result (option document).
Variable id_str : document -> str.

(** ** The authenticated parent *)

(** [get_current_parent] returns a parent only for a cookie that is not
    empty, decodes, names a subject, and whose subject is the id of a
    stored parent.  In every other case it raises an [HTTPException] with
    status 401, with the detail "Not authenticated" for a missing or empty
    cookie and "Invalid or expired token" otherwise: the status 404 and
    the details "Invalid token" and "Parent not found" of the inner [raise]
    statements never leave the function. *)
Theorem get_current_parent_raises_401_only (session_token : option str) :
  match get_current_parent oid document decode_token ObjectId
          parents_find_one id_str session_token with
  | Return (parent_id, parent) =>
      exists token payload subject id,
        session_token = Some token /\ token <> [] /\
        decode_token token = Return payload /\
        dict_get (py "sub") payload = Some subject /\
        truthy subject = true /\
        ObjectId subject = Return id /\
        parents_find_one id = Return (Some parent) /\
        parent_id = id_str parent
  | Raised e =>
      (e = HTTPException 401 (py "Not authenticated") /\
       (session_token = None \/ session_token = Some [])) \/
      (e = HTTPException 401 (py "Invalid or expired token") /\
       exists token, session_token = Some token /\ token <> [])
  end.
Proof.
  unfold get_current_parent.
  destruct session_token as [token|]; [| left; by split; [| left]].
  destruct token as [|c token]; [left; by split; [| right] |].
  cbn [str_truthy length Nat.eqb negb].
  unfold lookup_parent, bind.
  destruct (decode_token (c :: token)) as [payload|e] eqn:Hdecode;
    [| right; split; [done | by eexists]].
  destruct (dict_get (py "sub") payload) as [subject|] eqn:Hsub;
    [| right; split; [done | by eexists]].
  destruct (truthy subject) eqn:Htruthy; cbn [negb];
    [| right; split; [done | by eexists]].
  destruct (ObjectId subject) as [id|e] eqn:Hid;
    [| right; split; [done | by eexists]].
  destruct (parents_find_one id) as [[parent|]|e] eqn:Hfind;
    [| right; split; [done | by eexists].. ].
  exists (c :: token), payload, subject, id. split_and!; done.
Qed.

End current_parent_properties.

Section submission_properties.
Import tests_routes.
Variable oid : Type.
Variable ObjectId : value -> result oid.
Variable find_one :
  collection -> list (str * key oid) -> bool ->
  result (option (str * list (str * value))).
Variable insert_one : collection -> value -> result str.
Variable utcnow : str.

(** ** Submissions *)
Lemma find_server_analysis_raises (payload : TestSubmitUnion) :
  find_server_analysis oid find_one payload =
  Raised (NameError "test_ai_analysis_col").
Proof.
  unfold find_server_analysis.
  by destruct (truthy (get (py "sessionId") (results payload))).
Qed.

(** Every way [submit_test] can end: with the 404 response and nothing
    stored; with an exception of the insertion and nothing stored; or with
    the 201 response that names the id of the one document stored.  The
    stored document is determined by the submission and the time alone.
    The analysis the server holds for the session or the student is never
    attached to it, whatever the database contains, because the name of
    that collection is not bound in the module and the [NameError] is
    caught; an analysis the submission brings along is stored marked with
    source "frontend". *)
Theorem submit_test_outcomes (payload : TestSubmitUnion) (parent_id : str) :
  let outcome :=
    submit_test oid ObjectId find_one insert_one utcnow payload parent_id in
  outcome = (Return not_found_response, []) \/
  (exists e, outcome = (Raised e, [])) \/
  (exists test_id,
     insert_one tests (VDict (stored_doc utcnow payload)) = Return test_id /\
     outcome = (Return (submitted_response test_id),
                [VDict (stored_doc utcnow payload)])).
Proof.
  intros outcome. subst outcome. unfold submit_test.
  destruct (match bind (global "students_col") _ with
            | Return student => student
            | Raised _ => None
            end) as [student|]; [| by left].
  right. rewrite find_server_analysis_raises.
  change (bind (global "tests_col") ?f) with (f tests). cbv beta.
  fold (frontend_analysis payload).
  replace (if truthy (get (py "aiAnalysis") (results payload))
           then dict_set (py "aiAnalysis")
                  (VDict [(py "source", VStr (py "frontend"));
                          (py "analysis", get (py "aiAnalysis") (results payload))])
                  (test_doc utcnow payload)
           else test_doc utcnow payload)
    with (stored_doc utcnow payload)
    by (unfold stored_doc, frontend_analysis;
        by destruct (truthy (get (py "aiAnalysis") (results payload)))).
  destruct (insert_one tests (VDict (stored_doc utcnow payload)))
    as [test_id|e] eqn:Hinsert.
  - right. by exists test_id.
  - left. by exists e.
Qed.

(** A submission for a student that the lookup does not find under the
    authenticated parent (the id is malformed, the lookup fails, or there
    is no such student of this parent) is answered with 404, and nothing
    is stored. *)
Theorem unknown_student_stores_nothing (payload : TestSubmitUnion)
    (parent_id : str) :
  (forall id found,
     ObjectId (VStr (studentId payload)) = Return id ->
     find_one students
       [(py "_id", Id id); (py "parentId", Val (VStr parent_id))] false
     <> Return (Some found)) ->
  submit_test oid ObjectId find_one insert_one utcnow payload parent_id =
  (Return not_found_response, []).
Proof.
  intros Hunknown. unfold submit_test.
  change (bind (global "students_col") ?f) with (f students). cbv beta.
  unfold bind at 1.
  destruct (ObjectId (VStr (studentId payload))) as [id|e] eqn:Hid; [| done].
  destruct (find_one students _ false) as [[found|]|e] eqn:Hfind; try done.
  by destruct (Hunknown id found).
Qed.

(** [get_test_detail] answers with 200, 403 or 404 when it returns, and
    with 200 only for a stored test whose student exists and has the
    authenticated parent as its "parentId"; the content is then the stored
    document with its id. *)
Theorem test_detail_only_for_owner (test_id parent_id : str)
    (response : JSONResponse) :
  get_test_detail oid ObjectId find_one test_id parent_id = Return response ->
  (status_code response = 404 \/ status_code response = 403 \/
   status_code response = 200) /\
  (status_code response = 200 ->
   exists id doc_id doc student_ref student_id student_doc_id student,
     ObjectId (VStr test_id) = Return id /\
     find_one tests [(py "_id", Id id)] false = Return (Some (doc_id, doc)) /\
     dict_get (py "studentId") doc = Some student_ref /\
     ObjectId student_ref = Return student_id /\
     find_one students [(py "_id", Id student_id)] false
       = Return (Some (student_doc_id, student)) /\
     get (py "parentId") student = VStr parent_id /\
     content response =
       VDict [(py "data", VDict (dict_set (py "id") (VStr doc_id) doc))]).
Proof.
  unfold get_test_detail.
  change (bind (global "tests_col") ?f) with (f tests).
  change (bind (global "students_col") ?f) with (f students). cbv beta.
  unfold bind.
  destruct (ObjectId (VStr test_id)) as [id|] eqn:Hid; [| done].
  destruct (find_one tests _ false) as [[[doc_id doc]|]|] eqn:Hdoc; [| | done].
  2:{ intros [= <-]. cbn. split; [by left | done]. }
  destruct (dict_get (py "studentId") doc) as [student_ref|] eqn:Href; [| done].
  destruct (ObjectId student_ref) as [student_id|] eqn:Hsid; [| done].
  destruct (find_one students _ false) as [[[student_doc_id student]|]|]
    eqn:Hstudent; [| | done].
  2:{ intros [= <-]. cbn. split; [right; by left | done]. }
  destruct (get (py "parentId") student) as [| | | |owner| |] eqn:Howner;
    try (intros [= <-]; cbn; split; [right; by left | done]).
  destruct (str_eqb owner parent_id) eqn:Hsame; cbn [negb];
    intros [= <-]; cbn [status_code content].
  - split; [right; by right |]. intros _.
    apply str_eqb_eq in Hsame as ->.
    by exists id, doc_id, doc, student_ref, student_id, student_doc_id, student.
  - split; [right; by left | done].
Qed.

End submission_properties.

Section submission_witnesses.
Import tests_routes.

Lemma unknown_student_stores_nothing_witness :
  submit_test str sample_ObjectId sample_find_one sample_insert_one
    (py "2026-01-01T00:00:00") (sample_submission sample_student) (py "p2") =
  (Return not_found_response, []).
Proof.
  apply unknown_student_stores_nothing.
  intros id found [= <-]. vm_compute. discriminate.
Defined.

Lemma test_detail_only_for_owner_witness :
  exists response,
    get_test_detail str sample_ObjectId sample_find_one
      (py "aaaaaaaaaaaaaaaaaaaaaaaa") (py "p1") = Return response /\
    status_code response = 200 /\
    content response =
      VDict [(py "data",
              VDict [(py "studentId", VStr sample_student);
                     (py "id", VStr (py "aaaaaaaaaaaaaaaaaaaaaaaa"))])].
Proof.
  eexists. split; [vm_compute; reflexivity |]. split; [reflexivity |].
  edestruct (test_detail_only_for_owner str sample_ObjectId sample_find_one
               (py "aaaaaaaaaaaaaaaaaaaaaaaa") (py "p1")) as [_ Hfound].
  { vm_compute. reflexivity. }
  destruct (Hfound eq_refl)
    as (id & doc_id & doc & ? & ? & ? & ? & [= <-] & Hdoc & _ & _ & _ & _ & ->).
  vm_compute in Hdoc. by injection Hdoc as <- <-.
Defined.

(** In the sample database, which holds an analysis for every session,
    the stored document still carries the analysis of the submission,
    marked as coming from the frontend. *)
Lemma stored_analysis_is_the_frontend_one :
  snd (submit_test str sample_ObjectId sample_find_one sample_insert_one
         (py "2026-01-01T00:00:00") (sample_submission sample_student) (py "p1"))
  = [VDict (stored_doc (py "2026-01-01T00:00:00")
              (sample_submission sample_student))] /\
  dict_get (py "aiAnalysis")
    (stored_doc (py "2026-01-01T00:00:00") (sample_submission sample_student))
  = Some (VDict [(py "source", VStr (py "frontend"));
                 (py "analysis", VDict [(py "confidence", VInt 0)])]).
Proof. split; vm_compute; reflexivity. Qed.

End submission_witnesses.

Section login_properties.
Import auth_login.
Variable unicode_lower : str -> str.
Variable COOKIE_NAME : str.
Variable expire_minutes : Z.
Variable parents_find_by_email : str -> result (option (str * list (str * value))).
Variable verify_password : str -> value -> result bool.
Variable create_access_token : str -> result (str * str).

(** ** Login *)

(** When [login] returns, it does so in one of two ways.  It answers 200
    and sets exactly one cookie, which holds a token made for the id of the
    parent stored under the lower-cased email, and whose stored hash the
    password has been verified against.  Or it answers with one and the
    same 401 response, without any cookie, whether the email is unknown or
    the password is wrong. *)
Theorem login_outcomes (login_req : LoginRequest) (response : JSONResponse) :
  login unicode_lower COOKIE_NAME expire_minutes parents_find_by_email
    verify_password create_access_token login_req = Return response ->
  response = invalid_credentials \/
  exists parent_id parent password_hash token expiry,
    parents_find_by_email (lower unicode_lower (email login_req))
      = Return (Some (parent_id, parent)) /\
    password_hash = default (VStr []) (dict_get (py "password_hash") parent) /\
    verify_password (password login_req) password_hash = Return true /\
    create_access_token parent_id = Return (token, expiry) /\
    status_code response = 200 /\
    map (fun c => (key c, cookie_value c)) (cookies response)
      = [(COOKIE_NAME, token)].
Proof.
  unfold login, bind.
  destruct (parents_find_by_email _) as [[[parent_id parent]|]|] eqn:Hfind;
    [| intros [= <-]; by left | done].
  destruct (verify_password _ _) as [[|]|] eqn:Hverify; cbn [negb];
    [| intros [= <-]; by left | done].
  destruct (create_access_token parent_id) as [[token expiry]|] eqn:Htoken;
    [| done].
  intros [= <-]. right.
  exists parent_id, parent,
    (default (VStr []) (dict_get (py "password_hash") parent)), token, expiry.
  split_and!; done.
Qed.

End login_properties.

Section login_witness.
Import auth_login.

Lemma login_outcomes_witness :
  exists response,
    login (fun s => s) (py "lexiassist_session") 60
      (fun email =>
         if str_eqb email (py "ann@example.org")
         then Return (Some (py "p1", [(py "password_hash", VStr (py "h"))]))
         else Return None)
      (fun plain hashed => Return (str_eqb plain (py "Abcdef1!")))
      (fun subject => Return (py "token-of-" ++ subject, py "later"))
      {| email := py "Ann@Example.org"; password := py "Abcdef1!" |}
    = Return response /\
    status_code response = 200 /\
    map (fun c => (key c, cookie_value c)) (cookies response)
      = [(py "lexiassist_session", py "token-of-p1")].
Proof.
  eexists. split; [vm_compute; reflexivity |]. split; [reflexivity |].
  edestruct (login_outcomes (fun s => s) (py "lexiassist_session") 60
               (fun email =>
                  if str_eqb email (py "ann@example.org")
                  then Return (Some (py "p1", [(py "password_hash", VStr (py "h"))]))
                  else Return None)
               (fun plain hashed => Return (str_eqb plain (py "Abcdef1!")))
               (fun subject => Return (py "token-of-" ++ subject, py "later"))
               {| email := py "Ann@Example.org"; password := py "Abcdef1!" |})
    as [Hinvalid | _].
  { vm_compute. reflexivity. }
  - vm_compute in Hinvalid. discriminate.
  - reflexivity.
Defined.

End login_witness.

Section middleware_properties.
Import main.
Variable bytes : Type.
Variable nonempty : bytes -> bool.
Variable join_bytes : list bytes -> bytes.
Variable decode : bytes -> result str.
Variable call_next : Request bytes -> result (Response bytes).
Variable insert_one : collection -> value -> result unit.
Variable now_iso : str.
Variable dict_of_headers : list (str * str) -> list (str * str).

(** ** The capturing middleware *)

(** The middleware is transparent.  It calls the application once; an
    exception of the application passes through, and nothing is stored
    then; a response comes back with the same status code and media type
    and with the same bytes for the client, provided that joining the one
    chunk of a buffered body gives that chunk back.  Its headers are those
    of the application's response, or the dict made of them when the body
    has been buffered. *)
Theorem capture_is_transparent (request : Request bytes) :
  (forall chunks, join_bytes [join_bytes chunks] = join_bytes chunks) ->
  let outcome :=
    capture_storybook_responses bytes nonempty join_bytes decode call_next
      insert_one now_iso dict_of_headers request in
  match call_next request with
  | Raised e => outcome = (Raised e, [])
  | Return response =>
      exists response',
        fst outcome = Return response' /\
        status_code bytes response' = status_code bytes response /\
        media_type bytes response' = media_type bytes response /\
        sent join_bytes response' = sent join_bytes response /\
        (headers bytes response' = headers bytes response \/
         headers bytes response' = dict_of_headers (headers bytes response))
  end.
Proof.
  intros Hjoin outcome. subst outcome. unfold capture_storybook_responses.
  destruct (prefixb (py "/api/storybook/") (path bytes request)); cbn [negb].
  - destruct (call_next request) as [response|e]; [| done].
    destruct (response_body bytes response) as [b|[chunks|e]] eqn:Hbody.
    + exists response. split_and!; try done. by left.
    + eexists. split; [done |]. cbn [status_code media_type headers].
      split_and!; try done; [| by right].
      unfold sent. cbn [response_body]. by rewrite Hbody, Hjoin.
    + exists response. split_and!; try done. by left.
  - destruct (call_next request) as [response|e]; [| done].
    exists response. split_and!; try done. by left.
Qed.

(** The database has no influence on what the client gets: the first
    component of the outcome is the same for any two behaviours of
    [insert_one], failures included. *)
Theorem database_never_changes_the_response
    (insert_one' : collection -> value -> result unit)
    (request : Request bytes) :
  fst (capture_storybook_responses bytes nonempty join_bytes decode call_next
         insert_one now_iso dict_of_headers request) =
  fst (capture_storybook_responses bytes nonempty join_bytes decode call_next
         insert_one' now_iso dict_of_headers request).
Proof.
  unfold capture_storybook_responses.
  destruct (prefixb (py "/api/storybook/") (path bytes request)); cbn [negb];
    [| done].
  destruct (call_next request) as [response|e]; [| done].
  by destruct (response_body bytes response) as [b|[chunks|e]].
Qed.

(** One request leads to at most one stored document.  A document is
    stored only for a path under "/api/storybook/" and after the
    application has returned: in the rounds collection when the path ends
    in "/generate-rounds", in the analysis collection when it ends in
    "/analyze-response"; it holds the request body as read by the
    middleware and, as its "sessionId", the field of that name of a request
    body that is a JSON object, and None otherwise. *)
Theorem captured_documents (request : Request bytes) :
  let stored :=
    snd (capture_storybook_responses bytes nonempty join_bytes decode call_next
           insert_one now_iso dict_of_headers request) in
  let req_body := read_request_body bytes nonempty decode request in
  stored = [] \/
  exists col fields response,
    stored = [(col, VDict fields)] /\
    insert_one col (VDict fields) = Return tt /\
    prefixb (py "/api/storybook/") (path bytes request) = true /\
    call_next request = Return response /\
    dict_get (py "request") fields = Some req_body /\
    dict_get (py "sessionId") fields
      = Some (get_if_dict (py "sessionId") req_body) /\
    dict_get (py "path") fields = Some (VStr (path bytes request)) /\
    ((col = test_ai_rounds /\
      endswith (path bytes request) (py "/generate-rounds") = true) \/
     (col = test_ai_analysis /\
      endswith (path bytes request) (py "/analyze-response") = true)).
Proof.
  intros stored req_body. subst stored req_body.
  unfold capture_storybook_responses.
  destruct (prefixb (py "/api/storybook/") (path bytes request)) eqn:Hpath;
    cbn [negb]; [| by left].
  destruct (call_next request) as [response|e] eqn:Hcall; [| by left].
  assert (Hsave : forall resp_json,
    let stored :=
      save insert_one now_iso (path bytes request)
        (read_request_body bytes nonempty decode request) resp_json in
    stored = [] \/
    exists col fields,
      stored = [(col, VDict fields)] /\
      insert_one col (VDict fields) = Return tt /\
      dict_get (py "request") fields
        = Some (read_request_body bytes nonempty decode request) /\
      dict_get (py "sessionId") fields
        = Some (get_if_dict (py "sessionId")
                  (read_request_body bytes nonempty decode request)) /\
      dict_get (py "path") fields = Some (VStr (path bytes request)) /\
      ((col = test_ai_rounds /\
        endswith (path bytes request) (py "/generate-rounds") = true) \/
       (col = test_ai_analysis /\
        endswith (path bytes request) (py "/analyze-response") = true))).
  { intros resp_json stored. subst stored. unfold save.
    destruct (endswith _ (py "/generate-rounds")) eqn:Hrounds.
    - destruct (insert_one test_ai_rounds _) as [[]|] eqn:Hinsert; [| by left].
      right. eexists _, _. split; [reflexivity |].
      split_and!; try done. by left.
    - destruct (endswith _ (py "/analyze-response")) eqn:Hanalysis; [| by left].
      destruct (insert_one test_ai_analysis _) as [[]|] eqn:Hinsert; [| by left].
      right. eexists _, _. split; [reflexivity |].
      split_and!; try done. by right. }
  destruct (response_body bytes response) as [b|[chunks|e]]; cbn [snd];
    [| | by left].
  - destruct (Hsave (loads_or bytes decode VNone b))
      as [-> | (col & fields & -> & ? & ? & ? & ? & ?)]; [by left |].
    right. by exists col, fields, response.
  - destruct (Hsave (loads_or bytes decode VNone (join_bytes chunks)))
      as [-> | (col & fields & -> & ? & ? & ? & ? & ?)]; [by left |].
    right. by exists col, fields, response.
Qed.

End middleware_properties.

Section middleware_witness.
Import main.

Lemma capture_is_transparent_witness :
  exists response',
    fst (capture_storybook_responses str (fun b => negb (Nat.eqb (length b) 0))
           (@concat N)
           (fun b => Return b) sample_call_next (fun _ _ => Return tt)
           (py "2026-01-01T00:00:00") (fun hs => hs)
           (sample_request "/api/storybook/generate-rounds"))
      = Return response' /\
    sent (@concat N) response' = Return (pyq "{~source~: ~fallback~}").
Proof.
  pose proof (capture_is_transparent str (fun b => negb (Nat.eqb (length b) 0))
                (@concat N)
                (fun b => Return b) sample_call_next (fun _ _ => Return tt)
                (py "2026-01-01T00:00:00") (fun hs => hs)
                (sample_request "/api/storybook/generate-rounds")) as H.
  destruct H as (response' & Hfst & _ & _ & Hsent & _).
  - intros chunks. cbn [concat]. apply app_nil_r.
  - exists response'. split; [exact Hfst |]. rewrite Hsent. reflexivity.
Defined.

End middleware_witness.
